(** * Finance analysis engine of actual-budget-reporter (src/src/analyzer.py)

    Shallow embedding of [FinanceAnalyzer.calculate_weekly_stats],
    [FinanceAnalyzer.detect_anomalies] and
    [FinanceAnalyzer.calculate_budget_health], with the [Transaction]
    dataclass of src/src/actual_client.py.

    Modelling conventions.
    - Python [int] is [Z]; Python [str] is [String.string] (ASCII text).
    - A raised exception is the [Err] branch of [res].
    - A Python [float] is a binary64 value of the Standard Library's
      [SpecFloat] ([prec = 53], [emax = 1024]).  [int / int] is the
      correctly rounded quotient (as CPython's true division of ints),
      raising [OverflowError] when it rounds to infinity.  Python compares
      floats (and ints against floats) by their exact values: [float_val]
      gives that value in [Q].
    - A Python [dict] is an association list kept in insertion order. *)

From Stdlib Require Import ZArith QArith List String Ascii Bool Lia.
From Stdlib Require Import Permutation Sorting.Sorted Lqa Setoid.
From Stdlib Require Import Floats.SpecFloat.
Import ListNotations.

Open Scope Z_scope.

(** ** Exceptions and the error monad *)

Inductive exn := ValueError | OverflowError | ZeroDivisionError.

Inductive res (A : Type) := Ok (a : A) | Err (e : exn).
Arguments Ok {A} a.
Arguments Err {A} e.

Definition bind {A B} (m : res A) (k : A -> res B) : res B :=
  match m with Ok a => k a | Err e => Err e end.

Notation "x <- m ;; k" := (bind m (fun x => k))
  (at level 61, m at next level, right associativity).

Fixpoint mapM {A B} (f : A -> res B) (l : list A) : res (list B) :=
  match l with
  | [] => Ok []
  | x :: xs => y <- f x ;; ys <- mapM f xs ;; Ok (y :: ys)
  end.

(** ** Strings *)

(** [str.lower] on ASCII text. *)
Definition lower_ascii (c : ascii) : ascii :=
  let n := nat_of_ascii c in
  if (65 <=? n)%nat && (n <=? 90)%nat then ascii_of_nat (n + 32) else c.

Fixpoint lower (s : string) : string :=
  match s with
  | EmptyString => EmptyString
  | String c s' => String (lower_ascii c) (lower s')
  end.

(** [sub in s]. *)
Fixpoint contains (sub s : string) : bool :=
  prefix sub s ||
  match s with
  | EmptyString => false
  | String _ s' => contains sub s'
  end.

(** [x or ""] on an [Optional[str]]: [None] and [""] are falsy. *)
Definition or_empty (o : option string) : string :=
  match o with Some s => s | None => "" end.

(** Truthiness of an [Optional[str]]. *)
Definition truthy_str (o : option string) : bool :=
  match o with Some (String _ _) => true | _ => false end.

(** [t.category or "未分类"]. *)
Definition UNCATEGORIZED_LABEL : string := "未分类".

Definition or_uncategorized (o : option string) : string :=
  if truthy_str o then or_empty o else UNCATEGORIZED_LABEL.

(** ** Transactions (src/src/actual_client.py, [@dataclass Transaction]) *)

Record Transaction := mkTransaction {
  id : string;
  date : string;
  amount : Z;                 (* cents *)
  payee : string;
  category : option string;
  account : string;
  notes : option string;
  is_transfer : bool
}.

(** The filter of [calculate_weekly_stats] (lines 57-74): [true] when the
    transaction is appended to [valid_txns].  [(t.payee or "")] on a [str]
    is the payee itself, except that the empty string stays empty. *)
Definition keep_txn (t : Transaction) : bool :=
  if is_transfer t then false
  else
    let payee_lower := lower (payee t) in
    let category_lower := lower (or_empty (category t)) in
    let notes_lower := lower (or_empty (notes t)) in
    if contains "transfer" payee_lower || contains "transfer" category_lower
    then false
    else true.

Definition valid_txns (ts : list Transaction) : list Transaction :=
  filter keep_txn ts.

(** ** Dates: [datetime.strptime(s, "%Y-%m-%d")], [strftime], [_ymd2ord]

    [_strptime] matches [(?P<Y>\d\d\d\d)-(?P<m>1[0-2]|0[1-9]|[1-9])-
    (?P<d>3[01]|[12]\d|0[1-9]|[1-9]| [1-9])] at the start of the string,
    raises [ValueError] when text is left over, and then builds
    [datetime(year, month, day)], which raises [ValueError] for year 0 or a
    day past the end of the month. *)

Record datetime := mkDatetime { dt_year : Z; dt_month : Z; dt_day : Z }.

Definition digit_val (c : ascii) : option Z :=
  let n := nat_of_ascii c in
  if (48 <=? n)%nat && (n <=? 57)%nat then Some (Z.of_nat n - 48) else None.

(** The text of the [m] group, when the whole [rest] is in its language. *)
Definition parse_month (s : string) : option Z :=
  match s with
  | String a (String b EmptyString) =>
      match digit_val a, digit_val b with
      | Some 1, Some x => if x <=? 2 then Some (10 + x) else None
      | Some 0, Some x => if 1 <=? x then Some x else None
      | _, _ => None
      end
  | String a EmptyString =>
      match digit_val a with
      | Some x => if 1 <=? x then Some x else None
      | None => None
      end
  | _ => None
  end.

Definition parse_day (s : string) : option Z :=
  match s with
  | String a (String b EmptyString) =>
      if Ascii.eqb a " "%char then
        match digit_val b with
        | Some x => if 1 <=? x then Some x else None
        | None => None
        end
      else
        match digit_val a, digit_val b with
        | Some 3, Some x => if x <=? 1 then Some (30 + x) else None
        | Some 1, Some x => Some (10 + x)
        | Some 2, Some x => Some (20 + x)
        | Some 0, Some x => if 1 <=? x then Some x else None
        | _, _ => None
        end
  | String a EmptyString =>
      match digit_val a with
      | Some x => if 1 <=? x then Some x else None
      | None => None
      end
  | _ => None
  end.

(** Split at the first ["-"]. *)
Fixpoint split_dash (s : string) : option (string * string) :=
  match s with
  | EmptyString => None
  | String c s' =>
      if Ascii.eqb c "-"%char then Some (EmptyString, s')
      else match split_dash s' with
           | Some (l, r) => Some (String c l, r)
           | None => None
           end
  end.

Definition is_leap (y : Z) : bool :=
  (y mod 4 =? 0) && (negb (y mod 100 =? 0) || (y mod 400 =? 0)).

Definition days_in_month (y m : Z) : Z :=
  match m with
  | 2 => if is_leap y then 29 else 28
  | 4 | 6 | 9 | 11 => 30
  | _ => 31
  end.

Definition strptime_ymd (s : string) : res datetime :=
  match s with
  | String y1 (String y2 (String y3 (String y4 (String sep rest)))) =>
      match digit_val y1, digit_val y2, digit_val y3, digit_val y4 with
      | Some a, Some b, Some c, Some d =>
          if Ascii.eqb sep "-"%char then
            match split_dash rest with
            | Some (ms, ds) =>
                match parse_month ms, parse_day ds with
                | Some m, Some dd =>
                    let y := 1000 * a + 100 * b + 10 * c + d in
                    if (1 <=? y) && (dd <=? days_in_month y m)
                    then Ok (mkDatetime y m dd) else Err ValueError
                | _, _ => Err ValueError
                end
            | None => Err ValueError
            end
          else Err ValueError
      | _, _, _, _ => Err ValueError
      end
  | _ => Err ValueError
  end.

(** [datetime] comparison: lexicographic on (year, month, day). *)
Definition dt_lt (a b : datetime) : bool :=
  (dt_year a <? dt_year b) ||
  ((dt_year a =? dt_year b) &&
   ((dt_month a <? dt_month b) ||
    ((dt_month a =? dt_month b) && (dt_day a <? dt_day b)))).

(** Builtin [min] / [max] over a non-empty list: the first least / greatest
    element ([None] for the empty list, where Python raises). *)
Fixpoint min_from (cur : datetime) (l : list datetime) : datetime :=
  match l with
  | [] => cur
  | x :: xs => min_from (if dt_lt x cur then x else cur) xs
  end.

Fixpoint max_from (cur : datetime) (l : list datetime) : datetime :=
  match l with
  | [] => cur
  | x :: xs => max_from (if dt_lt cur x then x else cur) xs
  end.

Definition py_min (l : list datetime) : option datetime :=
  match l with [] => None | x :: xs => Some (min_from x xs) end.

Definition py_max (l : list datetime) : option datetime :=
  match l with [] => None | x :: xs => Some (max_from x xs) end.

(** [_ymd2ord] of CPython's datetime module. *)
Definition days_before_year (y : Z) : Z :=
  let y1 := y - 1 in y1 * 365 + y1 / 4 - y1 / 100 + y1 / 400.

Definition DAYS_BEFORE_MONTH (m : Z) : Z :=
  match m with
  | 1 => 0 | 2 => 31 | 3 => 59 | 4 => 90 | 5 => 120 | 6 => 151
  | 7 => 181 | 8 => 212 | 9 => 243 | 10 => 273 | 11 => 304 | _ => 334
  end.

Definition days_before_month (y m : Z) : Z :=
  DAYS_BEFORE_MONTH m + (if (2 <? m) && is_leap y then 1 else 0).

Definition ymd2ord (d : datetime) : Z :=
  days_before_year (dt_year d) + days_before_month (dt_year d) (dt_month d)
  + dt_day d.

(** [(a - b).days]. *)
Definition days_between (a b : datetime) : Z := ymd2ord a - ymd2ord b.

Definition digit_char (n : Z) : ascii := ascii_of_nat (Z.to_nat (48 + n)).

(** [str(n)] of an int: its decimal digits, most significant first, after
    a minus sign when [n < 0].  The fuel, the bit length of [n], is at
    least its number of decimal digits. *)
Fixpoint digits_rev (fuel : nat) (n : Z) (acc : string) : string :=
  match fuel with
  | O => acc
  | S f =>
      let acc := String (digit_char (n mod 10)) acc in
      if n <? 10 then acc else digits_rev f (n / 10) acc
  end.

Definition str_of_int (n : Z) : string :=
  if n <? 0 then String "-" (digits_rev (Z.to_nat (Z.log2 (- n) + 1)) (- n) EmptyString)
  else digits_rev (Z.to_nat (Z.log2 n + 1)) n EmptyString.

Definition pad2 (n : Z) : string :=
  String (digit_char (n / 10)) (String (digit_char (n mod 10)) EmptyString).

(** The four digits of a year from 1000 to 9999. *)
Definition pad4 (n : Z) : string :=
  String (digit_char (n / 1000)) (String (digit_char ((n / 100) mod 10))
    (pad2 (n mod 100))).

(** [strftime("%Y-%m-%d")] of CPython on glibc: [%Y] is the year in
    decimal without padding ("999" for the year 999), [%m] and [%d] have
    two digits. *)
Definition strftime_ymd (d : datetime) : string :=
  (str_of_int (dt_year d) ++ "-" ++ pad2 (dt_month d) ++ "-" ++ pad2 (dt_day d))%string.

Example strptime_example :
  strptime_ymd "2024-02-29" = Ok (mkDatetime 2024 2 29) /\
  strptime_ymd "2023-02-29" = Err ValueError /\
  strptime_ymd "2024-1-5" = Ok (mkDatetime 2024 1 5) /\
  strftime_ymd (mkDatetime 2024 1 5) = "2024-01-05"%string /\
  strftime_ymd (mkDatetime 999 1 1) = "999-01-01"%string /\
  days_between (mkDatetime 2024 3 1) (mkDatetime 2024 2 28) = 2.
Proof. repeat split; reflexivity. Qed.

(** ** Python floats (binary64) *)

Definition prec : Z := 53.
Definition emax : Z := 1024.
Definition float := spec_float.

(** The binary64 value nearest to [a / b] (ties to even), [b <> 0]. *)
Definition round_div (a b : Z) : float :=
  let s := xorb (a <? 0) (b <? 0) in
  if a =? 0 then S754_zero s
  else
    let '(q, e, l) := SFdiv_core_binary prec emax (Z.abs a) 0 (Z.abs b) 0 in
    binary_round_aux prec emax s q e l.

(** [a / b] on two Python ints. *)
Definition py_truediv (a b : Z) : res float :=
  if b =? 0 then Err ZeroDivisionError
  else match round_div a b with
       | S754_infinity _ => Err OverflowError
       | f => Ok f
       end.

(** [float(n)] for a Python int [n]. *)
Definition py_float_of_int (n : Z) : res float :=
  match binary_normalize prec emax n 0 false with
  | S754_infinity _ => Err OverflowError
  | f => Ok f
  end.

(** Exact values of floats, as Python compares them. *)
Inductive xreal := XFin (q : Q) | XPinf | XNinf | XNaN.

Definition float_val (f : float) : xreal :=
  match f with
  | S754_zero _ => XFin 0%Q
  | S754_infinity s => if s then XNinf else XPinf
  | S754_nan => XNaN
  | S754_finite s m e =>
      let q := if 0 <=? e then inject_Z (Zpos m * 2 ^ e)
               else Qmake (Zpos m) (Z.to_pos (2 ^ (- e))) in
      XFin (if s then Qopp q else q)
  end.

Definition xlt (x y : xreal) : bool :=
  match x, y with
  | XFin a, XFin b => match Qcompare a b with Lt => true | _ => false end
  | XFin _, XPinf | XNinf, XFin _ | XNinf, XPinf => true
  | _, _ => false
  end.

(** [a < b] on floats, and between ints and floats. *)
Definition flt_lt (a b : float) : bool := xlt (float_val a) (float_val b).
Definition flt_lt_int (a : float) (n : Z) : bool := xlt (float_val a) (XFin (inject_Z n)).
Definition int_lt_flt (n : Z) (a : float) : bool := xlt (XFin (inject_Z n)) (float_val a).

(** The float literals of the source. *)
Definition SPIKE_THRESHOLD : float := round_div 30 100.      (* 0.30 *)
Definition DROP_THRESHOLD : float := SFopp SPIKE_THRESHOLD.  (* -0.30 *)
Definition HEALTHY_BOUND : float := round_div 8 10.          (* 0.8 *)
Definition WARNING_BOUND : float := round_div 1 1.           (* 1.0 *)
Definition LARGE_TRANSACTION_THRESHOLD : Z := 10000.
Definition UNCATEGORIZED_THRESHOLD : Z := 5.

(** ** [sorted(xs, key=k, reverse=True)]: a stable sort, descending on the
    key, elements with equal keys kept in input order. *)
Section SortDesc.
Context {A K : Type} (lt : K -> K -> bool) (key : A -> K).

Fixpoint insert_desc (x : A) (l : list A) : list A :=
  match l with
  | [] => [x]
  | y :: ys => if lt (key y) (key x) then x :: y :: ys else y :: insert_desc x ys
  end.

Definition sort_desc (l : list A) : list A :=
  fold_left (fun acc x => insert_desc x acc) l [].
End SortDesc.

(** ** [defaultdict(int)] and [dict] with string keys, in insertion order *)

Definition dict (V : Type) := list (string * V).

Fixpoint dict_get {V} (d : dict V) (k : string) : option V :=
  match d with
  | [] => None
  | (k', v) :: r => if String.eqb k k' then Some v else dict_get r k
  end.

(** [d.get(k, default)]. *)
Definition dict_get_or {V} (d : dict V) (k : string) (default : V) : V :=
  match dict_get d k with Some v => v | None => default end.

(** [d[k] += v] on a [defaultdict(int)]. *)
Fixpoint dict_add (k : string) (v : Z) (d : dict Z) : dict Z :=
  match d with
  | [] => [(k, 0 + v)]
  | (k', v') :: r => if String.eqb k k' then (k', v' + v) :: r else (k', v') :: dict_add k v r
  end.

(** ** [calculate_weekly_stats] *)

(** The dicts of [simplified_transactions] and [large_transactions]. *)
Record TxnDict := mkTxnDict {
  d_date : string;
  d_payee : string;
  d_amount : float;          (* dollars *)
  d_category : string;
  d_notes : option string
}.

Record WeeklyStats := mkWeeklyStats {
  week_start : string;
  week_end : string;
  total_income : Z;
  total_expense : Z;
  net_change : Z;
  category_breakdown : dict Z;
  top_expenses : list (string * Z);
  top_transactions : list TxnDict;
  top_income_transactions : list TxnDict;
  uncategorized_count : Z;
  large_transactions : list TxnDict;
  simplified_transactions : list TxnDict;
  daily_average : Z
}.

Definition empty_stats : WeeklyStats :=
  mkWeeklyStats "" "" 0 0 0 [] [] [] [] 0 [] [] 0.

Definition sum_Z (l : list Z) : Z := fold_left Z.add l 0.

(** [not t.category or t.category == "Uncategorized"]. *)
Definition is_uncategorized (t : Transaction) : bool :=
  negb (truthy_str (category t)) || String.eqb (or_empty (category t)) "Uncategorized".

Definition cat_name (t : Transaction) : string :=
  if is_uncategorized t then UNCATEGORIZED_LABEL else or_empty (category t).

(** The loop of lines 111-118 over [valid_txns]. *)
Definition category_totals (vs : list Transaction) : dict Z :=
  fold_left (fun d t => if amount t <? 0 then dict_add (cat_name t) (Z.abs (amount t)) d else d)
    vs [].

Definition count_uncategorized (vs : list Transaction) : Z :=
  fold_left (fun n t => if (amount t <? 0) && is_uncategorized t then n + 1 else n) vs 0.

Definition simplify (t : Transaction) : res TxnDict :=
  a <- py_truediv (amount t) 100 ;;
  Ok (mkTxnDict (date t) (payee t) a (or_uncategorized (category t)) (notes t)).

Definition large_entry (t : Transaction) : res TxnDict :=
  a <- py_truediv (Z.abs (amount t)) 100 ;;
  Ok (mkTxnDict (date t) (payee t) a (or_uncategorized (category t)) (notes t)).

Definition dollar_key (d : TxnDict) : float := SFabs (d_amount d).

Definition calculate_weekly_stats (transactions : list Transaction) : res WeeklyStats :=
  let vs := valid_txns transactions in
  match vs with
  | [] => Ok empty_stats
  | _ :: _ =>
    dates <- mapM (fun t => strptime_ymd (date t)) vs ;;
    match py_min dates, py_max dates with
    | Some dmin, Some dmax =>
      let total_income := sum_Z (map amount (filter (fun t => 0 <? amount t) vs)) in
      let total_expense := Z.abs (sum_Z (map amount (filter (fun t => amount t <? 0) vs))) in
      let net_change := total_income - total_expense in
      let totals := category_totals vs in
      let uncategorized_count := count_uncategorized vs in
      simplified <- mapM simplify vs ;;
      let top_expenses := firstn 5 (sort_desc Z.ltb snd totals) in
      large <- mapM large_entry
                 (filter (fun t => LARGE_TRANSACTION_THRESHOLD <=? Z.abs (amount t)) vs) ;;
      let days_count := days_between dmax dmin + 1 in
      let daily_average := total_expense / Z.max days_count 1 in
      let all_expenses :=
        sort_desc flt_lt dollar_key (filter (fun d => flt_lt_int (d_amount d) 0) simplified) in
      let over20 := filter (fun d => int_lt_flt 20 (dollar_key d)) all_expenses in
      let top_transactions :=
        if (List.length over20 <? 5)%nat then firstn 5 all_expenses else over20 in
      let top_income :=
        firstn 5 (sort_desc flt_lt dollar_key
                    (filter (fun d => int_lt_flt 0 (d_amount d)) simplified)) in
      Ok (mkWeeklyStats (strftime_ymd dmin) (strftime_ymd dmax)
            total_income total_expense net_change totals top_expenses
            top_transactions top_income uncategorized_count large simplified
            daily_average)
    | _, _ => Ok empty_stats
    end
  end.

(** ** [detect_anomalies] *)

(** An anomaly's [description] is an f-string; the model keeps the template
    and the values it formats. *)
Inductive Description :=
| DescUncategorized (count : Z)
| DescLarge (payee : string) (dollars : float)
| DescSpike (ratio : float)
| DescDrop (ratio : float)
| DescCategorySpike (cat : string) (current previous : Z).

Inductive AnomalyData :=
| DataCount (count : Z)
| DataTxn (txn : TxnDict)
| DataRatio (ratio : float) (current previous : Z)
| DataCategory (cat : string) (current previous : Z).

Record Anomaly := mkAnomaly {
  a_type : string;
  severity : string;
  description : Description;
  data : AnomalyData
}.

(** [1 + self.SPIKE_THRESHOLD]: the int [1] is converted to a float. *)
Definition SPIKE_FACTOR : float := SFadd prec emax (round_div 1 1) SPIKE_THRESHOLD.

(** One iteration of the loop of lines 250-262.  The description of line
    256 evaluates [amount/100] and then [prev_amount/100] (int true
    divisions, which raise [OverflowError] when the quotient is out of the
    float range) before the anomaly is appended; the model keeps the two
    ints the description formats. *)
Definition category_check (prev : WeeklyStats) (entry : string * Z) : res (list Anomaly) :=
  let '(cat, amt) := entry in
  let prev_amount := dict_get_or (category_breakdown prev) cat 0 in
  if 0 <? prev_amount then
    fp <- py_float_of_int prev_amount ;;
    let bound := SFmul prec emax fp SPIKE_FACTOR in
    if flt_lt_int bound amt then
      _ <- py_truediv amt 100 ;;
      _ <- py_truediv prev_amount 100 ;;
      Ok [mkAnomaly "category_spike" "medium" (DescCategorySpike cat amt prev_amount)
            (DataCategory cat amt prev_amount)]
    else Ok []
  else Ok [].

Fixpoint category_checks (prev : WeeklyStats) (entries : dict Z) : res (list Anomaly) :=
  match entries with
  | [] => Ok []
  | e :: es => a <- category_check prev e ;; r <- category_checks prev es ;; Ok (a ++ r)
  end.

(** Lines 221-247. *)
Definition total_check (cur prev : WeeklyStats) : res (list Anomaly) :=
  if 0 <? total_expense prev then
    change_ratio <- py_truediv (total_expense cur - total_expense prev) (total_expense prev) ;;
    if flt_lt SPIKE_THRESHOLD change_ratio then
      Ok [mkAnomaly "spike" "high" (DescSpike change_ratio)
            (DataRatio change_ratio (total_expense cur) (total_expense prev))]
    else if flt_lt change_ratio DROP_THRESHOLD then
      Ok [mkAnomaly "drop" "low" (DescDrop change_ratio)
            (DataRatio change_ratio (total_expense cur) (total_expense prev))]
    else Ok []
  else Ok [].

(** Lines 200-207. *)
Definition uncategorized_check (current_stats : WeeklyStats) : list Anomaly :=
  if UNCATEGORIZED_THRESHOLD <? uncategorized_count current_stats
  then [mkAnomaly "uncategorized_cluster" "medium"
          (DescUncategorized (uncategorized_count current_stats))
          (DataCount (uncategorized_count current_stats))]
  else [].

(** Lines 210-216. *)
Definition large_checks (current_stats : WeeklyStats) : list Anomaly :=
  map (fun txn => mkAnomaly "large_transaction" "low"
                    (DescLarge (d_payee txn) (d_amount txn)) (DataTxn txn))
    (large_transactions current_stats).

(** [if previous_stats:] is false only for [None]: a dataclass instance is
    always truthy. *)
Definition detect_anomalies (current_stats : WeeklyStats)
    (previous_stats : option WeeklyStats) : res (list Anomaly) :=
  let a1 := uncategorized_check current_stats in
  let a2 := large_checks current_stats in
  match previous_stats with
  | None => Ok (a1 ++ a2)
  | Some prev =>
      a3 <- total_check current_stats prev ;;
      a4 <- category_checks prev (category_breakdown current_stats) ;;
      Ok (a1 ++ a2 ++ a3 ++ a4)
  end.

(** ** [calculate_budget_health] *)

Inductive pyval := VStr (s : string) | VInt (z : Z) | VFloat (f : float).

(** [health_ratio] is the int [0] or a float. *)
Definition num_lt_flt (v : pyval) (b : float) : bool :=
  match v with
  | VInt z => int_lt_flt z b
  | VFloat f => flt_lt f b
  | VStr _ => false
  end.

Definition calculate_budget_health (current_stats : WeeklyStats)
    (monthly_budget : option (dict Z)) : res (dict pyval) :=
  match monthly_budget with
  | None | Some [] => Ok [("status"%string, VStr "unknown"%string); ("message"%string, VStr "未设置月度预算"%string)]
  | Some budget =>
      let total_budget := sum_Z (map snd budget) in
      let spent_so_far := total_expense current_stats in
      let projected_monthly := spent_so_far * 4 in
      let remaining := total_budget - projected_monthly in
      health_ratio <- (if 0 <? total_budget
                       then r <- py_truediv projected_monthly total_budget ;; Ok (VFloat r)
                       else Ok (VInt 0)) ;;
      let '(status, message) :=
        if num_lt_flt health_ratio HEALTHY_BOUND then ("healthy"%string, "预算进度正常"%string)
        else if num_lt_flt health_ratio WARNING_BOUND then ("warning"%string, "预算进度偏快，注意控制"%string)
        else ("critical"%string, "预计超支，建议立即调整"%string) in
      Ok [("status"%string, VStr status); ("message"%string, VStr message);
          ("projected_monthly"%string, VInt projected_monthly); ("total_budget"%string, VInt total_budget);
          ("remaining"%string, VInt remaining); ("health_ratio"%string, health_ratio)]
  end.

(** * Properties *)

(** ** General lemmas *)

Lemma fold_add_acc (l : list Z) (a : Z) : fold_left Z.add l a = a + fold_left Z.add l 0.
Proof.
  revert a; induction l as [|x l IH]; intro a; simpl; [lia|].
  rewrite (IH (a + x)), (IH x); lia.
Qed.

Lemma sum_Z_nil : sum_Z [] = 0.
Proof. reflexivity. Qed.

Lemma sum_Z_cons (x : Z) (l : list Z) : sum_Z (x :: l) = x + sum_Z l.
Proof. unfold sum_Z; simpl; rewrite fold_add_acc; lia. Qed.

Lemma sum_Z_app (l1 l2 : list Z) : sum_Z (l1 ++ l2) = sum_Z l1 + sum_Z l2.
Proof.
  induction l1 as [|x l1 IH]; simpl; [reflexivity|].
  rewrite !sum_Z_cons, IH; lia.
Qed.

Lemma mapM_length {A B} (f : A -> res B) (l : list A) (r : list B) :
  mapM f l = Ok r -> List.length r = List.length l.
Proof.
  revert r; induction l as [|x l IH]; intros r H; simpl in H.
  - inversion H; reflexivity.
  - destruct (f x) as [y|e]; simpl in H; [|discriminate].
    destruct (mapM f l) as [ys|e] eqn:E; simpl in H; [|discriminate].
    inversion H; subst; simpl; rewrite (IH ys eq_refl); reflexivity.
Qed.

(** [calculate_weekly_stats] reads its input only through [valid_txns]. *)
Lemma calculate_weekly_stats_valid (a b : list Transaction) :
  valid_txns a = valid_txns b -> calculate_weekly_stats a = calculate_weekly_stats b.
Proof. intro H; unfold calculate_weekly_stats; rewrite H; reflexivity. Qed.

Lemma valid_txns_idem (ts : list Transaction) : valid_txns (valid_txns ts) = valid_txns ts.
Proof.
  unfold valid_txns; induction ts as [|t ts IH]; simpl; [reflexivity|].
  destruct (keep_txn t) eqn:E; simpl; [rewrite E, IH|]; exact IH || reflexivity.
Qed.

(** The record built on a non-empty [valid_txns]. *)
Definition stats_of (vs : list Transaction) (dmin dmax : datetime)
    (simplified large : list TxnDict) : WeeklyStats :=
  let total_income := sum_Z (map amount (filter (fun t => 0 <? amount t) vs)) in
  let total_expense := Z.abs (sum_Z (map amount (filter (fun t => amount t <? 0) vs))) in
  let all_expenses :=
    sort_desc flt_lt dollar_key (filter (fun d => flt_lt_int (d_amount d) 0) simplified) in
  let over20 := filter (fun d => int_lt_flt 20 (dollar_key d)) all_expenses in
  mkWeeklyStats (strftime_ymd dmin) (strftime_ymd dmax)
    total_income total_expense (total_income - total_expense) (category_totals vs)
    (firstn 5 (sort_desc Z.ltb snd (category_totals vs)))
    (if (List.length over20 <? 5)%nat then firstn 5 all_expenses else over20)
    (firstn 5 (sort_desc flt_lt dollar_key
                 (filter (fun d => int_lt_flt 0 (d_amount d)) simplified)))
    (count_uncategorized vs) large simplified
    (total_expense / Z.max (days_between dmax dmin + 1) 1).

Lemma calculate_weekly_stats_inv (ts : list Transaction) (s : WeeklyStats) :
  calculate_weekly_stats ts = Ok s ->
  (valid_txns ts = [] /\ s = empty_stats) \/
  (exists dates dmin dmax simplified large,
      valid_txns ts <> [] /\
      mapM (fun t => strptime_ymd (date t)) (valid_txns ts) = Ok dates /\
      py_min dates = Some dmin /\ py_max dates = Some dmax /\
      mapM simplify (valid_txns ts) = Ok simplified /\
      mapM large_entry (filter (fun t => LARGE_TRANSACTION_THRESHOLD <=? Z.abs (amount t))
                          (valid_txns ts)) = Ok large /\
      s = stats_of (valid_txns ts) dmin dmax simplified large).
Proof.
  unfold calculate_weekly_stats; intro H.
  destruct (valid_txns ts) as [|t vs] eqn:Hv.
  - left; inversion H; auto.
  - right.
    destruct (mapM (fun t => strptime_ymd (date t)) (t :: vs)) as [dates|e] eqn:Hd;
      cbn [bind] in H; [|discriminate].
    pose proof (mapM_length _ _ _ Hd) as Hlen.
    destruct dates as [|d0 ds]; [discriminate Hlen|].
    cbn [py_min py_max] in H.
    destruct (mapM simplify (t :: vs)) as [simplified|e] eqn:Hs; cbn [bind] in H; [|discriminate].
    destruct (mapM large_entry _) as [large|e] eqn:Hl; cbn [bind] in H; [|discriminate].
    exists (d0 :: ds), (min_from d0 ds), (max_from d0 ds), simplified, large.
    inversion H; subst.
    repeat split; try reflexivity; try assumption; discriminate.
Qed.

Lemma dict_add_sum (k : string) (v : Z) (d : dict Z) :
  sum_Z (map snd (dict_add k v d)) = sum_Z (map snd d) + v.
Proof.
  induction d as [|[k' v'] d IH]; simpl; [reflexivity|].
  destruct (String.eqb k k'); simpl; rewrite !sum_Z_cons; [lia|rewrite IH; lia].
Qed.

Lemma category_totals_sum_from (vs : list Transaction) (d : dict Z) :
  sum_Z (map snd (fold_left (fun d t => if amount t <? 0
                                        then dict_add (cat_name t) (Z.abs (amount t)) d
                                        else d) vs d)) =
  sum_Z (map snd d) + sum_Z (map (fun t => Z.abs (amount t)) (filter (fun t => amount t <? 0) vs)).
Proof.
  revert d; induction vs as [|t vs IH]; intro d; simpl; [rewrite sum_Z_nil; lia|].
  rewrite IH; destruct (amount t <? 0); simpl; [rewrite sum_Z_cons, dict_add_sum|]; lia.
Qed.

Lemma category_totals_sum (vs : list Transaction) :
  sum_Z (map snd (category_totals vs)) =
  sum_Z (map (fun t => Z.abs (amount t)) (filter (fun t => amount t <? 0) vs)).
Proof. unfold category_totals; rewrite category_totals_sum_from; reflexivity. Qed.

Lemma expense_sum_abs (vs : list Transaction) :
  sum_Z (map amount (filter (fun t => amount t <? 0) vs)) =
  - sum_Z (map (fun t => Z.abs (amount t)) (filter (fun t => amount t <? 0) vs)) /\
  0 <= sum_Z (map (fun t => Z.abs (amount t)) (filter (fun t => amount t <? 0) vs)).
Proof.
  induction vs as [|t vs [IH1 IH2]]; simpl; [split; reflexivity || lia|].
  destruct (amount t <? 0) eqn:E; simpl; [|auto].
  apply Z.ltb_lt in E; rewrite !sum_Z_cons; lia.
Qed.

Lemma income_sum_nonneg (vs : list Transaction) :
  0 <= sum_Z (map amount (filter (fun t => 0 <? amount t) vs)).
Proof.
  induction vs as [|t vs IH]; simpl; [reflexivity || lia|].
  destruct (0 <? amount t) eqn:E; simpl; [|auto].
  apply Z.ltb_lt in E; rewrite sum_Z_cons; lia.
Qed.

Lemma total_expense_nonneg (ts : list Transaction) (s : WeeklyStats) :
  calculate_weekly_stats ts = Ok s -> 0 <= total_expense s.
Proof.
  intro H; apply calculate_weekly_stats_inv in H
    as [[_ ->] | (dates & dmin & dmax & simplified & large & _ & _ & _ & _ & _ & _ & ->)];
    simpl; lia.
Qed.

(** Sample inputs used by the witnesses below. *)
Definition txn_food : Transaction :=
  mkTransaction "t1"%string "2024-01-03"%string (-15000) "Shop"%string (Some "Food"%string) "Checking"%string None false.
Definition txn_salary : Transaction :=
  mkTransaction "t2"%string "2024-01-01"%string 5000 "Employer"%string None "Checking"%string (Some "pay"%string) false.
Definition txn_moved : Transaction :=
  mkTransaction "t3"%string "2024-01-02"%string (-300) "Bank TRANSFER"%string (Some "Misc"%string) "Savings"%string None false.
Definition txn_flagged : Transaction :=
  mkTransaction "t4"%string "bad date"%string (-700) "Landlord"%string (Some "Rent"%string) "Checking"%string None true.

Definition set_notes (n : option string) (t : Transaction) : Transaction :=
  mkTransaction (id t) (date t) (amount t) (payee t) (category t) (account t) n (is_transfer t).

Example transfer_case_insensitive :
  keep_txn txn_moved = false /\ keep_txn txn_flagged = false /\ keep_txn txn_food = true /\
  keep_txn (set_notes (Some "Transfer to savings"%string) txn_food) = true.
Proof. repeat split; reflexivity. Qed.

(** ** C6: no surviving transaction *)

(** C6: when no transaction survives the filter (in particular for the
    empty input), [calculate_weekly_stats] returns, without raising, a
    record with empty date bounds, zero numeric fields and empty
    collections. *)
Theorem weekly_stats_empty (ts : list Transaction) :
  valid_txns ts = [] ->
  exists s, calculate_weekly_stats ts = Ok s /\
    week_start s = ""%string /\ week_end s = ""%string /\
    total_income s = 0 /\ total_expense s = 0 /\ net_change s = 0 /\
    uncategorized_count s = 0 /\ daily_average s = 0 /\
    category_breakdown s = [] /\ top_expenses s = [] /\ top_transactions s = [] /\
    top_income_transactions s = [] /\ large_transactions s = [] /\
    simplified_transactions s = [].
Proof.
  intro H; exists empty_stats; unfold calculate_weekly_stats; rewrite H.
  repeat split.
Qed.

Lemma weekly_stats_empty_witness :
  valid_txns [txn_moved; txn_flagged] = [] /\
  exists s, calculate_weekly_stats [txn_moved; txn_flagged] = Ok s /\
    week_start s = ""%string /\ week_end s = ""%string /\
    total_income s = 0 /\ total_expense s = 0 /\ net_change s = 0 /\
    uncategorized_count s = 0 /\ daily_average s = 0 /\
    category_breakdown s = [] /\ top_expenses s = [] /\ top_transactions s = [] /\
    top_income_transactions s = [] /\ large_transactions s = [] /\
    simplified_transactions s = [].
Proof. split; [reflexivity | apply weekly_stats_empty; reflexivity]. Defined.

(** ** C1: the transfer filter *)

(** C1: a transaction is dropped iff its transfer flag is set or its payee
    or category contains "transfer" in any ASCII letter case; the result
    depends only on the surviving transactions, so a dropped transaction
    can be removed from the input without changing any field of the
    result; the notes never decide the filter. *)
Theorem transfer_filter :
  (forall t, keep_txn t = false <->
     is_transfer t = true \/ contains "transfer" (lower (payee t)) = true \/
     contains "transfer" (lower (or_empty (category t))) = true) /\
  (forall ts, calculate_weekly_stats ts = calculate_weekly_stats (valid_txns ts)) /\
  (forall l1 t l2, keep_txn t = false ->
     calculate_weekly_stats (l1 ++ t :: l2) = calculate_weekly_stats (l1 ++ l2)) /\
  (forall t n, keep_txn (set_notes n t) = keep_txn t).
Proof.
  split; [|split; [|split]].
  - intro t; unfold keep_txn.
    destruct (is_transfer t); [tauto|].
    destruct (contains "transfer" (lower (payee t)));
      destruct (contains "transfer" (lower (or_empty (category t)))); simpl; intuition congruence.
  - intro ts; apply calculate_weekly_stats_valid; symmetry; apply valid_txns_idem.
  - intros l1 t l2 H; apply calculate_weekly_stats_valid.
    unfold valid_txns; rewrite !filter_app; simpl; rewrite H; reflexivity.
  - intros t n; reflexivity.
Qed.

Lemma transfer_filter_witness :
  keep_txn txn_moved = false /\
  calculate_weekly_stats ([txn_food] ++ txn_moved :: [txn_salary]) =
  calculate_weekly_stats ([txn_food] ++ [txn_salary]).
Proof.
  split; [reflexivity|].
  apply (proj1 (proj2 (proj2 transfer_filter)) [txn_food] txn_moved [txn_salary]).
  reflexivity.
Defined.

(** ** C5: category breakdown and totals *)

(** C5: the values of [category_breakdown] sum to [total_expense], which is
    the absolute value of the sum of the negative amounts, i.e. the sum of
    their absolute values; [total_income] and [total_expense] are
    non-negative. *)
Theorem breakdown_sum_total (ts : list Transaction) (s : WeeklyStats) :
  calculate_weekly_stats ts = Ok s ->
  sum_Z (map snd (category_breakdown s)) = total_expense s /\
  total_expense s = Z.abs (sum_Z (map amount (filter (fun t => amount t <? 0) (valid_txns ts)))) /\
  total_expense s =
    sum_Z (map (fun t => Z.abs (amount t)) (filter (fun t => amount t <? 0) (valid_txns ts))) /\
  0 <= total_income s /\ 0 <= total_expense s.
Proof.
  intro H; apply calculate_weekly_stats_inv in H
    as [[Hv ->] | (dates & dmin & dmax & simplified & large & _ & _ & _ & _ & _ & _ & ->)].
  - rewrite Hv; simpl; repeat split; lia.
  - simpl. destruct (expense_sum_abs (valid_txns ts)) as [E1 E2].
    pose proof (income_sum_nonneg (valid_txns ts)).
    rewrite category_totals_sum, E1. repeat split; lia.
Qed.

Lemma breakdown_sum_total_witness :
  exists s, calculate_weekly_stats [txn_food; txn_salary; txn_moved] = Ok s /\
    sum_Z (map snd (category_breakdown s)) = total_expense s.
Proof.
  destruct (calculate_weekly_stats [txn_food; txn_salary; txn_moved]) as [s|e] eqn:E.
  - exists s; split; [reflexivity|].
    exact (proj1 (breakdown_sum_total [txn_food; txn_salary; txn_moved] s E)).
  - vm_compute in E; discriminate E.
Defined.

(** ** C8: daily average *)

(** C8: on a non-empty set of surviving transactions, [daily_average] is
    [total_expense] divided, truncating toward zero, by
    [max((max date - min date).days + 1, 1)] over the surviving
    transactions' dates; the divisor is positive. *)
Theorem daily_average_spec (ts : list Transaction) (s : WeeklyStats) :
  calculate_weekly_stats ts = Ok s -> valid_txns ts <> [] ->
  exists dates dmin dmax,
    mapM (fun t => strptime_ymd (date t)) (valid_txns ts) = Ok dates /\
    py_min dates = Some dmin /\ py_max dates = Some dmax /\
    0 < Z.max (days_between dmax dmin + 1) 1 /\
    daily_average s = Z.quot (total_expense s) (Z.max (days_between dmax dmin + 1) 1).
Proof.
  intros H Hne.
  pose proof (total_expense_nonneg ts s H) as Hte.
  apply calculate_weekly_stats_inv in H
    as [[Hv _] | (dates & dmin & dmax & simplified & large & _ & Hd & Hmin & Hmax & _ & _ & ->)];
    [contradiction|].
  exists dates, dmin, dmax; repeat split; auto; [lia|].
  simpl in *. rewrite Z.quot_div_nonneg; [reflexivity | exact Hte | lia].
Qed.

Lemma daily_average_spec_witness :
  exists dates dmin dmax s,
    calculate_weekly_stats [txn_food; txn_salary] = Ok s /\
    mapM (fun t => strptime_ymd (date t)) (valid_txns [txn_food; txn_salary]) = Ok dates /\
    py_min dates = Some dmin /\ py_max dates = Some dmax /\
    daily_average s = Z.quot (total_expense s) (Z.max (days_between dmax dmin + 1) 1).
Proof.
  destruct (calculate_weekly_stats [txn_food; txn_salary]) as [s|e] eqn:E;
    [|vm_compute in E; discriminate E].
  assert (Hne : valid_txns [txn_food; txn_salary] <> []) by discriminate.
  destruct (daily_average_spec _ _ E Hne) as (dates & dmin & dmax & H1 & H2 & H3 & _ & H5).
  exists dates, dmin, dmax, s; repeat split; assumption.
Defined.

(** ** The stable descending sort *)

Section SortFacts.
Context {A K : Type} (lt : K -> K -> bool) (key : A -> K).
Hypothesis lt_asym : forall a b, lt a b = true -> lt b a = false.

Definition not_below (a b : A) : Prop := lt (key a) (key b) = false.

Lemma insert_desc_perm (x : A) (l : list A) :
  Permutation (insert_desc lt key x l) (x :: l).
Proof.
  induction l as [|y ys IH]; simpl; [reflexivity|].
  destruct (lt (key y) (key x)); [reflexivity|].
  rewrite IH; apply perm_swap.
Qed.

Lemma sort_desc_perm_from (l acc : list A) :
  Permutation (fold_left (fun acc x => insert_desc lt key x acc) l acc) (l ++ acc).
Proof.
  revert acc; induction l as [|x l IH]; intro acc; simpl; [reflexivity|].
  rewrite IH, insert_desc_perm; symmetry; apply Permutation_middle.
Qed.

Lemma sort_desc_perm (l : list A) : Permutation (sort_desc lt key l) l.
Proof. unfold sort_desc; rewrite sort_desc_perm_from, app_nil_r; reflexivity. Qed.

Lemma insert_desc_sorted (x : A) (l : list A) :
  Sorted not_below l -> Sorted not_below (insert_desc lt key x l).
Proof.
  induction 1 as [|y ys Hs IH Hhd]; simpl; [repeat constructor|].
  destruct (lt (key y) (key x)) eqn:E.
  - constructor; [constructor; assumption|].
    constructor; unfold not_below; apply lt_asym; exact E.
  - constructor; [exact IH|].
    destruct ys as [|z zs]; simpl.
    + constructor; exact E.
    + inversion Hhd; subst.
      destruct (lt (key z) (key x)); constructor; assumption.
Qed.

Lemma sort_desc_sorted (l : list A) : Sorted not_below (sort_desc lt key l).
Proof.
  unfold sort_desc.
  assert (G : forall acc, Sorted not_below acc ->
             Sorted not_below (fold_left (fun acc x => insert_desc lt key x acc) l acc)).
  { induction l as [|x l IH]; intros acc Hacc; simpl; [exact Hacc|].
    apply IH, insert_desc_sorted, Hacc. }
  apply G; constructor.
Qed.
End SortFacts.

Lemma xlt_asym (a b : xreal) : xlt a b = true -> xlt b a = false.
Proof.
  destruct a as [qa| | |], b as [qb| | |]; simpl; try discriminate; try reflexivity.
  pose proof (Qcompare_antisym qa qb) as E.
  destruct (qa ?= qb)%Q, (qb ?= qa)%Q; simpl in *; congruence.
Qed.

Lemma flt_lt_asym (a b : float) : flt_lt a b = true -> flt_lt b a = false.
Proof. apply xlt_asym. Qed.

Lemma perm_filter {A} (f : A -> bool) (l l' : list A) :
  Permutation l l' -> Permutation (filter f l) (filter f l').
Proof.
  induction 1; simpl.
  - constructor.
  - destruct (f x); [constructor|]; assumption.
  - destruct (f x), (f y); try constructor; reflexivity.
  - eapply perm_trans; eassumption.
Qed.

Lemma firstn_length_ge {A} (n : nat) (l : list A) :
  (n <= List.length l)%nat -> List.length (firstn n l) = n.
Proof. intro H; rewrite length_firstn; lia. Qed.

Definition is_expense_dict (d : TxnDict) : bool := flt_lt_int (d_amount d) 0.
Definition over_20 (d : TxnDict) : bool := int_lt_flt 20 (dollar_key d).

(** ** C3: top expense transactions *)

(** C3: with [exps] the expense entries ([amount < 0]) of the surviving
    transactions and [sorted] their stable sort, descending by absolute
    amount, [top_transactions] is the entries of [sorted] above $20 when at
    least 5 qualify and otherwise the first 5 of [sorted]; hence it has at
    least 5 entries whenever at least 5 expenses survive, and either every
    entry exceeds $20 or the list is the unconditional top 5. *)
Theorem top_transactions_policy (ts : list Transaction) (s : WeeklyStats) :
  calculate_weekly_stats ts = Ok s ->
  let exps := filter is_expense_dict (simplified_transactions s) in
  let sorted := sort_desc flt_lt dollar_key exps in
  let over := filter over_20 sorted in
  Permutation sorted exps /\
  Sorted (not_below flt_lt dollar_key) sorted /\
  Permutation over (filter over_20 exps) /\
  ((5 <= List.length over /\ top_transactions s = over)%nat \/
   (List.length over < 5 /\ top_transactions s = firstn 5 sorted)%nat) /\
  ((5 <= List.length exps)%nat -> (5 <= List.length (top_transactions s))%nat) /\
  (Forall (fun d => over_20 d = true) (top_transactions s) \/
   top_transactions s = firstn 5 sorted).
Proof.
  intros H exps sorted over.
  assert (Hperm : Permutation sorted exps) by apply sort_desc_perm.
  assert (Hsorted : Sorted (not_below flt_lt dollar_key) sorted)
    by (apply sort_desc_sorted, flt_lt_asym).
  assert (Hover : Permutation over (filter over_20 exps))
    by (apply perm_filter, Hperm).
  assert (Htop : (5 <= List.length over /\ top_transactions s = over)%nat \/
                 (List.length over < 5 /\ top_transactions s = firstn 5 sorted)%nat).
  { apply calculate_weekly_stats_inv in H
      as [[_ ->] | (dates & dmin & dmax & simplified & large & _ & _ & _ & _ & _ & _ & ->)].
    - right; simpl; split; [cbn; lia | reflexivity].
    - match goal with
      | |- context [top_transactions ?st] =>
          assert (E0 : top_transactions st =
                       if (List.length over <? 5)%nat then firstn 5 sorted else over)
            by reflexivity; rewrite E0
      end.
      destruct (List.length over <? 5)%nat eqn:E.
      + apply Nat.ltb_lt in E; right; auto.
      + apply Nat.ltb_ge in E; left; auto. }
  split; [exact Hperm|]; split; [exact Hsorted|]; split; [exact Hover|].
  split; [exact Htop|]; split.
  - intro H5; destruct Htop as [[Hl ->] | [Hl ->]]; [exact Hl|].
    rewrite firstn_length_ge; [lia|].
    rewrite (Permutation_length Hperm); exact H5.
  - destruct Htop as [[_ ->] | [_ ->]]; [left | right; reflexivity].
    apply Forall_forall; intros d Hd; apply filter_In in Hd; apply Hd.
Qed.

(** Eight expenses, six of them above $20 (one is exactly $20.00): the
    list above $20 is used. *)
Definition policy_week : list Transaction :=
  [ mkTransaction "p1" "2024-01-01" (-2500) "Grocer" (Some "Food") "Checking" None false;
    mkTransaction "p2" "2024-01-01" (-7000) "Garage" (Some "Car") "Checking" None false;
    mkTransaction "p3" "2024-01-02" (-3000) "Books" (Some "Leisure") "Card" None false;
    mkTransaction "p4" "2024-01-02" (-500) "Kiosk" (Some "Food") "Cash" None false;
    mkTransaction "p5" "2024-01-03" (-6000) "Pharmacy" (Some "Health") "Card" None false;
    mkTransaction "p6" "2024-01-04" (-2000) "Cinema" (Some "Leisure") "Card" None false;
    mkTransaction "p7" "2024-01-05" (-4000) "Market" (Some "Food") "Checking" None false;
    mkTransaction "p8" "2024-01-06" (-5000) "Utility" (Some "Bills") "Checking" None false;
    mkTransaction "p9" "2024-01-05" 200000 "Employer" (Some "Salary") "Checking" None false ]%string.

(** Five expenses, two of them above $20: the top 5 is used. *)
Definition fallback_week : list Transaction :=
  [ mkTransaction "f1" "2024-01-01" (-2500) "Grocer" (Some "Food") "Checking" None false;
    mkTransaction "f2" "2024-01-02" (-3000) "Books" (Some "Leisure") "Card" None false;
    mkTransaction "f3" "2024-01-03" (-500) "Kiosk" (Some "Food") "Cash" None false;
    mkTransaction "f4" "2024-01-04" (-1200) "Bakery" (Some "Food") "Cash" None false;
    mkTransaction "f5" "2024-01-05" (-2000) "Cinema" (Some "Leisure") "Card" None false ]%string.

Lemma top_transactions_policy_witness :
  exists s1 s2,
    calculate_weekly_stats policy_week = Ok s1 /\ calculate_weekly_stats fallback_week = Ok s2 /\
    List.length (filter is_expense_dict (simplified_transactions s1)) = 8%nat /\
    top_transactions s1 =
      filter over_20 (sort_desc flt_lt dollar_key (filter is_expense_dict (simplified_transactions s1))) /\
    List.length (top_transactions s1) = 6%nat /\
    List.length (filter is_expense_dict (simplified_transactions s2)) = 5%nat /\
    List.length (filter over_20 (sort_desc flt_lt dollar_key
                                  (filter is_expense_dict (simplified_transactions s2)))) = 2%nat /\
    top_transactions s2 =
      firstn 5 (sort_desc flt_lt dollar_key (filter is_expense_dict (simplified_transactions s2))) /\
    (5 <= List.length (top_transactions s2))%nat.
Proof.
  destruct (calculate_weekly_stats policy_week) as [s1|e] eqn:E1; [|vm_compute in E1; discriminate E1].
  destruct (calculate_weekly_stats fallback_week) as [s2|e] eqn:E2; [|vm_compute in E2; discriminate E2].
  pose proof (top_transactions_policy _ _ E1) as P1; cbv zeta in P1.
  pose proof (top_transactions_policy _ _ E2) as P2; cbv zeta in P2.
  destruct P1 as (_ & _ & _ & Htop1 & _).
  destruct P2 as (_ & _ & _ & Htop2 & H52 & _).
  assert (X1 : List.length (filter is_expense_dict (simplified_transactions s1)) = 8%nat)
    by (pose proof E1 as E; vm_compute in E; injection E as <-; vm_compute; reflexivity).
  assert (O1 : List.length (filter over_20 (sort_desc flt_lt dollar_key
                 (filter is_expense_dict (simplified_transactions s1)))) = 6%nat)
    by (pose proof E1 as E; vm_compute in E; injection E as <-; vm_compute; reflexivity).
  assert (X2 : List.length (filter is_expense_dict (simplified_transactions s2)) = 5%nat)
    by (pose proof E2 as E; vm_compute in E; injection E as <-; vm_compute; reflexivity).
  assert (O2 : List.length (filter over_20 (sort_desc flt_lt dollar_key
                 (filter is_expense_dict (simplified_transactions s2)))) = 2%nat)
    by (pose proof E2 as E; vm_compute in E; injection E as <-; vm_compute; reflexivity).
  destruct Htop1 as [[_ T1] | [L1 _]]; [|rewrite O1 in L1; lia].
  destruct Htop2 as [[L2 _] | [_ T2]]; [rewrite O2 in L2; lia|].
  exists s1, s2; split; [reflexivity|]; split; [reflexivity|].
  split; [exact X1|]; split; [exact T1|]; split; [rewrite T1; exact O1|].
  split; [exact X2|]; split; [exact O2|]; split; [exact T2|].
  apply H52; rewrite X2; lia.
Defined.

(** ** Anomalies *)

Definition has_anomaly (ty : string) (out : list Anomaly) : Prop :=
  exists a, In a out /\ a_type a = ty.

Lemma has_anomaly_app (ty : string) (l1 l2 : list Anomaly) :
  has_anomaly ty (l1 ++ l2) <-> has_anomaly ty l1 \/ has_anomaly ty l2.
Proof.
  unfold has_anomaly; split.
  - intros (a & Ha & Ht); apply in_app_iff in Ha as [Ha|Ha]; [left|right]; eauto.
  - intros [(a & Ha & Ht)|(a & Ha & Ht)]; exists a; rewrite in_app_iff; auto.
Qed.

Lemma has_anomaly_nil (ty : string) : ~ has_anomaly ty [].
Proof. intros (a & [] & _). Qed.

Lemma has_anomaly_one (ty : string) (a : Anomaly) : has_anomaly ty [a] <-> a_type a = ty.
Proof.
  unfold has_anomaly; split; [intros (b & [<-|[]] & Hb); exact Hb | intro H; exists a; simpl; auto].
Qed.

(** The anomalies that do not compare periods have their own types. *)
Lemma standalone_types (cur : WeeklyStats) (a : Anomaly) :
  In a (uncategorized_check cur ++ large_checks cur) ->
  a_type a = "uncategorized_cluster"%string \/ a_type a = "large_transaction"%string.
Proof.
  intro H; apply in_app_iff in H as [H|H].
  - unfold uncategorized_check in H.
    destruct (UNCATEGORIZED_THRESHOLD <? uncategorized_count cur);
      [destruct H as [<-|[]]; left; reflexivity | destruct H].
  - unfold large_checks in H; apply in_map_iff in H as (txn & <- & _); right; reflexivity.
Qed.

Lemma category_checks_types (prev : WeeklyStats) (es : dict Z) (l : list Anomaly) :
  category_checks prev es = Ok l ->
  forall a, In a l -> a_type a = "category_spike"%string /\ severity a = "medium"%string.
Proof.
  revert l; induction es as [|[cat amt] es IH]; intros l H a Ha; cbn [category_checks] in H.
  - inversion H; subst; destruct Ha.
  - destruct (category_check prev (cat, amt)) as [l1|e] eqn:E1; cbn [bind] in H; [|discriminate].
    destruct (category_checks prev es) as [l2|e] eqn:E2; cbn [bind] in H; [|discriminate].
    inversion H; subst; apply in_app_iff in Ha as [Ha|Ha]; [|eapply IH; eauto].
    unfold category_check in E1.
    destruct (0 <? _); [|inversion E1; subst; destruct Ha].
    destruct (py_float_of_int _); cbn [bind] in E1; [|discriminate].
    destruct (flt_lt_int _ _); [|inversion E1; subst; destruct Ha].
    destruct (py_truediv amt 100); cbn [bind] in E1; [|discriminate].
    destruct (py_truediv _ 100); cbn [bind] in E1; [|discriminate].
    inversion E1; subst; destruct Ha as [<-|[]]; split; reflexivity.
Qed.

Lemma total_check_spec (cur prev : WeeklyStats) (l : list Anomaly) :
  total_check cur prev = Ok l ->
  (total_expense prev <= 0 /\ l = []) \/
  (0 < total_expense prev /\ exists r,
     py_truediv (total_expense cur - total_expense prev) (total_expense prev) = Ok r /\
     ((flt_lt SPIKE_THRESHOLD r = true /\
       l = [mkAnomaly "spike" "high" (DescSpike r)
              (DataRatio r (total_expense cur) (total_expense prev))]) \/
      (flt_lt SPIKE_THRESHOLD r = false /\ flt_lt r DROP_THRESHOLD = true /\
       l = [mkAnomaly "drop" "low" (DescDrop r)
              (DataRatio r (total_expense cur) (total_expense prev))]) \/
      (flt_lt SPIKE_THRESHOLD r = false /\ flt_lt r DROP_THRESHOLD = false /\ l = []))).
Proof.
  unfold total_check; intro H.
  destruct (0 <? total_expense prev) eqn:Hp.
  - apply Z.ltb_lt in Hp; right; split; [exact Hp|].
    destruct (py_truediv _ _) as [r|e]; cbn [bind] in H; [|discriminate].
    exists r; split; [reflexivity|].
    destruct (flt_lt SPIKE_THRESHOLD r) eqn:Hs;
      [left; inversion H; split; reflexivity|right].
    destruct (flt_lt r DROP_THRESHOLD) eqn:Hd; inversion H;
      [left | right]; repeat split; reflexivity.
  - apply Z.ltb_ge in Hp; left; inversion H; split; [exact Hp | reflexivity].
Qed.

(** A ratio below -0.30 is not above 0.30. *)
Lemma drop_excludes_spike (r : float) :
  flt_lt r DROP_THRESHOLD = true -> flt_lt SPIKE_THRESHOLD r = false.
Proof.
  unfold flt_lt.
  assert (Hs : float_val SPIKE_THRESHOLD = XFin (Qmake 5404319552844595 (2 ^ 54))) by (vm_compute; reflexivity).
  assert (Hd : float_val DROP_THRESHOLD = XFin (Qopp (Qmake 5404319552844595 (2 ^ 54)))) by (vm_compute; reflexivity).
  rewrite Hs, Hd.
  destruct (float_val r) as [x| | |]; simpl; try reflexivity; try discriminate.
  intro H1; destruct (Qmake _ _ ?= x)%Q eqn:H2; try reflexivity.
  destruct (x ?= _)%Q eqn:H3; try discriminate.
  rewrite <- Qlt_alt in H2, H3.
  assert (0 < Qmake 5404319552844595 (2 ^ 54))%Q by (vm_compute; reflexivity).
  lra.
Qed.

(** Anomalies of a type other than the standalone ones and
    [category_spike] come from [total_check]. *)
Lemma total_part (cur : WeeklyStats) (prev : option WeeklyStats) (out : list Anomaly) :
  detect_anomalies cur prev = Ok out ->
  exists l3,
    ((prev = None /\ l3 = []) \/ (exists p, prev = Some p /\ total_check cur p = Ok l3)) /\
    (forall ty, ty <> "uncategorized_cluster"%string -> ty <> "large_transaction"%string ->
       ty <> "category_spike"%string ->
       forall a, a_type a = ty -> (In a out <-> In a l3)).
Proof.
  unfold detect_anomalies; intro H; destruct prev as [p|].
  - destruct (total_check cur p) as [l3|e] eqn:T; cbn [bind] in H; [|discriminate].
    destruct (category_checks p (category_breakdown cur)) as [l4|e] eqn:C;
      cbn [bind] in H; [|discriminate].
    inversion H; subst out; clear H.
    exists l3; split; [right; exists p; auto|].
    intros ty H1 H2 H3 a Ha; rewrite app_assoc, !in_app_iff; split.
    + intros [[Hs|Hs]|Hs].
      * exfalso; destruct (standalone_types cur a (proj2 (in_app_iff _ _ _) (or_introl Hs)));
          congruence.
      * exfalso; destruct (standalone_types cur a (proj2 (in_app_iff _ _ _) (or_intror Hs)));
          congruence.
      * destruct Hs as [Hs|Hs]; [exact Hs|].
        exfalso; apply H3; rewrite <- Ha; apply (category_checks_types _ _ _ C a Hs).
    + intro Hs; right; left; exact Hs.
  - inversion H; subst out; clear H.
    exists []; split; [left; auto|].
    intros ty H1 H2 H3 a Ha; split; [|intros []].
    intro Hs; exfalso; destruct (standalone_types cur a Hs); congruence.
Qed.

Definition spike_condition (cur : WeeklyStats) (prev : option WeeklyStats) : Prop :=
  exists p r, prev = Some p /\ 0 < total_expense p /\
    py_truediv (total_expense cur - total_expense p) (total_expense p) = Ok r /\
    flt_lt SPIKE_THRESHOLD r = true.

Definition drop_condition (cur : WeeklyStats) (prev : option WeeklyStats) : Prop :=
  exists p r, prev = Some p /\ 0 < total_expense p /\
    py_truediv (total_expense cur - total_expense p) (total_expense p) = Ok r /\
    flt_lt r DROP_THRESHOLD = true.

(** ** C2: spend spike and drop *)

(** C2: with a previous record whose [total_expense] is positive, a
    high-severity "spike" is emitted iff the ratio
    [(current - previous) / previous] (a Python float) is above 0.30, a
    low-severity "drop" iff it is below -0.30, never both; without a
    previous record, or with a previous [total_expense] of 0, neither. *)
Theorem spike_drop_rule (cur : WeeklyStats) (prev : option WeeklyStats) (out : list Anomaly) :
  detect_anomalies cur prev = Ok out ->
  (has_anomaly "spike" out <-> spike_condition cur prev) /\
  (has_anomaly "drop" out <-> drop_condition cur prev) /\
  (forall a, In a out -> a_type a = "spike"%string -> severity a = "high"%string) /\
  (forall a, In a out -> a_type a = "drop"%string -> severity a = "low"%string) /\
  ~ (has_anomaly "spike" out /\ has_anomaly "drop" out) /\
  ((prev = None \/ exists p, prev = Some p /\ total_expense p = 0) ->
   ~ has_anomaly "spike" out /\ ~ has_anomaly "drop" out).
Proof.
  intro H; destruct (total_part _ _ _ H) as (l3 & Hsrc & Hiff).
  assert (Hin : forall ty a, (ty = "spike" \/ ty = "drop")%string -> a_type a = ty ->
                             (In a out <-> In a l3)).
  { intros ty a Hty Ha; apply (Hiff ty); [..|exact Ha];
      destruct Hty as [->| ->]; discriminate. }
  assert (Hhas : forall ty, (ty = "spike" \/ ty = "drop")%string ->
                            (has_anomaly ty out <-> has_anomaly ty l3)).
  { intros ty Hty; unfold has_anomaly; split; intros (a & Ha & Ht); exists a;
      (split; [|exact Ht]); [apply (Hin ty a Hty Ht) | apply (Hin ty a Hty Ht)]; exact Ha. }
  rewrite (Hhas "spike"%string) by auto; rewrite (Hhas "drop"%string) by auto.
  assert (Hsev : forall ty a, (ty = "spike" \/ ty = "drop")%string -> In a out -> a_type a = ty ->
                              In a l3) by (intros ty a Hty Ha Ht; apply (Hin ty a Hty Ht); exact Ha).
  destruct Hsrc as [[-> ->] | (p & -> & T)].
  - assert (Hn : forall ty, ~ has_anomaly ty []) by apply has_anomaly_nil.
    split; [split; [intro X; destruct (Hn _ X) | intros (p & r & Hp & _); discriminate]|].
    split; [split; [intro X; destruct (Hn _ X) | intros (p & r & Hp & _); discriminate]|].
    split; [intros a Ha Ht; destruct (Hsev _ a (or_introl eq_refl) Ha Ht)|].
    split; [intros a Ha Ht; destruct (Hsev _ a (or_intror eq_refl) Ha Ht)|].
    split; [intros [X _]; destruct (Hn _ X)|].
    intros _; split; apply Hn.
  - apply total_check_spec in T
      as [[Hle ->] | [Hpos (r & Hr & [[Hsp ->] | [[Hsp [Hdp ->]] | [Hsp [Hdp ->]]]])]].
    + assert (Hn : forall ty, ~ has_anomaly ty []) by apply has_anomaly_nil.
      split; [split; [intro X; destruct (Hn _ X) | intros (p' & r & Hp & Hpos & _);
                                                    inversion Hp; subst; lia]|].
      split; [split; [intro X; destruct (Hn _ X) | intros (p' & r & Hp & Hpos & _);
                                                    inversion Hp; subst; lia]|].
      split; [intros a Ha Ht; destruct (Hsev _ a (or_introl eq_refl) Ha Ht)|].
      split; [intros a Ha Ht; destruct (Hsev _ a (or_intror eq_refl) Ha Ht)|].
      split; [intros [X _]; destruct (Hn _ X)|].
      intros _; split; apply Hn.
    + rewrite !has_anomaly_one; simpl.
      split; [split; [intros _; exists p, r; auto | reflexivity]|].
      split; [split; [discriminate | intros (p' & r' & Hp & _ & Hr' & Hd); inversion Hp; subst p'] |].
      { rewrite Hr in Hr'; inversion Hr'; subst r'.
        rewrite (drop_excludes_spike r Hd) in Hsp; discriminate. }
      split; [intros a Ha Ht; destruct (Hsev _ a (or_introl eq_refl) Ha Ht) as [<-|[]]; reflexivity|].
      split; [intros a Ha Ht; destruct (Hsev _ a (or_intror eq_refl) Ha Ht) as [<-|[]];
              discriminate|].
      split; [intros [_ X]; discriminate X|].
      intros [X|(p' & Hp & Hz)]; [discriminate X | inversion Hp; subst; lia].
    + rewrite !has_anomaly_one; simpl.
      split; [split; [discriminate | intros (p' & r' & Hp & _ & Hr' & Hs); inversion Hp; subst p'] |].
      { rewrite Hr in Hr'; inversion Hr'; subst r'; congruence. }
      split; [split; [intros _; exists p, r; auto | reflexivity]|].
      split; [intros a Ha Ht; destruct (Hsev _ a (or_introl eq_refl) Ha Ht) as [<-|[]];
              discriminate|].
      split; [intros a Ha Ht; destruct (Hsev _ a (or_intror eq_refl) Ha Ht) as [<-|[]]; reflexivity|].
      split; [intros [X _]; discriminate X|].
      intros [X|(p' & Hp & Hz)]; [discriminate X | inversion Hp; subst; lia].
    + assert (Hn : forall ty, ~ has_anomaly ty []) by apply has_anomaly_nil.
      split; [split; [intro X; destruct (Hn _ X) | intros (p' & r' & Hp & _ & Hr' & Hs);
              inversion Hp; subst p'; rewrite Hr in Hr'; inversion Hr'; subst r'; congruence]|].
      split; [split; [intro X; destruct (Hn _ X) | intros (p' & r' & Hp & _ & Hr' & Hs);
              inversion Hp; subst p'; rewrite Hr in Hr'; inversion Hr'; subst r'; congruence]|].
      split; [intros a Ha Ht; destruct (Hsev _ a (or_introl eq_refl) Ha Ht)|].
      split; [intros a Ha Ht; destruct (Hsev _ a (or_intror eq_refl) Ha Ht)|].
      split; [intros [X _]; destruct (Hn _ X)|].
      intros _; split; apply Hn.
Qed.

(** ** Rounding error of binary64 rounding (normal range)

    [binary_round_aux] shifts the mantissa right twice (before and after
    rounding to nearest).  Each shift keeps 53 significant bits, so it
    loses less than one part in [2^52]. *)

Lemma digits2_pos_bounds (p : positive) :
  2 ^ (Zpos (digits2_pos p) - 1) <= Zpos p < 2 ^ Zpos (digits2_pos p).
Proof.
  induction p as [p IH|p IH|]; cbn [digits2_pos]; [| |split; reflexivity || lia].
  all: rewrite Pos2Z.inj_succ; set (D := Zpos (digits2_pos p)) in *.
  all: assert (HD : 1 <= D) by (unfold D; lia).
  all: replace (Z.succ D - 1) with D by lia.
  all: assert (E : 2 ^ Z.succ D = 2 * 2 ^ D) by (rewrite Z.pow_succ_r; lia).
  all: assert (E' : 2 ^ D = 2 * 2 ^ (D - 1))
         by (rewrite <- Z.pow_succ_r by lia; f_equal; lia).
  all: rewrite E; rewrite (Pos2Z.inj_xI p) || rewrite (Pos2Z.inj_xO p); lia.
Qed.

Lemma Zdigits2_bounds (m : Z) :
  0 < m -> 1 <= Zdigits2 m /\ 2 ^ (Zdigits2 m - 1) <= m < 2 ^ Zdigits2 m.
Proof.
  intro H; destruct m as [|p|p]; try lia; simpl.
  split; [lia | apply digits2_pos_bounds].
Qed.

Lemma Zdigits2_unique (m d : Z) :
  0 < m -> 1 <= d -> 2 ^ (d - 1) <= m < 2 ^ d -> Zdigits2 m = d.
Proof.
  intros Hm Hd [H1 H2]; destruct (Zdigits2_bounds m Hm) as (HD & H3 & H4).
  destruct (Z.lt_trichotomy (Zdigits2 m) d) as [Hlt|[Heq|Hgt]]; [exfalso| exact Heq | exfalso].
  - assert (2 ^ Zdigits2 m <= 2 ^ (d - 1)) by (apply Z.pow_le_mono_r; lia); lia.
  - assert (2 ^ d <= 2 ^ (Zdigits2 m - 1)) by (apply Z.pow_le_mono_r; lia); lia.
Qed.

Lemma Zdigits2_mono (m1 m2 : Z) : 0 < m1 <= m2 -> Zdigits2 m1 <= Zdigits2 m2.
Proof.
  intros H; destruct (Zdigits2_bounds m1 ltac:(lia)) as (_ & H1 & _).
  destruct (Zdigits2_bounds m2 ltac:(lia)) as (_ & _ & H2).
  destruct (Z.le_gt_cases (Zdigits2 m1) (Zdigits2 m2)) as [|Hgt]; [assumption|].
  assert (2 ^ Zdigits2 m2 <= 2 ^ (Zdigits2 m1 - 1)) by (apply Z.pow_le_mono_r; lia); lia.
Qed.

Lemma shr_1_m (mrs : shr_record) :
  0 <= shr_m mrs -> shr_m (shr_1 mrs) = shr_m mrs / 2.
Proof.
  destruct mrs as [m r s]; simpl; intro H.
  destruct m as [|[p|p|]|p]; simpl; try reflexivity; try lia.
  - apply Z.div_unique with 1; [lia | rewrite Pos2Z.inj_xI; lia].
  - apply Z.div_unique with 0; [lia | rewrite Pos2Z.inj_xO; lia].
Qed.

Lemma iter_shr_1_m (p : positive) (mrs : shr_record) :
  0 <= shr_m mrs -> shr_m (iter_pos shr_1 p mrs) = shr_m mrs / 2 ^ Zpos p.
Proof.
  revert mrs; induction p as [p IH|p IH|]; intros mrs H; cbn [iter_pos].
  - assert (H1 : 0 <= shr_m (shr_1 mrs)) by (rewrite shr_1_m by exact H; apply Z.div_pos; lia).
    assert (H2 : 0 <= shr_m (iter_pos shr_1 p (shr_1 mrs)))
      by (rewrite IH by exact H1; apply Z.div_pos; lia).
    rewrite IH, IH, shr_1_m by assumption.
    rewrite !Z.div_div by lia.
    f_equal; replace (Zpos p~1) with (Z.succ (Zpos p + Zpos p)) by lia.
    rewrite Z.pow_succ_r, Z.pow_add_r by lia; ring.
  - assert (H2 : 0 <= shr_m (iter_pos shr_1 p mrs))
      by (rewrite IH by exact H; apply Z.div_pos; lia).
    rewrite IH, IH by assumption.
    rewrite Z.div_div by lia.
    f_equal; replace (Zpos p~0) with (Zpos p + Zpos p) by lia.
    rewrite Z.pow_add_r by lia; ring.
  - apply shr_1_m, H.
Qed.

Lemma shr_record_of_loc_m (m : Z) (l : location) : shr_m (shr_record_of_loc m l) = m.
Proof. destruct l as [|[]]; reflexivity. Qed.

(** One call of [shr_fexp] in the normal range: the mantissa is divided
    by [2 ^ k], the exponent raised by [k], the magnitude
    [Zdigits2 m + e] is kept, and less than [m / 2 ^ 52] is lost. *)
Lemma shr_fexp_step (m e : Z) (l : location) (mrs : shr_record) (e' : Z) :
  0 < m -> -1021 <= Zdigits2 m + e ->
  shr_fexp prec emax m e l = (mrs, e') ->
  exists k, 0 <= k /\ e' = e + k /\ 0 < shr_m mrs /\
    Zdigits2 (shr_m mrs) + e' = Zdigits2 m + e /\
    (2 ^ 52 - 1) * m <= 2 ^ 52 * (shr_m mrs * 2 ^ k).
Proof.
  intros Hm HD H; unfold shr_fexp, shr in H.
  assert (Hf : fexp prec emax (Zdigits2 m + e) = Zdigits2 m + e - 53)
    by (unfold fexp, emin, prec, emax; lia).
  rewrite Hf in H.
  destruct (Zdigits2_bounds m Hm) as (HD1 & Hlo & Hhi).
  set (D := Zdigits2 m) in *.
  replace (2 ^ 52) with 4503599627370496 by reflexivity.
  destruct (D + e - 53 - e) as [|n|n] eqn:En.
  3: idtac.
  1, 3: inversion H; subst mrs e'; exists 0; rewrite shr_record_of_loc_m;
        split; [lia|]; split; [lia|]; split; [lia|]; split; [lia|]; lia.
  inversion H; subst mrs e'; clear H.
  exists (Zpos n).
  rewrite iter_shr_1_m by (rewrite shr_record_of_loc_m; lia).
  rewrite shr_record_of_loc_m.
  assert (Hk : 2 ^ (D - 1) = 4503599627370496 * 2 ^ Zpos n).
  { replace (D - 1) with (52 + Zpos n) by lia; rewrite Z.pow_add_r by lia; reflexivity. }
  assert (Hk' : 2 ^ D = 9007199254740992 * 2 ^ Zpos n).
  { replace D with (53 + Zpos n) at 1 by lia; rewrite Z.pow_add_r by lia; reflexivity. }
  assert (HK : 0 < 2 ^ Zpos n) by (apply Z.pow_pos_nonneg; lia).
  set (K := 2 ^ Zpos n) in *.
  assert (Hq1 : 4503599627370496 <= m / K)
    by (apply Z.div_le_lower_bound; lia).
  assert (Hq2 : m / K < 9007199254740992)
    by (apply Z.div_lt_upper_bound; lia).
  split; [lia|]; split; [reflexivity|]; split; [lia|]; split.
  - rewrite (Zdigits2_unique (m / K) 53) by (lia || (split; [exact Hq1 | exact Hq2])).
    lia.
  - pose proof (Z.div_mod m K ltac:(lia)) as Hdm.
    pose proof (Z.mod_pos_bound m K HK) as Hr.
    set (q := m / K) in *; set (r := m mod K) in *.
    nia.
Qed.

Lemma round_nearest_even_ge (m : Z) (l : location) : m <= round_nearest_even m l.
Proof. destruct l as [|[]]; simpl; try lia; destruct (Z.even m); lia. Qed.

(** Rounding a positive value [mx * 2 ^ ex] of magnitude at least
    [2 ^ -1021] gives +infinity or a finite float of exponent [ex + k]
    whose value is at least [(1 - 2 ^ -52) ^ 2] times the input. *)
Lemma binary_round_aux_lower (mx ex : Z) (lx : location) :
  0 < mx -> -1021 <= Zdigits2 mx + ex ->
  binary_round_aux prec emax false mx ex lx = S754_infinity false \/
  exists m k, 0 <= k /\
    binary_round_aux prec emax false mx ex lx = S754_finite false m (ex + k) /\
    (2 ^ 52 - 1) * (2 ^ 52 - 1) * mx <= 2 ^ 104 * (Zpos m * 2 ^ k).
Proof.
  intros Hm HD; unfold binary_round_aux.
  destruct (shr_fexp prec emax mx ex lx) as [mrs1 e1] eqn:E1.
  destruct (shr_fexp_step _ _ _ _ _ Hm HD E1) as (k1 & Hk1 & -> & Hp1 & HD1 & Hb1).
  set (m2 := round_nearest_even (shr_m mrs1) (loc_of_shr_record mrs1)).
  assert (Hm2 : shr_m mrs1 <= m2) by apply round_nearest_even_ge.
  assert (HD2 : -1021 <= Zdigits2 m2 + (ex + k1))
    by (pose proof (Zdigits2_mono (shr_m mrs1) m2 ltac:(lia)); lia).
  destruct (shr_fexp prec emax m2 (ex + k1) loc_Exact) as [mrs3 e3] eqn:E3.
  destruct (shr_fexp_step m2 (ex + k1) loc_Exact mrs3 e3 ltac:(lia) HD2 E3) as (k2 & Hk2 & -> & Hp3 & _ & Hb3).
  destruct (shr_m mrs3) as [|m3|m3] eqn:Em3; try lia.
  destruct (ex + k1 + k2 <=? emax - prec); [right | left; reflexivity].
  exists m3, (k1 + k2); split; [lia|]; split; [f_equal; lia|].
  rewrite Z.pow_add_r by lia.
  replace (2 ^ 104) with (2 ^ 52 * 2 ^ 52) by reflexivity.
  assert (HK1 : 0 < 2 ^ k1) by (apply Z.pow_pos_nonneg; lia).
  assert (HK2 : 0 < 2 ^ k2) by (apply Z.pow_pos_nonneg; lia).
  set (K1 := 2 ^ k1) in *; set (K2 := 2 ^ k2) in *.
  set (B := 2 ^ 52) in *.
  assert (HB : 1 <= B) by (unfold B; lia).
  set (m1 := shr_m mrs1) in *.
  rewrite <- Z.mul_assoc.
  apply Z.le_trans with ((B - 1) * (B * (m1 * K1))); [apply Z.mul_le_mono_nonneg_l; lia|].
  apply Z.le_trans with ((B - 1) * (B * (m2 * K1))).
  { apply Z.mul_le_mono_nonneg_l; [lia|]; apply Z.mul_le_mono_nonneg_l; [lia|].
    apply Z.mul_le_mono_nonneg_r; lia. }
  replace ((B - 1) * (B * (m2 * K1))) with (B * (((B - 1) * m2) * K1)) by ring.
  replace (B * B * (Zpos m3 * (K1 * K2))) with (B * ((B * (Zpos m3 * K2)) * K1)) by ring.
  apply Z.mul_le_mono_nonneg_l; [lia|].
  apply Z.mul_le_mono_nonneg_r; lia.
Qed.

Lemma iter_xO_val (p d : positive) : Zpos (Pos.iter xO p d) = Zpos p * 2 ^ Zpos d.
Proof.
  induction d as [|d IH] using Pos.peano_ind; [simpl; lia|].
  rewrite Pos.iter_succ, Pos2Z.inj_succ, Z.pow_succ_r by lia.
  change (Zpos (xO (Pos.iter xO p d))) with (2 * Zpos (Pos.iter xO p d)).
  rewrite IH; ring.
Qed.

(** [float(p)] for a positive int [p] is finite, positive, and at least
    [(1 - 2 ^ -52) ^ 2 * p]. *)
Lemma py_float_of_int_lower (p : Z) (fp : float) :
  0 < p -> py_float_of_int p = Ok fp ->
  exists m e, fp = S754_finite false m e /\ -52 <= e /\
    (2 ^ 52 - 1) * (2 ^ 52 - 1) * (p * 2 ^ 52) <= 2 ^ 104 * (Zpos m * 2 ^ (e + 52)).
Proof.
  intros Hp H; unfold py_float_of_int, binary_normalize in H.
  destruct p as [|p|p]; try lia.
  unfold binary_round in H.
  destruct (shl_align p 0 (fexp prec emax (Zpos (digits2_pos p) + 0))) as [mz ez] eqn:Es.
  pose proof (Zdigits2_bounds (Zpos p) Hp) as (HD & _); simpl Zdigits2 in HD.
  assert (Hsh : -52 <= ez <= 0 /\ Zpos mz * 2 ^ (ez + 52) = Zpos p * 2 ^ 52).
  { unfold shl_align in Es.
    assert (Hf : fexp prec emax (Zpos (digits2_pos p) + 0) = Zpos (digits2_pos p) - 53)
      by (unfold fexp, emin, prec, emax; lia).
    rewrite Hf in Es; set (f := Zpos (digits2_pos p) - 53) in Es.
    destruct (f - 0) as [|d|d] eqn:Ed; injection Es as <- <-.
    1, 2: split; [lia | reflexivity].
    split; [lia|].
    rewrite iter_xO_val, <- Z.mul_assoc, <- Z.pow_add_r by lia; f_equal; f_equal; lia. }
  assert (HDz : -1021 <= Zdigits2 (Zpos mz) + ez)
    by (pose proof (Zdigits2_bounds (Zpos mz) ltac:(lia)); lia).
  destruct (binary_round_aux_lower (Zpos mz) ez loc_Exact ltac:(lia) HDz)
    as [Hinf | (m & k & Hk & Hfin & Hb)].
  - rewrite Hinf in H; discriminate.
  - rewrite Hfin in H; inversion H; subst fp.
    exists m, (ez + k); split; [reflexivity|]; split; [lia|].
    destruct Hsh as [Hez Hv]; rewrite <- Hv.
    replace (ez + k + 52) with (k + (ez + 52)) by lia.
    assert (HE : 0 < 2 ^ (ez + 52)) by (apply Z.pow_pos_nonneg; lia).
    rewrite (Z.pow_add_r 2 k (ez + 52)) by lia.
    replace (2 ^ 104 * (Zpos m * (2 ^ k * 2 ^ (ez + 52))))
      with (2 ^ 104 * (Zpos m * 2 ^ k) * 2 ^ (ez + 52)) by ring.
    rewrite Z.mul_assoc; apply Z.mul_le_mono_nonneg_r; lia.
Qed.

(** A lower bound on the exact value of a positive finite float, checked
    on integers scaled by [2 ^ L]. *)
Lemma float_val_lower (m : positive) (e p L : Z) (q : Q) :
  0 <= L -> -L <= e -> p * 2 ^ L <= Zpos m * 2 ^ (e + L) ->
  float_val (S754_finite false m e) = XFin q -> (inject_Z p <= q)%Q.
Proof.
  intros HL He Hb Hq; unfold float_val in Hq.
  destruct (0 <=? e) eqn:E; injection Hq as <-.
  - apply Z.leb_le in E; rewrite <- Zle_Qle.
    rewrite Z.pow_add_r, Z.mul_assoc in Hb by lia.
    apply (Z.mul_le_mono_pos_r _ _ (2 ^ L)); [apply Z.pow_pos_nonneg; lia | exact Hb].
  - apply Z.leb_gt in E; unfold Qle; simpl Qnum; simpl Qden.
    rewrite Z2Pos.id by (apply Z.pow_pos_nonneg; lia).
    replace L with (- e + (e + L)) in Hb at 1 by lia.
    rewrite Z.pow_add_r, Z.mul_assoc in Hb by lia.
    rewrite Z.mul_1_r.
    apply (Z.mul_le_mono_pos_r _ _ (2 ^ (e + L))); [apply Z.pow_pos_nonneg; lia | exact Hb].
Qed.

Lemma SPIKE_FACTOR_eq : SPIKE_FACTOR = S754_finite false 5854679515581645 (-52).
Proof. vm_compute; reflexivity. Qed.

(** [float(p) * (1 + 0.30) < amt] forces [p < amt]: the product is at
    least [p] for every positive int [p]. *)
Lemma spike_bound_gt (p amt : Z) (fp : float) :
  0 < p -> py_float_of_int p = Ok fp ->
  flt_lt_int (SFmul prec emax fp SPIKE_FACTOR) amt = true -> p < amt.
Proof.
  intros Hp Hfp Hlt.
  destruct (py_float_of_int_lower p fp Hp Hfp) as (m1 & e1 & -> & He1 & Hb1).
  rewrite SPIKE_FACTOR_eq in Hlt.
  change (SFmul prec emax (S754_finite false m1 e1) (S754_finite false 5854679515581645 (-52)))
    with (binary_round_aux prec emax false (Zpos (m1 * 5854679515581645)) (e1 + -52) loc_Exact)
    in Hlt.
  assert (HD : -1021 <= Zdigits2 (Zpos (m1 * 5854679515581645)) + (e1 + -52))
    by (pose proof (Zdigits2_bounds (Zpos (m1 * 5854679515581645)) ltac:(lia)); lia).
  destruct (binary_round_aux_lower (Zpos (m1 * 5854679515581645)) (e1 + -52) loc_Exact
             ltac:(lia) HD) as [Hinf | (m3 & k & Hk & Hfin & Hb3)].
  - rewrite Hinf in Hlt; discriminate.
  - rewrite Hfin in Hlt; unfold flt_lt_int in Hlt.
    destruct (float_val (S754_finite false m3 (e1 + -52 + k))) as [q| | |] eqn:Hq; try discriminate.
    unfold xlt in Hlt; destruct (q ?= inject_Z amt)%Q eqn:Hc; try discriminate.
    rewrite <- Qlt_alt in Hc.
    enough (Hge : (inject_Z p <= q)%Q).
    { rewrite Zlt_Qlt; eapply Qle_lt_trans; eassumption. }
    apply (float_val_lower m3 (e1 + -52 + k) p 104); [lia | lia | | exact Hq].
    rewrite Pos2Z.inj_mul in Hb3.
    replace (e1 + -52 + k + 104) with (k + (e1 + 52)) by lia.
    rewrite Z.pow_add_r by lia.
    assert (HX : 0 < 2 ^ (e1 + 52)) by (apply Z.pow_pos_nonneg; lia).
    assert (HY : 0 < 2 ^ k) by (apply Z.pow_pos_nonneg; lia).
    replace (2 ^ 104) with (2 ^ 52 * 2 ^ 52) in * by reflexivity.
    assert (HC : 2 ^ 52 * (2 ^ 52 * (2 ^ 52 * (2 ^ 52 * (2 ^ 52 * 2 ^ 52))))
                 <= (2 ^ 52 - 1) * (2 ^ 52 - 1) * ((2 ^ 52 - 1) * (2 ^ 52 - 1))
                    * 5854679515581645 * 2 ^ 52) by (apply Z.leb_le; reflexivity).
    assert (HB2 : 2 <= 2 ^ 52) by (apply Z.leb_le; reflexivity).
    set (X := 2 ^ (e1 + 52)) in *; set (Y := 2 ^ k) in *; set (B := 2 ^ 52) in *.
    clearbody X Y B.
    set (c := (B - 1) * (B - 1)) in *.
    assert (H4 : 0 < B) by lia.
    apply (Z.mul_le_mono_pos_l _ _ (B * (B * (B * B)))); [nia|].
    apply Z.le_trans with (c * c * 5854679515581645 * B * p); [nia|].
    apply Z.le_trans with (c * 5854679515581645 * (B * B * (Zpos m1 * X))).
    { replace (c * c * 5854679515581645 * B * p)
        with (c * 5854679515581645 * (c * (p * B))) by ring.
      apply Z.mul_le_mono_nonneg_l; [nia | exact Hb1]. }
    apply Z.le_trans with (B * B * X * (B * B * (Zpos m3 * Y))); [|nia].
    replace (c * 5854679515581645 * (B * B * (Zpos m1 * X)))
      with (B * B * X * (c * (Zpos m1 * 5854679515581645))) by ring.
    apply Z.mul_le_mono_nonneg_l; [nia | exact Hb3].
Qed.

(** ** C4: category-level spikes *)

(** The condition of line 252 for a category [c] with current amount
    [amt]: [prev_amount > 0 and amount > prev_amount * (1 + 0.30)]. *)
Definition category_spike_condition (cur prev : WeeklyStats) (c : string) (amt : Z) : Prop :=
  In (c, amt) (category_breakdown cur) /\
  0 < dict_get_or (category_breakdown prev) c 0 /\
  exists fp, py_float_of_int (dict_get_or (category_breakdown prev) c 0) = Ok fp /\
    flt_lt_int (SFmul prec emax fp SPIKE_FACTOR) amt = true.

Definition category_spike_anomaly (c : string) (amt p : Z) : Anomaly :=
  mkAnomaly "category_spike" "medium" (DescCategorySpike c amt p) (DataCategory c amt p).

Lemma category_checks_spec (prev : WeeklyStats) (es : dict Z) (l : list Anomaly) :
  category_checks prev es = Ok l ->
  forall a, In a l <->
    exists c amt fp, In (c, amt) es /\
      0 < dict_get_or (category_breakdown prev) c 0 /\
      py_float_of_int (dict_get_or (category_breakdown prev) c 0) = Ok fp /\
      flt_lt_int (SFmul prec emax fp SPIKE_FACTOR) amt = true /\
      a = category_spike_anomaly c amt (dict_get_or (category_breakdown prev) c 0).
Proof.
  revert l; induction es as [|[cat amt] es IH]; intros l H a; cbn [category_checks] in H.
  - inversion H; subst; split; [intros []|intros (c & amt & fp & [] & _)].
  - destruct (category_check prev (cat, amt)) as [l1|e] eqn:E1; cbn [bind] in H; [|discriminate].
    destruct (category_checks prev es) as [l2|e] eqn:E2; cbn [bind] in H; [|discriminate].
    inversion H; subst l; clear H.
    rewrite in_app_iff, (IH l2 eq_refl a).
    unfold category_check in E1.
    set (P := dict_get_or (category_breakdown prev) cat 0) in E1.
    split.
    + intros [Ha|(c & amt' & fp & Hin & Hrest)];
        [|exists c, amt', fp; split; [right; exact Hin | exact Hrest]].
      destruct (0 <? P) eqn:HP; [|inversion E1; subst; destruct Ha].
      destruct (py_float_of_int P) as [fp|e] eqn:Hfp; cbn [bind] in E1; [|discriminate].
      destruct (flt_lt_int _ _) eqn:Hlt; [|inversion E1; subst l1; destruct Ha].
      destruct (py_truediv amt 100); cbn [bind] in E1; [|discriminate].
      destruct (py_truediv P 100); cbn [bind] in E1; [|discriminate].
      inversion E1; subst l1.
      destruct Ha as [<-|[]].
      exists cat, amt, fp; apply Z.ltb_lt in HP.
      repeat split; [left; reflexivity | exact HP | exact Hfp | exact Hlt].
    + intros (c & amt' & fp & [Heq|Hin] & HP & Hfp & Hlt & ->);
        [|right; exists c, amt', fp; auto].
      left; injection Heq as <- <-; fold P in HP, Hfp |- *.
      apply Z.ltb_lt in HP; rewrite HP in E1; rewrite Hfp in E1; cbn [bind] in E1.
      rewrite Hlt in E1.
      destruct (py_truediv amt 100); cbn [bind] in E1; [|discriminate].
      destruct (py_truediv P 100); cbn [bind] in E1; [|discriminate].
      inversion E1; left; reflexivity.
Qed.

Lemma total_check_types (cur prev : WeeklyStats) (l : list Anomaly) :
  total_check cur prev = Ok l ->
  forall a, In a l -> a_type a = "spike"%string \/ a_type a = "drop"%string.
Proof.
  intros H a Ha; apply total_check_spec in H
    as [[_ ->] | [_ (r & _ & [[_ ->] | [[_ [_ ->]] | [_ [_ ->]]]])]];
    try destruct Ha as [<-|[]]; simpl; auto; destruct Ha.
Qed.

(** The category anomalies of [detect_anomalies] are those of
    [category_checks] over the current breakdown. *)
Lemma category_part (cur prev : WeeklyStats) (out : list Anomaly) :
  detect_anomalies cur (Some prev) = Ok out ->
  exists l4, category_checks prev (category_breakdown cur) = Ok l4 /\
    forall a, a_type a = "category_spike"%string -> (In a out <-> In a l4).
Proof.
  unfold detect_anomalies; intro H.
  destruct (total_check cur prev) as [l3|e] eqn:T; cbn [bind] in H; [|discriminate].
  destruct (category_checks prev (category_breakdown cur)) as [l4|e] eqn:C;
    cbn [bind] in H; [|discriminate].
  inversion H; subst out; clear H.
  exists l4; split; [reflexivity|].
  intros a Ha; rewrite app_assoc, !in_app_iff; split.
  - intros [Hs|[Hs|Hs]]; [| |exact Hs].
    + exfalso; apply in_app_iff in Hs.
      destruct (standalone_types cur a Hs) as [E|E]; rewrite Ha in E; discriminate.
    + exfalso; destruct (total_check_types _ _ _ T a Hs) as [E|E]; rewrite Ha in E; discriminate.
  - intro Hs; right; right; exact Hs.
Qed.

(** C4: with a previous record, a medium-severity "category_spike" for a
    category [c] with current amount [amt] is emitted iff [(c, amt)] is in
    the current breakdown, the previous amount of [c] is positive and [amt]
    exceeds it times 1.30 (Python float arithmetic); every such anomaly
    has this form; a category absent from the previous breakdown never
    gets one; and none is emitted unless the amount grew. *)
Theorem category_spike_rule (cur prev : WeeklyStats) (out : list Anomaly) :
  detect_anomalies cur (Some prev) = Ok out ->
  (forall c amt,
     In (category_spike_anomaly c amt (dict_get_or (category_breakdown prev) c 0)) out <->
     category_spike_condition cur prev c amt) /\
  (forall a, In a out -> a_type a = "category_spike"%string ->
     severity a = "medium"%string /\
     exists c amt, a = category_spike_anomaly c amt (dict_get_or (category_breakdown prev) c 0) /\
                   category_spike_condition cur prev c amt) /\
  (forall c, dict_get (category_breakdown prev) c = None ->
     forall a amt p, In a out -> a_type a = "category_spike"%string ->
       data a <> DataCategory c amt p) /\
  (forall a c amt p, In a out -> a_type a = "category_spike"%string ->
     data a = DataCategory c amt p -> 0 < p /\ p < amt).
Proof.
  intro H; destruct (category_part _ _ _ H) as (l4 & C & Hiff).
  pose proof (category_checks_spec _ _ _ C) as Hspec.
  assert (Hall : forall a, In a out -> a_type a = "category_spike"%string ->
     severity a = "medium"%string /\
     exists c amt, a = category_spike_anomaly c amt (dict_get_or (category_breakdown prev) c 0) /\
                   category_spike_condition cur prev c amt).
  { intros a Ha Ht; apply (Hiff a Ht), Hspec in Ha
      as (c & amt & fp & Hin & HP & Hfp & Hlt & ->).
    split; [reflexivity|]; exists c, amt; split; [reflexivity|].
    split; [exact Hin|]; split; [exact HP|]; exists fp; auto. }
  split; [|split; [exact Hall|split]].
  - intros c amt.
    rewrite (Hiff (category_spike_anomaly c amt (dict_get_or (category_breakdown prev) c 0))
                  eq_refl), Hspec; split.
    + intros (c' & amt' & fp & Hin & HP & Hfp & Hlt & Heq).
      injection Heq as -> ->.
      split; [exact Hin|]; split; [exact HP|]; exists fp; auto.
    + intros (Hin & HP & fp & Hfp & Hlt); exists c, amt, fp; auto.
  - intros c Hc a amt p Ha Ht Hd.
    destruct (Hall a Ha Ht) as (_ & c' & amt' & -> & _ & HP & _).
    injection Hd as -> -> <-.
    unfold dict_get_or in HP; rewrite Hc in HP; lia.
  - intros a c amt p Ha Ht Hd.
    destruct (Hall a Ha Ht) as (_ & c' & amt' & -> & _ & HP & fp & Hfp & Hlt).
    injection Hd as -> -> <-.
    split; [exact HP|].
    exact (spike_bound_gt _ _ _ HP Hfp Hlt).
Qed.

(** Weekly statistics carrying only a total expense and a breakdown. *)
Definition stats_with (te : Z) (bd : dict Z) : WeeklyStats :=
  mkWeeklyStats "" "" 0 te (- te) bd [] [] [] 0 [] [] 0.

(** The scenario of the spec: 100000 cents, then 140000 cents. *)
Lemma spike_drop_rule_witness :
  exists out, detect_anomalies (stats_with 140000 []) (Some (stats_with 100000 [])) = Ok out /\
    has_anomaly "spike" out /\ ~ has_anomaly "drop" out.
Proof.
  destruct (detect_anomalies (stats_with 140000 []) (Some (stats_with 100000 [])))
    as [out|e] eqn:E; [|vm_compute in E; discriminate].
  exists out; split; [reflexivity|].
  destruct (spike_drop_rule _ _ _ E) as ([_ Hs] & _ & _ & _ & Hn & _).
  assert (Hsp : has_anomaly "spike" out).
  { apply Hs; exists (stats_with 100000 []).
    eexists; split; [reflexivity|]; split; [vm_compute; reflexivity|].
    split; [vm_compute; reflexivity | vm_compute; reflexivity]. }
  split; [exact Hsp | intro Hd; exact (Hn (conj Hsp Hd))].
Defined.

(** "Food" grows from 10000 to 15000 cents (a spike); "Fun" shrinks. *)
Lemma category_spike_rule_witness :
  exists out,
    detect_anomalies (stats_with 15900 [("Food", 15000); ("Fun", 900)]%string)
      (Some (stats_with 11000 [("Food", 10000); ("Fun", 1000)]%string)) = Ok out /\
    In (category_spike_anomaly "Food" 15000 10000) out.
Proof.
  destruct (detect_anomalies (stats_with 15900 [("Food", 15000); ("Fun", 900)]%string)
      (Some (stats_with 11000 [("Food", 10000); ("Fun", 1000)]%string))) as [out|e] eqn:E;
    [|vm_compute in E; discriminate].
  exists out; split; [reflexivity|].
  destruct (category_spike_rule _ _ _ E) as (Hiff & _).
  apply (proj2 (Hiff "Food"%string 15000)).
  split; [left; reflexivity|]; split; [vm_compute; reflexivity|].
  eexists; split; vm_compute; reflexivity.
Defined.

(** ** C7 and C10: budget health *)

(** The record returned when no budget is configured. *)
Definition unknown_health : dict pyval :=
  [("status"%string, VStr "unknown"%string); ("message"%string, VStr "未设置月度预算"%string)].

Definition health_record (status message : string) (projected total : Z) (ratio : pyval)
    : dict pyval :=
  [("status"%string, VStr status); ("message"%string, VStr message);
   ("projected_monthly"%string, VInt projected); ("total_budget"%string, VInt total);
   ("remaining"%string, VInt (total - projected)); ("health_ratio"%string, ratio)].

(** The ratio and verdict of a configured budget. *)
Definition health_ratio_ok (projected total : Z) (ratio : pyval) : Prop :=
  (total <= 0 /\ ratio = VInt 0) \/
  (0 < total /\ exists r, py_truediv projected total = Ok r /\ ratio = VFloat r).

Definition verdict_ok (ratio : pyval) (status : string) : Prop :=
  (status = "healthy"%string <-> num_lt_flt ratio HEALTHY_BOUND = true) /\
  (status = "warning"%string <->
     num_lt_flt ratio HEALTHY_BOUND = false /\ num_lt_flt ratio WARNING_BOUND = true) /\
  (status = "critical"%string <->
     num_lt_flt ratio HEALTHY_BOUND = false /\ num_lt_flt ratio WARNING_BOUND = false).

Lemma budget_health_unknown (stats : WeeklyStats) (mb : option (dict Z)) :
  mb = None \/ mb = Some [] -> calculate_budget_health stats mb = Ok unknown_health.
Proof. intros [-> | ->]; reflexivity. Qed.

Lemma budget_health_inv (stats : WeeklyStats) (budget : dict Z) (d : dict pyval) :
  budget <> [] -> calculate_budget_health stats (Some budget) = Ok d ->
  let total := sum_Z (map snd budget) in
  let projected := total_expense stats * 4 in
  exists status message ratio,
    d = health_record status message projected total ratio /\
    health_ratio_ok projected total ratio /\ verdict_ok ratio status.
Proof.
  intros Hne H total projected.
  unfold calculate_budget_health in H; destruct budget as [|b bs]; [congruence|].
  fold total projected in H.
  assert (Hv : forall ratio status message,
             verdict_ok ratio status ->
             health_ratio_ok projected total ratio ->
             d = health_record status message projected total ratio ->
             exists status message ratio,
               d = health_record status message projected total ratio /\
               health_ratio_ok projected total ratio /\ verdict_ok ratio status)
    by (intros ratio status message Hs Hr Hd; exists status, message, ratio; auto).
  assert (Hverdict : forall ratio,
    let '(status, message) :=
        if num_lt_flt ratio HEALTHY_BOUND then ("healthy"%string, "预算进度正常"%string)
        else if num_lt_flt ratio WARNING_BOUND then ("warning"%string, "预算进度偏快，注意控制"%string)
        else ("critical"%string, "预计超支，建议立即调整"%string) in
    verdict_ok ratio status).
  { intro ratio; unfold verdict_ok.
    destruct (num_lt_flt ratio HEALTHY_BOUND); [|destruct (num_lt_flt ratio WARNING_BOUND)];
      repeat split; intuition congruence. }
  destruct (0 <? total) eqn:Ht.
  - apply Z.ltb_lt in Ht.
    destruct (py_truediv projected total) as [r|e] eqn:Hr; cbn [bind] in H; [|discriminate].
    specialize (Hverdict (VFloat r)).
    destruct (if num_lt_flt (VFloat r) HEALTHY_BOUND then _ else _) as [status message].
    injection H as <-.
    apply (Hv (VFloat r) status message Hverdict); [right; split; [exact Ht|eauto] | reflexivity].
  - apply Z.ltb_ge in Ht; cbn [bind] in H.
    specialize (Hverdict (VInt 0)).
    destruct (if num_lt_flt (VInt 0) HEALTHY_BOUND then _ else _) as [status message].
    injection H as <-.
    apply (Hv (VInt 0) status message Hverdict); [left; split; [exact Ht|reflexivity] | reflexivity].
Qed.

Lemma budget_health_nonpos_ok (stats : WeeklyStats) (budget : dict Z) :
  budget <> [] -> sum_Z (map snd budget) <= 0 ->
  exists d, calculate_budget_health stats (Some budget) = Ok d.
Proof.
  intros Hne Ht; unfold calculate_budget_health; destruct budget as [|b bs]; [congruence|].
  apply Z.ltb_ge in Ht; rewrite Ht; cbn [bind].
  destruct (if num_lt_flt (VInt 0) HEALTHY_BOUND then _ else _); eexists; reflexivity.
Qed.

(** C7 (corrected): without a budget (None or an empty dict) the result is
    the "unknown" record, not an error.  With a budget, [health_ratio] is
    the float [projected_monthly / total_budget] when [total_budget > 0]
    and the int 0 when [total_budget <= 0] (then no exception is raised);
    the status is "healthy" iff the ratio is below 0.8, "warning" iff it
    is not below 0.8 but below 1.0, "critical" otherwise. *)
Theorem budget_health_rule (stats : WeeklyStats) (mb : option (dict Z)) :
  ((mb = None \/ mb = Some []) -> calculate_budget_health stats mb = Ok unknown_health) /\
  (forall budget, mb = Some budget -> budget <> [] ->
     let total := sum_Z (map snd budget) in
     let projected := total_expense stats * 4 in
     (total <= 0 -> exists d, calculate_budget_health stats mb = Ok d) /\
     (forall d, calculate_budget_health stats mb = Ok d ->
        exists ratio status,
          dict_get d "health_ratio" = Some ratio /\ dict_get d "status" = Some (VStr status) /\
          health_ratio_ok projected total ratio /\ verdict_ok ratio status)).
Proof.
  split; [apply budget_health_unknown|].
  intros budget -> Hne total projected; split.
  - apply budget_health_nonpos_ok, Hne.
  - intros d Hd.
    destruct (budget_health_inv stats budget d Hne Hd) as (status & message & ratio & -> & Hr & Hs).
    exists ratio, status; split; [reflexivity|]; split; [reflexivity|]; split; assumption.
Qed.

(** C10 (corrected): the "unknown" record has exactly the keys status and
    message; a record for a configured budget has status, message,
    projected_monthly, total_budget, remaining and health_ratio, with
    [remaining = total_budget - projected_monthly]. *)
Theorem budget_record_fields (stats : WeeklyStats) (mb : option (dict Z)) (d : dict pyval) :
  calculate_budget_health stats mb = Ok d ->
  ((mb = None \/ mb = Some []) ->
     map fst d = ["status"; "message"]%string) /\
  (forall budget, mb = Some budget -> budget <> [] ->
     let total := sum_Z (map snd budget) in
     let projected := total_expense stats * 4 in
     map fst d = ["status"; "message"; "projected_monthly"; "total_budget";
                  "remaining"; "health_ratio"]%string /\
     (exists s m, dict_get d "status" = Some (VStr s) /\ dict_get d "message" = Some (VStr m)) /\
     dict_get d "projected_monthly" = Some (VInt projected) /\
     dict_get d "total_budget" = Some (VInt total) /\
     dict_get d "remaining" = Some (VInt (total - projected)) /\
     exists ratio, dict_get d "health_ratio" = Some ratio).
Proof.
  intro Hd; split.
  - intro Hmb; rewrite (budget_health_unknown stats mb Hmb) in Hd.
    injection Hd as <-; reflexivity.
  - intros budget -> Hne total projected.
    destruct (budget_health_inv stats budget d Hne Hd) as (status & message & ratio & -> & _ & _).
    split; [reflexivity|]; split; [exists status, message; split; reflexivity|].
    repeat split; exists ratio; reflexivity.
Qed.

(** A negative total budget: [health_ratio] is the int 0, while
    [projected_monthly / total_budget] = 40 / -100 is a negative float. *)
Lemma budget_ratio_negative_total :
  exists d r,
    calculate_budget_health (stats_with 10 []) (Some [("rent", -100)]%string) = Ok d /\
    dict_get d "health_ratio" = Some (VInt 0) /\
    py_truediv 40 (-100) = Ok r /\ flt_lt r (S754_zero false) = true.
Proof.
  eexists; eexists; split; [vm_compute; reflexivity|].
  split; [vm_compute; reflexivity|].
  split; vm_compute; reflexivity.
Qed.

(** A budget of 300000 cents and 50000 cents spent: ratio 2/3, healthy. *)
Lemma budget_health_rule_witness :
  exists d, calculate_budget_health (stats_with 50000 []) (Some [("Food", 300000)]%string) = Ok d /\
    dict_get d "status" = Some (VStr "healthy").
Proof.
  destruct (calculate_budget_health (stats_with 50000 []) (Some [("Food", 300000)]%string))
    as [d|e] eqn:E; [|vm_compute in E; discriminate].
  exists d; split; [reflexivity|].
  destruct (proj2 (budget_health_rule (stats_with 50000 []) (Some [("Food", 300000)]%string))
              _ eq_refl ltac:(discriminate)) as [_ H].
  destruct (H d E) as (ratio & status & _ & Hs & Hratio & Hv).
  rewrite Hs; do 2 f_equal; apply (proj1 Hv).
  destruct Hratio as [[Ht _] | [_ (r & Hr & ->)]]; [vm_compute in Ht; exfalso; apply Ht; reflexivity|].
  vm_compute in Hr; injection Hr as <-; vm_compute; reflexivity.
Defined.

(** Without a budget the record has no numeric field. *)
Lemma budget_unknown_lacks_numbers :
  calculate_budget_health (stats_with 10 []) None = Ok unknown_health /\
  dict_get unknown_health "projected_monthly" = None /\
  dict_get unknown_health "total_budget" = None /\
  dict_get unknown_health "remaining" = None /\
  dict_get unknown_health "health_ratio" = None.
Proof. repeat split; reflexivity. Qed.

(** The configured case of C10 on the budget above: 100000 cents remain. *)
Lemma budget_record_fields_witness :
  exists d, calculate_budget_health (stats_with 50000 []) (Some [("Food", 300000)]%string) = Ok d /\
    dict_get d "remaining" = Some (VInt 100000).
Proof.
  destruct (calculate_budget_health (stats_with 50000 []) (Some [("Food", 300000)]%string))
    as [d|e] eqn:E; [|vm_compute in E; discriminate].
  exists d; split; [reflexivity|].
  destruct (budget_record_fields _ _ _ E) as [_ H].
  exact (proj1 (proj2 (proj2 (proj2 (proj2 (H _ eq_refl ltac:(discriminate))))))).
Defined.

(** ** C9: order of the input *)

Lemma mapM_ok_map {A B} (f : A -> res B) (l : list A) (r : list B) :
  mapM f l = Ok r -> map f l = map Ok r.
Proof.
  revert r; induction l as [|x l IH]; intros r H; cbn [mapM] in H.
  - inversion H; reflexivity.
  - destruct (f x) as [y|e] eqn:Ef; cbn [bind] in H; [|discriminate].
    destruct (mapM f l) as [r'|e] eqn:El; cbn [bind] in H; [|discriminate].
    inversion H; subst; simpl; rewrite Ef, (IH r' eq_refl); reflexivity.
Qed.

Lemma map_Ok_inj {B} (a b : list B) : map Ok a = map Ok b -> a = b.
Proof.
  revert b; induction a as [|x a IH]; intros [|y b] H; try discriminate; [reflexivity|].
  injection H as Hxy Hab; rewrite Hxy, (IH b Hab); reflexivity.
Qed.

Lemma mapM_perm {A B} (f : A -> res B) (l1 l2 : list A) (r1 r2 : list B) :
  Permutation l1 l2 -> mapM f l1 = Ok r1 -> mapM f l2 = Ok r2 -> Permutation r1 r2.
Proof.
  intros Hp H1 H2.
  apply mapM_ok_map in H1; apply mapM_ok_map in H2.
  assert (Hm : Permutation (map Ok r1) (map (@Ok B) r2))
    by (rewrite <- H1, <- H2; apply Permutation_map, Hp).
  destruct (Permutation_map_inv _ _ Hm) as (l3 & Heq & Hp3).
  apply map_Ok_inj in Heq; subst l3; symmetry; exact Hp3.
Qed.

Lemma sum_Z_perm (l1 l2 : list Z) : Permutation l1 l2 -> sum_Z l1 = sum_Z l2.
Proof.
  induction 1 as [| x l1 l2 _ IH | x y l | l1 l2 l3 _ IH1 _ IH2];
    rewrite ?sum_Z_cons; try lia; reflexivity.
Qed.

Lemma count_uncategorized_length (vs : list Transaction) :
  count_uncategorized vs =
  Z.of_nat (List.length (filter (fun t => (amount t <? 0) && is_uncategorized t) vs)).
Proof.
  unfold count_uncategorized.
  assert (G : forall a, fold_left (fun n t => if (amount t <? 0) && is_uncategorized t
                                              then n + 1 else n) vs a =
                        a + Z.of_nat (List.length (filter (fun t => (amount t <? 0) &&
                                                                      is_uncategorized t) vs))).
  { induction vs as [|t vs IH]; intro a; simpl; [lia|].
    destruct ((amount t <? 0) && is_uncategorized t); simpl; rewrite IH; lia. }
  rewrite G; lia.
Qed.

Lemma count_uncategorized_perm (vs1 vs2 : list Transaction) :
  Permutation vs1 vs2 -> count_uncategorized vs1 = count_uncategorized vs2.
Proof.
  intro Hp; rewrite !count_uncategorized_length.
  f_equal; apply Permutation_length, perm_filter, Hp.
Qed.

Lemma valid_txns_perm (ts1 ts2 : list Transaction) :
  Permutation ts1 ts2 -> Permutation (valid_txns ts1) (valid_txns ts2).
Proof. apply perm_filter. Qed.

Ltac dt_cases :=
  unfold dt_lt; cbn [dt_year dt_month dt_day];
  repeat match goal with
         | |- context [?x <? ?y] => destruct (Z.ltb_spec x y)
         | |- context [?x =? ?y] => destruct (Z.eqb_spec x y)
         end; simpl; intros; try lia; try discriminate; try reflexivity.

Lemma dt_lt_irrefl (a : datetime) : dt_lt a a = false.
Proof. destruct a; dt_cases. Qed.

Definition dt_lex (a b : datetime) : Prop :=
  dt_year a < dt_year b \/
  (dt_year a = dt_year b /\ (dt_month a < dt_month b \/
                             (dt_month a = dt_month b /\ dt_day a < dt_day b))).

Lemma dt_lt_lex (a b : datetime) : dt_lt a b = true <-> dt_lex a b.
Proof. destruct a, b; unfold dt_lex; dt_cases; intuition lia. Qed.

Lemma dt_lt_nlex (a b : datetime) : dt_lt a b = false <-> ~ dt_lex a b.
Proof. rewrite <- dt_lt_lex; destruct (dt_lt a b); intuition congruence. Qed.

(** [not (b < a)] is a total preorder on datetimes. *)
Lemma dt_le_trans (a b c : datetime) :
  dt_lt b a = false -> dt_lt c b = false -> dt_lt c a = false.
Proof. rewrite !dt_lt_nlex; unfold dt_lex; lia. Qed.

Lemma dt_lt_trans (a b c : datetime) :
  dt_lt a b = true -> dt_lt b c = true -> dt_lt a c = true.
Proof. rewrite !dt_lt_lex; unfold dt_lex; lia. Qed.

Lemma dt_lt_le_trans (a b c : datetime) :
  dt_lt a b = true -> dt_lt c b = false -> dt_lt a c = true.
Proof. rewrite dt_lt_nlex, !dt_lt_lex; unfold dt_lex; lia. Qed.

Lemma dt_le_lt_trans (a b c : datetime) :
  dt_lt b a = false -> dt_lt b c = true -> dt_lt a c = true.
Proof. rewrite dt_lt_nlex, !dt_lt_lex; unfold dt_lex; lia. Qed.

Lemma dt_antisym (a b : datetime) : dt_lt a b = false -> dt_lt b a = false -> a = b.
Proof. destruct a as [y1 m1 d1], b as [y2 m2 d2]; dt_cases; f_equal; lia. Qed.

Lemma min_from_spec (cur : datetime) (l : list datetime) :
  In (min_from cur l) (cur :: l) /\ forall x, In x (cur :: l) -> dt_lt x (min_from cur l) = false.
Proof.
  revert cur; induction l as [|y l IH]; intro cur; simpl.
  - split; [left; reflexivity|]; intros x [<-|[]]; apply dt_lt_irrefl.
  - destruct (dt_lt y cur) eqn:E; destruct (IH (if dt_lt y cur then y else cur)) as [Hin Hmin];
      rewrite E in Hin, Hmin; set (m := min_from _ l) in *.
    + split; [simpl in Hin; tauto|].
      intros x [<-|[<-|Hx]]; [| apply Hmin; left; reflexivity | apply Hmin; right; exact Hx].
      destruct (dt_lt cur m) eqn:E2; [|reflexivity].
      pose proof (Hmin y (or_introl eq_refl)) as Hy.
      rewrite (dt_lt_trans _ _ _ E E2) in Hy; discriminate.
    + split; [simpl in Hin; tauto|].
      intros x [<-|[<-|Hx]]; [apply Hmin; left; reflexivity | | apply Hmin; right; exact Hx].
      destruct (dt_lt y m) eqn:E2; [|reflexivity].
      pose proof (Hmin cur (or_introl eq_refl)) as Hc.
      rewrite (dt_lt_le_trans _ _ _ E2 Hc) in E; discriminate.
Qed.

Lemma max_from_spec (cur : datetime) (l : list datetime) :
  In (max_from cur l) (cur :: l) /\ forall x, In x (cur :: l) -> dt_lt (max_from cur l) x = false.
Proof.
  revert cur; induction l as [|y l IH]; intro cur; simpl.
  - split; [left; reflexivity|]; intros x [<-|[]]; apply dt_lt_irrefl.
  - destruct (dt_lt cur y) eqn:E; destruct (IH (if dt_lt cur y then y else cur)) as [Hin Hmax];
      rewrite E in Hin, Hmax; set (m := max_from _ l) in *.
    + split; [simpl in Hin; tauto|].
      intros x [<-|[<-|Hx]]; [| apply Hmax; left; reflexivity | apply Hmax; right; exact Hx].
      destruct (dt_lt m cur) eqn:E2; [|reflexivity].
      pose proof (Hmax y (or_introl eq_refl)) as Hy.
      rewrite (dt_lt_trans _ _ _ E2 E) in Hy; discriminate.
    + split; [simpl in Hin; tauto|].
      intros x [<-|[<-|Hx]]; [apply Hmax; left; reflexivity | | apply Hmax; right; exact Hx].
      destruct (dt_lt m y) eqn:E2; [|reflexivity].
      pose proof (Hmax cur (or_introl eq_refl)) as Hc.
      rewrite (dt_le_lt_trans _ _ _ Hc E2) in E; discriminate.
Qed.

Lemma py_min_perm (l1 l2 : list datetime) (a b : datetime) :
  Permutation l1 l2 -> py_min l1 = Some a -> py_min l2 = Some b -> a = b.
Proof.
  intros Hp H1 H2.
  destruct l1 as [|x1 l1]; [discriminate|]; destruct l2 as [|x2 l2]; [discriminate|].
  injection H1 as <-; injection H2 as <-.
  destruct (min_from_spec x1 l1) as [Hin1 Hm1]; destruct (min_from_spec x2 l2) as [Hin2 Hm2].
  apply dt_antisym.
  - apply Hm2, (Permutation_in _ Hp), Hin1.
  - apply Hm1, (Permutation_in _ (Permutation_sym Hp)), Hin2.
Qed.

Lemma py_max_perm (l1 l2 : list datetime) (a b : datetime) :
  Permutation l1 l2 -> py_max l1 = Some a -> py_max l2 = Some b -> a = b.
Proof.
  intros Hp H1 H2.
  destruct l1 as [|x1 l1]; [discriminate|]; destruct l2 as [|x2 l2]; [discriminate|].
  injection H1 as <-; injection H2 as <-.
  destruct (max_from_spec x1 l1) as [Hin1 Hm1]; destruct (max_from_spec x2 l2) as [Hin2 Hm2].
  apply dt_antisym.
  - apply Hm1, (Permutation_in _ (Permutation_sym Hp)), Hin2.
  - apply Hm2, (Permutation_in _ Hp), Hin1.
Qed.

Lemma dict_add_get (k c : string) (v : Z) (d : dict Z) :
  dict_get (dict_add k v d) c =
  if String.eqb c k
  then Some (match dict_get d c with Some w => w + v | None => 0 + v end)
  else dict_get d c.
Proof.
  induction d as [|[k' v'] d IH]; simpl.
  - destruct (String.eqb c k); reflexivity.
  - destruct (String.eqb_spec k k') as [<-|Hk].
    + simpl; destruct (String.eqb_spec c k); reflexivity.
    + simpl; rewrite IH.
      destruct (String.eqb_spec c k') as [->|Hc]; [|reflexivity].
      destruct (String.eqb_spec k' k); [congruence | reflexivity].
Qed.

(** The expenses of [vs] filed under the category name [c]. *)
Definition cat_sel (c : string) (vs : list Transaction) : list Transaction :=
  filter (fun t => (amount t <? 0) && String.eqb c (cat_name t)) vs.

Definition abs_total (l : list Transaction) : Z := sum_Z (map (fun t => Z.abs (amount t)) l).

Lemma category_totals_get_from (vs : list Transaction) (d : dict Z) (c : string) :
  dict_get (fold_left (fun d t => if amount t <? 0
                                  then dict_add (cat_name t) (Z.abs (amount t)) d
                                  else d) vs d) c =
  match dict_get d c with
  | Some w => Some (w + abs_total (cat_sel c vs))
  | None => match cat_sel c vs with [] => None | _ => Some (abs_total (cat_sel c vs)) end
  end.
Proof.
  unfold abs_total, cat_sel.
  revert d; induction vs as [|t vs IH]; intro d; simpl.
  - destruct (dict_get d c); [rewrite sum_Z_nil; f_equal; lia | reflexivity].
  - rewrite IH; destruct (amount t <? 0) eqn:Ha; simpl; [|reflexivity].
    rewrite dict_add_get.
    destruct (String.eqb c (cat_name t)) eqn:Ec; simpl; [|reflexivity].
    rewrite sum_Z_cons.
    destruct (dict_get d c); f_equal; lia.
Qed.

Lemma category_totals_get (vs : list Transaction) (c : string) :
  dict_get (category_totals vs) c =
  match cat_sel c vs with [] => None | _ => Some (abs_total (cat_sel c vs)) end.
Proof. unfold category_totals; rewrite category_totals_get_from; reflexivity. Qed.

Lemma category_totals_get_perm (vs1 vs2 : list Transaction) (c : string) :
  Permutation vs1 vs2 -> dict_get (category_totals vs1) c = dict_get (category_totals vs2) c.
Proof.
  intro Hp; rewrite !category_totals_get.
  assert (Hs : Permutation (cat_sel c vs1) (cat_sel c vs2)) by (apply perm_filter, Hp).
  assert (Ht : abs_total (cat_sel c vs1) = abs_total (cat_sel c vs2))
    by (apply sum_Z_perm, Permutation_map, Hs).
  destruct (cat_sel c vs1) as [|t1 l1], (cat_sel c vs2) as [|t2 l2].
  - reflexivity.
  - apply Permutation_nil in Hs; discriminate.
  - symmetry in Hs; apply Permutation_nil in Hs; discriminate.
  - rewrite Ht; reflexivity.
Qed.

Lemma dict_add_keys (k : string) (v : Z) (d : dict Z) (x : string) :
  In x (map fst (dict_add k v d)) <-> x = k \/ In x (map fst d).
Proof.
  induction d as [|[k' v'] d IH]; simpl.
  - split; [intros [<-|[]]; left; reflexivity | intros [->|[]]; left; reflexivity].
  - destruct (String.eqb_spec k k') as [<-|Hk]; simpl.
    + split; [intros [<-|H]; auto | intros [->|[<-|H]]; auto].
    + rewrite IH; split; [intros [<-|[->|H]]; auto | intros [->|[<-|H]]; auto].
Qed.

Lemma dict_add_nodup (k : string) (v : Z) (d : dict Z) :
  NoDup (map fst d) -> NoDup (map fst (dict_add k v d)).
Proof.
  induction d as [|[k' v'] d IH]; simpl; intro H.
  - repeat constructor; intros [].
  - inversion H as [|? ? Hn Hd]; subst.
    destruct (String.eqb_spec k k') as [<-|Hk]; simpl; [constructor; assumption|].
    constructor; [|apply IH, Hd].
    rewrite dict_add_keys; intros [->|Hin]; [congruence | contradiction].
Qed.

Lemma category_totals_nodup (vs : list Transaction) : NoDup (map fst (category_totals vs)).
Proof.
  unfold category_totals.
  assert (G : forall d, NoDup (map fst d) ->
              NoDup (map fst (fold_left (fun d t => if amount t <? 0
                                                   then dict_add (cat_name t) (Z.abs (amount t)) d
                                                   else d) vs d))).
  { induction vs as [|t vs IH]; intros d Hd; simpl; [exact Hd|].
    apply IH; destruct (amount t <? 0); [apply dict_add_nodup|]; exact Hd. }
  apply G; constructor.
Qed.

Lemma dict_get_in {V} (d : dict V) (k : string) (v : V) : dict_get d k = Some v -> In (k, v) d.
Proof.
  induction d as [|[k' v'] d IH]; simpl; [discriminate|].
  destruct (String.eqb_spec k k') as [<-|_]; [intro H; injection H as <-; left; reflexivity|].
  intro H; right; apply IH, H.
Qed.

Lemma in_dict_get {V} (d : dict V) (k : string) (v : V) :
  NoDup (map fst d) -> In (k, v) d -> dict_get d k = Some v.
Proof.
  induction d as [|[k' v'] d IH]; simpl; [intros _ []|].
  intros Hn [Heq|Hin]; inversion Hn as [|? ? Hk Hd]; subst.
  - injection Heq as -> ->; rewrite String.eqb_refl; reflexivity.
  - destruct (String.eqb_spec k k') as [->|_]; [|apply IH; assumption].
    exfalso; apply Hk; apply (in_map fst) in Hin; exact Hin.
Qed.

Lemma dict_perm_of_get {V} (d1 d2 : dict V) :
  NoDup (map fst d1) -> NoDup (map fst d2) ->
  (forall k, dict_get d1 k = dict_get d2 k) -> Permutation d1 d2.
Proof.
  intros H1 H2 Hg; apply NoDup_Permutation.
  - apply (NoDup_map_inv fst), H1.
  - apply (NoDup_map_inv fst), H2.
  - intros [k v]; split; intro Hin.
    + apply dict_get_in; rewrite <- Hg; apply in_dict_get; assumption.
    + apply dict_get_in; rewrite Hg; apply in_dict_get; assumption.
Qed.

(** Python's true division of ints never gives a NaN. *)
Lemma shr_fexp_nonneg (m e : Z) (l : location) (mrs : shr_record) (e' : Z) :
  0 <= m -> shr_fexp prec emax m e l = (mrs, e') -> 0 <= shr_m mrs.
Proof.
  intros Hm H; unfold shr_fexp, shr in H.
  destruct (fexp prec emax (Zdigits2 m + e) - e) as [|n|n];
    injection H as <- _; rewrite ?iter_shr_1_m; rewrite ?shr_record_of_loc_m; try lia.
  apply Z.div_pos; [lia | apply Z.pow_pos_nonneg; lia].
Qed.

Lemma binary_round_aux_not_nan (s : bool) (mx ex : Z) (lx : location) :
  0 <= mx -> binary_round_aux prec emax s mx ex lx <> S754_nan.
Proof.
  intro Hm; unfold binary_round_aux.
  destruct (shr_fexp prec emax mx ex lx) as [mrs1 e1] eqn:E1.
  pose proof (shr_fexp_nonneg _ _ _ _ _ Hm E1) as H1.
  pose proof (round_nearest_even_ge (shr_m mrs1) (loc_of_shr_record mrs1)) as H2.
  destruct (shr_fexp prec emax (round_nearest_even (shr_m mrs1) (loc_of_shr_record mrs1)) e1 loc_Exact)
    as [mrs3 e3] eqn:E3.
  pose proof (shr_fexp_nonneg (round_nearest_even (shr_m mrs1) (loc_of_shr_record mrs1))
                e1 loc_Exact mrs3 e3 ltac:(lia) E3) as H3.
  destruct (shr_m mrs3); [discriminate | destruct (_ <=? _); discriminate | lia].
Qed.

Lemma round_div_not_nan (a b : Z) : round_div a b <> S754_nan.
Proof.
  unfold round_div; destruct (a =? 0); [discriminate|].
  destruct (SFdiv_core_binary prec emax (Z.abs a) 0 (Z.abs b) 0) as [[q e] l] eqn:Ed.
  apply binary_round_aux_not_nan.
  unfold SFdiv_core_binary in Ed.
  match type of Ed with
  | context [Z.div_eucl ?x ?y] =>
      assert (Hx : 0 <= x);
      [ match goal with |- 0 <= match ?s with _ => _ end => destruct s end;
        [lia | apply Z.shiftl_nonneg; lia | lia]
      | assert (Hq : 0 <= x / y) by (apply Z_div_nonneg_nonneg; lia);
        unfold Z.div in Hq; destruct (Z.div_eucl x y) as [q0 r0];
        injection Ed as <- _ _; exact Hq ]
  end.
Qed.

Lemma py_truediv_not_nan (a b : Z) (f : float) : py_truediv a b = Ok f -> f <> S754_nan.
Proof.
  unfold py_truediv; destruct (b =? 0); [discriminate|].
  pose proof (round_div_not_nan a b) as H.
  destruct (round_div a b); intro E; inversion E; subst; congruence.
Qed.

Lemma mapM_forall {A B} (f : A -> res B) (P : B -> Prop) (l : list A) (r : list B) :
  (forall x y, f x = Ok y -> P y) -> mapM f l = Ok r -> Forall P r.
Proof.
  intro Hf; revert r; induction l as [|x l IH]; intros r H; cbn [mapM] in H.
  - inversion H; constructor.
  - destruct (f x) as [y|e] eqn:Ef; cbn [bind] in H; [|discriminate].
    destruct (mapM f l) as [r'|e] eqn:El; cbn [bind] in H; [|discriminate].
    inversion H; subst; constructor; [apply (Hf x y Ef) | apply IH; reflexivity].
Qed.

Lemma simplified_not_nan (vs : list Transaction) (simplified : list TxnDict) :
  mapM simplify vs = Ok simplified -> Forall (fun d => d_amount d <> S754_nan) simplified.
Proof.
  apply mapM_forall; intros t d H; unfold simplify in H.
  destruct (py_truediv (amount t) 100) as [a|e] eqn:Ea; cbn [bind] in H; [|discriminate].
  injection H as <-; simpl; apply (py_truediv_not_nan _ _ _ Ea).
Qed.

(** [not (y < x)] on floats other than NaN is a total preorder. *)
Lemma float_val_not_nan (f : float) : f <> S754_nan -> float_val f <> XNaN.
Proof. destruct f as [s|[]| |s m e]; simpl; try congruence; destruct (0 <=? e); discriminate. Qed.

Lemma xlt_irrefl (x : xreal) : xlt x x = false.
Proof.
  destruct x as [q| | |]; simpl; try reflexivity.
  pose proof (Qlt_irrefl q) as H; rewrite Qlt_alt in H.
  destruct (q ?= q)%Q; congruence.
Qed.

Lemma xlt_fin (a b : Q) : xlt (XFin a) (XFin b) = true <-> (a < b)%Q.
Proof.
  simpl; rewrite Qlt_alt; destruct (a ?= b)%Q; split; intro H; congruence.
Qed.

Lemma xle_trans (x y z : xreal) :
  x <> XNaN -> y <> XNaN -> z <> XNaN ->
  xlt x y = false -> xlt y z = false -> xlt x z = false.
Proof.
  intros Hx Hy Hz.
  destruct x as [a| | |], y as [b| | |], z as [c| | |]; try congruence; intros H1 H2;
    try (simpl in *; congruence).
  apply not_true_iff_false; rewrite xlt_fin; intro H3.
  apply not_true_iff_false in H1, H2; rewrite xlt_fin in H1, H2.
  lra.
Qed.

(** Two sorted permutations of each other are equal when the order is a
    total preorder on their elements whose ties are equal elements. *)
Section SortedUnique.
Context {A : Type} (R : A -> A -> Prop) (U : list A).
Hypothesis R_refl : forall x, In x U -> R x x.
Hypothesis R_trans : forall x y z, In x U -> In y U -> In z U -> R x y -> R y z -> R x z.
Hypothesis R_antisym : forall x y, In x U -> In y U -> R x y -> R y x -> x = y.

Lemma sorted_head_all (l : list A) (a : A) :
  incl (a :: l) U -> Sorted R (a :: l) -> Forall (R a) l.
Proof.
  revert a; induction l as [|b l IH]; intros a Hi Hs; [constructor|].
  inversion Hs as [|? ? Hs' Hhd]; subst; inversion Hhd; subst.
  assert (Hb : Forall (R b) l) by (apply IH; [intros x Hx; apply Hi; right; exact Hx | exact Hs']).
  constructor; [assumption|].
  apply Forall_forall; intros c Hc.
  apply R_trans with b; try (apply Hi; simpl; auto); [assumption|].
  rewrite Forall_forall in Hb; apply Hb, Hc.
Qed.

Lemma sorted_perm_eq (l1 l2 : list A) :
  incl l1 U -> Sorted R l1 -> Sorted R l2 -> Permutation l1 l2 -> l1 = l2.
Proof.
  revert l2; induction l1 as [|a t1 IH]; intros l2 Hi H1 H2 Hp.
  - symmetry; apply Permutation_nil, Hp.
  - destruct l2 as [|b t2]; [apply Permutation_sym, Permutation_nil in Hp; discriminate|].
    assert (Hi2 : incl (b :: t2) U)
      by (intros x Hx; apply Hi, (Permutation_in _ (Permutation_sym Hp)), Hx).
    assert (Hab : R a b).
    { assert (Hb : In b (a :: t1)) by (apply (Permutation_in _ (Permutation_sym Hp)); left; auto).
      destruct Hb as [<-|Hb]; [apply R_refl, Hi; left; reflexivity|].
      pose proof (sorted_head_all t1 a Hi H1) as Hf; rewrite Forall_forall in Hf; apply Hf, Hb. }
    assert (Hba : R b a).
    { assert (Ha : In a (b :: t2)) by (apply (Permutation_in _ Hp); left; auto).
      destruct Ha as [<-|Ha]; [apply R_refl, Hi2; left; reflexivity|].
      pose proof (sorted_head_all t2 b Hi2 H2) as Hf; rewrite Forall_forall in Hf; apply Hf, Ha. }
    assert (Heq : a = b) by (apply R_antisym; try assumption; [apply Hi | apply Hi2]; left; auto).
    subst b.
    f_equal; apply IH.
    + intros x Hx; apply Hi; right; exact Hx.
    + apply Sorted_inv in H1; apply H1.
    + apply Sorted_inv in H2; apply H2.
    + apply Permutation_cons_inv in Hp; exact Hp.
Qed.
End SortedUnique.

(** Entries of [l] that the order [R] cannot separate are equal. *)
Definition no_ties {A} (R : A -> A -> Prop) (l : list A) : Prop :=
  forall x y, In x l -> In y l -> R x y -> R y x -> x = y.

Lemma Zltb_asym (a b : Z) : (a <? b) = true -> (b <? a) = false.
Proof. intro H; apply Z.ltb_lt in H; apply Z.ltb_ge; lia. Qed.

(** The descending sorts of two permutations of each other agree when the
    keys of the elements are never NaN and ties are equal elements. *)
Lemma sort_desc_flt_perm (U l1 l2 : list TxnDict) :
  Forall (fun d => d_amount d <> S754_nan) U -> no_ties (not_below flt_lt dollar_key) U ->
  incl l1 U -> Permutation l1 l2 ->
  sort_desc flt_lt dollar_key l1 = sort_desc flt_lt dollar_key l2.
Proof.
  intros Hn Ht Hi Hp; rewrite Forall_forall in Hn.
  assert (Hk : forall d, In d U -> float_val (dollar_key d) <> XNaN).
  { intros d Hd; apply float_val_not_nan; unfold dollar_key.
    pose proof (Hn d Hd); destruct (d_amount d); simpl; congruence. }
  apply (sorted_perm_eq (not_below flt_lt dollar_key) U).
  - intros x _; apply xlt_irrefl.
  - intros x y z Hx Hy Hz; apply xle_trans; apply Hk; assumption.
  - exact Ht.
  - intros x Hx; apply Hi, (Permutation_in _ (sort_desc_perm flt_lt dollar_key l1)), Hx.
  - apply sort_desc_sorted, flt_lt_asym.
  - apply sort_desc_sorted, flt_lt_asym.
  - rewrite !sort_desc_perm; exact Hp.
Qed.

Lemma sort_desc_Z_perm (l1 l2 : dict Z) :
  no_ties (not_below Z.ltb snd) l1 -> Permutation l1 l2 ->
  sort_desc Z.ltb snd l1 = sort_desc Z.ltb snd l2.
Proof.
  intros Ht Hp.
  apply (sorted_perm_eq (not_below Z.ltb snd) l1).
  - intros x _; apply Z.ltb_irrefl.
  - intros x y z _ _ _; unfold not_below; rewrite !Z.ltb_ge; lia.
  - exact Ht.
  - intros x Hx; apply (Permutation_in _ (sort_desc_perm Z.ltb snd l1)), Hx.
  - apply sort_desc_sorted, Zltb_asym.
  - apply sort_desc_sorted, Zltb_asym.
  - rewrite !sort_desc_perm; exact Hp.
Qed.

(** C9 (corrected): for two inputs that are permutations of each other,
    the scalar fields, the date bounds and the category breakdown (as a
    mapping) coincide; [simplified_transactions] and [large_transactions]
    list the same entries, in input order, so only up to permutation; the
    top lists coincide when entries with equal sort keys are equal. *)
Theorem weekly_stats_permutation (ts1 ts2 : list Transaction) (s1 s2 : WeeklyStats) :
  Permutation ts1 ts2 ->
  calculate_weekly_stats ts1 = Ok s1 -> calculate_weekly_stats ts2 = Ok s2 ->
  week_start s1 = week_start s2 /\ week_end s1 = week_end s2 /\
  total_income s1 = total_income s2 /\ total_expense s1 = total_expense s2 /\
  net_change s1 = net_change s2 /\ uncategorized_count s1 = uncategorized_count s2 /\
  daily_average s1 = daily_average s2 /\
  (forall c, dict_get (category_breakdown s1) c = dict_get (category_breakdown s2) c) /\
  Permutation (category_breakdown s1) (category_breakdown s2) /\
  Permutation (simplified_transactions s1) (simplified_transactions s2) /\
  Permutation (large_transactions s1) (large_transactions s2) /\
  (no_ties (not_below Z.ltb snd) (category_breakdown s1) ->
     top_expenses s1 = top_expenses s2) /\
  (no_ties (not_below flt_lt dollar_key) (simplified_transactions s1) ->
     top_transactions s1 = top_transactions s2 /\
     top_income_transactions s1 = top_income_transactions s2).
Proof.
  intros Hp H1 H2.
  pose proof (valid_txns_perm _ _ Hp) as Hv.
  apply calculate_weekly_stats_inv in H1
    as [[E1 ->] | (dates1 & dmin1 & dmax1 & simp1 & large1 & Hne1 & Hd1 & Hmin1 & Hmax1 & Hs1 & Hl1 & ->)];
  apply calculate_weekly_stats_inv in H2
    as [[E2 ->] | (dates2 & dmin2 & dmax2 & simp2 & large2 & Hne2 & Hd2 & Hmin2 & Hmax2 & Hs2 & Hl2 & ->)].
  - repeat split; try reflexivity; intros; reflexivity.
  - rewrite E1 in Hv; apply Permutation_nil in Hv; congruence.
  - rewrite E2 in Hv; symmetry in Hv; apply Permutation_nil in Hv; congruence.
  - set (vs1 := valid_txns ts1) in *; set (vs2 := valid_txns ts2) in *.
    pose proof (mapM_perm _ _ _ _ _ Hv Hd1 Hd2) as Hdates.
    rewrite <- (py_min_perm _ _ _ _ Hdates Hmin1 Hmin2).
    rewrite <- (py_max_perm _ _ _ _ Hdates Hmax1 Hmax2).
    pose proof (mapM_perm _ _ _ _ _ Hv Hs1 Hs2) as Hsimp.
    pose proof (mapM_perm _ _ _ _ _ (perm_filter _ _ _ Hv) Hl1 Hl2) as Hlarge.
    assert (Hinc : sum_Z (map amount (filter (fun t => 0 <? amount t) vs1)) =
                   sum_Z (map amount (filter (fun t => 0 <? amount t) vs2)))
      by (apply sum_Z_perm, Permutation_map, perm_filter, Hv).
    assert (Hexp : sum_Z (map amount (filter (fun t => amount t <? 0) vs1)) =
                   sum_Z (map amount (filter (fun t => amount t <? 0) vs2)))
      by (apply sum_Z_perm, Permutation_map, perm_filter, Hv).
    assert (Hget : forall c, dict_get (category_totals vs1) c = dict_get (category_totals vs2) c)
      by (intro c; apply category_totals_get_perm, Hv).
    assert (Hct : Permutation (category_totals vs1) (category_totals vs2))
      by (apply dict_perm_of_get; [apply category_totals_nodup | apply category_totals_nodup | exact Hget]).
    unfold stats_of; cbn [week_start week_end total_income total_expense net_change
                          category_breakdown top_expenses top_transactions
                          top_income_transactions uncategorized_count large_transactions
                          simplified_transactions daily_average].
    rewrite Hinc, Hexp, (count_uncategorized_perm _ _ Hv).
    split; [reflexivity|]; split; [reflexivity|]; split; [reflexivity|]; split; [reflexivity|].
    split; [reflexivity|]; split; [reflexivity|]; split; [reflexivity|].
    split; [exact Hget|]; split; [exact Hct|]; split; [exact Hsimp|]; split; [exact Hlarge|].
    split.
    + intro Ht; f_equal; apply sort_desc_Z_perm; [exact Ht | exact Hct].
    + intro Ht.
      pose proof (simplified_not_nan _ _ Hs1) as Hn.
      assert (Hsort : forall f : TxnDict -> bool,
                 sort_desc flt_lt dollar_key (filter f simp1) =
                 sort_desc flt_lt dollar_key (filter f simp2)).
      { intro f; apply (sort_desc_flt_perm simp1); [exact Hn | exact Ht | | apply perm_filter, Hsimp].
        intros x Hx; apply filter_In in Hx; apply Hx. }
      rewrite !Hsort; split; reflexivity.
Qed.

Lemma weekly_stats_permutation_witness :
  Permutation [txn_food; txn_salary] [txn_salary; txn_food] /\
  exists s1 s2, calculate_weekly_stats [txn_food; txn_salary] = Ok s1 /\
    calculate_weekly_stats [txn_salary; txn_food] = Ok s2 /\
    total_expense s1 = total_expense s2 /\ week_start s1 = week_start s2.
Proof.
  split; [apply perm_swap|].
  destruct (calculate_weekly_stats [txn_food; txn_salary]) as [s1|e] eqn:E1;
    [|vm_compute in E1; discriminate E1].
  destruct (calculate_weekly_stats [txn_salary; txn_food]) as [s2|e] eqn:E2;
    [|vm_compute in E2; discriminate E2].
  exists s1, s2; split; [reflexivity|]; split; [reflexivity|].
  destruct (weekly_stats_permutation [txn_food; txn_salary] [txn_salary; txn_food] s1 s2
              (perm_swap _ _ _) E1 E2) as (Hws & _ & _ & Hte & _).
  split; [exact Hte | exact Hws].
Defined.

(** C9 counterexample: the same two transactions given in the two orders
    produce different [simplified_transactions] lists, so the record is not
    the same for every field. *)
Lemma weekly_stats_order_sensitive :
  exists s1 s2, calculate_weekly_stats [txn_food; txn_salary] = Ok s1 /\
    calculate_weekly_stats [txn_salary; txn_food] = Ok s2 /\
    simplified_transactions s1 <> simplified_transactions s2.
Proof.
  destruct (calculate_weekly_stats [txn_food; txn_salary]) as [s1|e] eqn:E1;
    [|vm_compute in E1; discriminate E1].
  destruct (calculate_weekly_stats [txn_salary; txn_food]) as [s2|e] eqn:E2;
    [|vm_compute in E2; discriminate E2].
  exists s1, s2; split; [reflexivity|]; split; [reflexivity|].
  vm_compute in E1, E2; injection E1 as <-; injection E2 as <-.
  cbn [simplified_transactions]; intro H; discriminate H.
Qed.


(** ** Signs of [int / int] *)

Lemma binary_round_aux_sign (s : bool) (mx ex : Z) (lx : location) :
  binary_round_aux prec emax s mx ex lx =
  if s then SFopp (binary_round_aux prec emax false mx ex lx)
  else binary_round_aux prec emax false mx ex lx.
Proof.
  unfold binary_round_aux.
  destruct (shr_fexp prec emax mx ex lx) as [mrs1 e1].
  destruct (shr_fexp prec emax _ e1 loc_Exact) as [mrs2 e2].
  destruct s; [|reflexivity].
  destruct (shr_m mrs2); [reflexivity| |reflexivity].
  destruct (e2 <=? emax - prec); reflexivity.
Qed.

Lemma div_core_bounds (a b : Z) (q e : Z) (l : location) :
  0 < a -> 0 < b -> Zdigits2 b <= Zdigits2 a + 1021 ->
  SFdiv_core_binary prec emax a 0 b 0 = (q, e, l) ->
  2 ^ 52 <= q /\ Z.min (Zdigits2 a - Zdigits2 b - 53) 0 <= e /\
  Zdigits2 q + e <= Zdigits2 a - Zdigits2 b + 1.
Proof.
  intros Ha Hb HD Ed; unfold SFdiv_core_binary in Ed.
  destruct (Zdigits2_bounds a Ha) as (Ha1 & Ha2 & Ha3).
  destruct (Zdigits2_bounds b Hb) as (Hb1 & Hb2 & Hb3).
  set (d1 := Zdigits2 a) in *; set (d2 := Zdigits2 b) in *.
  assert (Hf : fexp prec emax (d1 + 0 - (d2 + 0)) = d1 - d2 - 53)
    by (unfold fexp, emin, prec, emax; lia).
  rewrite Hf in Ed.
  set (e' := Z.min (d1 - d2 - 53) (0 - 0)) in Ed.
  set (sh := 0 - 0 - e') in Ed.
  assert (Hsh : 0 <= sh /\ 52 + d2 <= d1 - 1 + sh) by (unfold sh, e'; lia).
  assert (Hm : a * 2 ^ sh = match sh with Zpos _ => Z.shiftl a sh | Z0 => a | Zneg _ => 0 end).
  { destruct sh eqn:Es; [lia | rewrite Z.shiftl_mul_pow2 by lia; reflexivity | lia]. }
  rewrite <- Hm in Ed.
  assert (Hlow : 2 ^ 52 * b <= a * 2 ^ sh).
  { apply Z.le_trans with (2 ^ (52 + d2)).
    - rewrite Z.pow_add_r by lia; apply Z.mul_le_mono_nonneg_l; lia.
    - apply Z.le_trans with (2 ^ (d1 - 1) * 2 ^ sh).
      + rewrite <- Z.pow_add_r by lia; apply Z.pow_le_mono_r; lia.
      + apply Z.mul_le_mono_nonneg_r; [apply Z.pow_nonneg|]; lia. }
  assert (Hq : 2 ^ 52 <= a * 2 ^ sh / b) by (apply Z.div_le_lower_bound; lia).
  assert (Hup : a * 2 ^ sh / b < 2 ^ (d1 + sh - (d2 - 1))).
  { apply Z.div_lt_upper_bound; [lia|].
    apply Z.lt_le_trans with (2 ^ d1 * 2 ^ sh).
    - apply Z.mul_lt_mono_pos_r; [apply Z.pow_pos_nonneg|]; lia.
    - rewrite <- Z.pow_add_r by lia.
      replace (d1 + sh) with ((d2 - 1) + (d1 + sh - (d2 - 1))) at 1 by lia.
      rewrite Z.pow_add_r by lia; apply Z.mul_le_mono_nonneg_r; [apply Z.pow_nonneg|]; lia. }
  assert (HDq : Zdigits2 (a * 2 ^ sh / b) <= d1 + sh - (d2 - 1)).
  { destruct (Zdigits2_bounds (a * 2 ^ sh / b) ltac:(lia)) as (_ & Hlo & _).
    destruct (Z.le_gt_cases (Zdigits2 (a * 2 ^ sh / b)) (d1 + sh - (d2 - 1))) as [|Hgt]; [assumption|].
    assert (2 ^ (d1 + sh - (d2 - 1)) <= 2 ^ (Zdigits2 (a * 2 ^ sh / b) - 1))
      by (apply Z.pow_le_mono_r; lia).
    lia. }
  revert Hq Hup HDq; unfold Z.div; destruct (Z.div_eucl (a * 2 ^ sh) b) as [q0 r0].
  intros Hq _ HDq.
  injection Ed as <- <- _; split; [exact Hq|]; split; unfold e'; unfold sh, e' in HDq; lia.
Qed.

(** [a / b] for ints [a <> 0] and [b > 0] (of not too different sizes)
    rounds to a non-zero value with the sign of [a], or overflows. *)
Lemma round_div_signed (a b : Z) :
  a <> 0 -> 0 < b -> Zdigits2 b <= Zdigits2 (Z.abs a) + 1021 ->
  round_div a b = S754_infinity (a <? 0) \/
  exists m e, round_div a b = S754_finite (a <? 0) m e.
Proof.
  intros Ha Hb HD; unfold round_div.
  replace (a =? 0) with false by (symmetry; apply Z.eqb_neq, Ha).
  replace (b <? 0) with false by (symmetry; apply Z.ltb_ge; lia).
  rewrite xorb_false_r.
  destruct (SFdiv_core_binary prec emax (Z.abs a) 0 (Z.abs b) 0) as [[q e] l] eqn:Ed.
  rewrite (Z.abs_eq b) in Ed by lia.
  destruct (div_core_bounds (Z.abs a) b q e l ltac:(lia) Hb HD Ed) as (Hq & He & _).
  assert (HDq : -1021 <= Zdigits2 q + e).
  { pose proof (Zdigits2_unique (2 ^ 52) 53 ltac:(lia) ltac:(lia) ltac:(split; reflexivity || lia)).
    pose proof (Zdigits2_mono (2 ^ 52) q ltac:(lia)); lia. }
  rewrite binary_round_aux_sign.
  destruct (binary_round_aux_lower q e l ltac:(lia) HDq) as [Hi | (m & k & _ & Hf & _)];
    [rewrite Hi | rewrite Hf]; destruct (a <? 0); simpl; eauto.
Qed.

Lemma float_val_finite_sign (s : bool) (m : positive) (e : Z) :
  exists q, float_val (S754_finite s m e) = XFin q /\ (if s then q < 0 else 0 < q)%Q.
Proof.
  unfold float_val.
  assert (Hp : (0 < (if 0 <=? e then inject_Z (Zpos m * 2 ^ e)
                     else Qmake (Zpos m) (Z.to_pos (2 ^ (- e)))))%Q).
  { destruct (0 <=? e) eqn:E.
    - apply Z.leb_le in E. change 0%Q with (inject_Z 0); rewrite <- Zlt_Qlt; apply Z.mul_pos_pos; [lia | apply Z.pow_pos_nonneg; lia].
    - unfold Qlt; simpl; lia. }
  eexists; split; [reflexivity|]; destruct s; lra.
Qed.

(** [x < 0] and [0 < x] on the dollars of [t.amount / 100]. *)
Lemma truediv100_sign (a : Z) (f : float) :
  py_truediv a 100 = Ok f ->
  flt_lt_int f 0 = (a <? 0) /\ int_lt_flt 0 f = (0 <? a).
Proof.
  unfold py_truediv; simpl (100 =? 0); cbv iota.
  destruct (Z.eq_dec a 0) as [->|Ha].
  - intro H; vm_compute in H; injection H as <-; split; reflexivity.
  - assert (HD : Zdigits2 100 <= Zdigits2 (Z.abs a) + 1021).
    { pose proof (Zdigits2_bounds (Z.abs a) ltac:(lia)); simpl (Zdigits2 100); lia. }
    destruct (round_div_signed a 100 Ha ltac:(lia) HD) as [-> | (m & e & ->)]; [discriminate|].
    intro H; injection H as <-.
    destruct (float_val_finite_sign (a <? 0) m e) as (q & Hq & Hs).
    unfold flt_lt_int, int_lt_flt; rewrite Hq.
    destruct (a <? 0) eqn:Hneg.
    + apply Z.ltb_lt in Hneg.
      replace (0 <? a) with false by (symmetry; apply Z.ltb_ge; lia).
      split; [apply xlt_fin; change (inject_Z 0) with 0%Q; lra|].
      apply not_true_iff_false; rewrite xlt_fin; change (inject_Z 0) with 0%Q; lra.
    + apply Z.ltb_ge in Hneg.
      replace (0 <? a) with true by (symmetry; apply Z.ltb_lt; lia).
      split; [apply not_true_iff_false; rewrite xlt_fin; change (inject_Z 0) with 0%Q; lra|].
      apply xlt_fin; change (inject_Z 0) with 0%Q; lra.
Qed.

Lemma round_nearest_even_le (m : Z) (l : location) : round_nearest_even m l <= m + 1.
Proof. destruct l as [|[]]; simpl; try lia; destruct (Z.even m); lia. Qed.

Lemma Zdigits2_double (m : Z) : 0 < m -> Zdigits2 (2 * m) = Zdigits2 m + 1.
Proof.
  intro Hm; destruct (Zdigits2_bounds m Hm) as (HD & Hlo & Hhi).
  apply Zdigits2_unique; [lia | lia|].
  replace (Zdigits2 m + 1 - 1) with (Zdigits2 m) by lia.
  rewrite Z.pow_add_r by lia.
  replace (2 ^ Zdigits2 m) with (2 * 2 ^ (Zdigits2 m - 1)) at 1
    by (rewrite <- Z.pow_succ_r by lia; f_equal; lia).
  change (2 ^ 1) with 2; lia.
Qed.

(** Rounding a positive value [mx * 2 ^ ex] of magnitude between
    [2 ^ -1021] and [2 ^ 971] gives a finite float. *)
Lemma binary_round_aux_finite (mx ex : Z) (lx : location) :
  0 < mx -> -1021 <= Zdigits2 mx + ex -> Zdigits2 mx + ex <= emax - prec ->
  exists m e, binary_round_aux prec emax false mx ex lx = S754_finite false m e.
Proof.
  intros Hm HD HU; unfold binary_round_aux.
  destruct (shr_fexp prec emax mx ex lx) as [mrs1 e1] eqn:E1.
  destruct (shr_fexp_step _ _ _ _ _ Hm HD E1) as (k1 & Hk1 & -> & Hp1 & HD1 & _).
  set (m1 := shr_m mrs1) in *.
  set (m2 := round_nearest_even m1 (loc_of_shr_record mrs1)).
  assert (Hm2 : m1 <= m2 <= m1 + 1)
    by (split; [apply round_nearest_even_ge | apply round_nearest_even_le]).
  assert (HD2 : Zdigits2 m1 <= Zdigits2 m2 <= Zdigits2 m1 + 1).
  { split; [apply Zdigits2_mono; lia|].
    rewrite <- Zdigits2_double by lia; apply Zdigits2_mono; lia. }
  destruct (shr_fexp prec emax m2 (ex + k1) loc_Exact) as [mrs3 e3] eqn:E3.
  destruct (shr_fexp_step m2 (ex + k1) loc_Exact mrs3 e3 ltac:(lia) ltac:(lia) E3)
    as (k2 & Hk2 & -> & Hp3 & HD3 & _).
  destruct (Zdigits2_bounds (shr_m mrs3) Hp3) as (Hd3 & _).
  destruct (shr_m mrs3) as [|m3|m3] eqn:Em3; try lia.
  replace (ex + k1 + k2 <=? emax - prec) with true by (symmetry; apply Z.leb_le; lia).
  eauto.
Qed.

(** [a / 100] on an int with [abs a < 2 ^ 977] never raises. *)
Lemma truediv100_ok (a : Z) : Z.abs a < 2 ^ 977 -> exists f, py_truediv a 100 = Ok f.
Proof.
  intro Ha; unfold py_truediv; simpl (100 =? 0); cbv iota.
  destruct (Z.eq_dec a 0) as [->|Hne]; [vm_compute; eauto|].
  unfold round_div.
  replace (a =? 0) with false by (symmetry; apply Z.eqb_neq, Hne).
  destruct (SFdiv_core_binary prec emax (Z.abs a) 0 (Z.abs 100) 0) as [[q e] l] eqn:Ed.
  destruct (Zdigits2_bounds (Z.abs a) ltac:(lia)) as (Hd1 & _ & Hd2).
  assert (HDa : Zdigits2 (Z.abs a) <= 977).
  { destruct (Z.le_gt_cases (Zdigits2 (Z.abs a)) 977) as [|Hgt]; [assumption|].
    destruct (Zdigits2_bounds (Z.abs a) ltac:(lia)) as (_ & Hlo & _).
    assert (2 ^ 977 <= 2 ^ (Zdigits2 (Z.abs a) - 1)) by (apply Z.pow_le_mono_r; lia); lia. }
  destruct (div_core_bounds (Z.abs a) 100 q e l ltac:(lia) ltac:(lia) ltac:(simpl; lia) Ed)
    as (Hq & He & Hu).
  simpl (Zdigits2 100) in He, Hu.
  assert (HDq : 53 <= Zdigits2 q).
  { pose proof (Zdigits2_unique (2 ^ 52) 53 ltac:(lia) ltac:(lia) ltac:(split; reflexivity || lia)).
    pose proof (Zdigits2_mono (2 ^ 52) q ltac:(lia)); lia. }
  destruct (binary_round_aux_finite q e l ltac:(lia) ltac:(lia) ltac:(unfold emax, prec; lia))
    as (m & e' & Hf).
  rewrite binary_round_aux_sign, Hf.
  destruct (xorb (a <? 0) (100 <? 0)); simpl; eauto.
Qed.


(** ** More list facts *)

Lemma mapM_Forall2 {A B} (f : A -> res B) (l : list A) (r : list B) :
  mapM f l = Ok r -> Forall2 (fun x y => f x = Ok y) l r.
Proof.
  revert r; induction l as [|x l IH]; intros r H; cbn [mapM] in H.
  - injection H as <-; constructor.
  - destruct (f x) as [y|e] eqn:Ef; cbn [bind] in H; [|discriminate].
    destruct (mapM f l) as [r'|e] eqn:El; cbn [bind] in H; [|discriminate].
    injection H as <-; constructor; [exact Ef | apply IH; reflexivity].
Qed.

Lemma Forall2_mono {A B} (P Q : A -> B -> Prop) (l : list A) (r : list B) :
  (forall x y, P x y -> Q x y) -> Forall2 P l r -> Forall2 Q l r.
Proof. intros H; induction 1; constructor; auto. Qed.

Section SortedLists.
Context {A : Type} (R : A -> A -> Prop).

Lemma sorted_mono (R' : A -> A -> Prop) (l : list A) :
  (forall x y, R x y -> R' x y) -> Sorted R l -> Sorted R' l.
Proof.
  intros HR HS; induction HS as [|a l HS IH Hhd]; constructor; [exact IH|].
  destruct Hhd; constructor; auto.
Qed.

Lemma sorted_hd_forall (P : A -> Prop) (a : A) (l : list A) :
  (forall x y z, P x -> P y -> P z -> R x y -> R y z -> R x z) ->
  Forall P (a :: l) -> Sorted R (a :: l) -> Forall (R a) l.
Proof.
  intros Htr; revert a; induction l as [|b l IH]; intros a HP HS; [constructor|].
  inversion HS as [|? ? HS' Hhd]; subst.
  inversion Hhd as [|? ? Hab]; subst.
  inversion HP as [|? ? Pa HP']; subst.
  pose proof (IH b HP' HS') as Hb.
  constructor; [exact Hab|].
  rewrite Forall_forall in Hb |- *; intros c Hc.
  inversion HP' as [|? ? Pb HPl]; subst; rewrite Forall_forall in HPl.
  apply (Htr a b c); auto.
Qed.

Lemma sorted_strongly (P : A -> Prop) (l : list A) :
  (forall x y z, P x -> P y -> P z -> R x y -> R y z -> R x z) ->
  Forall P l -> Sorted R l -> StronglySorted R l.
Proof.
  intros Htr; induction l as [|a l IH]; intros HP HS; constructor.
  - inversion HP; inversion HS; subst; auto.
  - apply (sorted_hd_forall P); assumption.
Qed.

Lemma strongly_app (l1 l2 : list A) (x y : A) :
  StronglySorted R (l1 ++ l2) -> In x l1 -> In y l2 -> R x y.
Proof.
  induction l1 as [|a l1 IH]; simpl; [intros _ []|].
  intros HS [<-|Hx] Hy; inversion HS as [|? ? HS' Hall]; subst.
  - rewrite Forall_forall in Hall; apply Hall, in_or_app; right; exact Hy.
  - apply IH; assumption.
Qed.

Lemma strongly_firstn (n : nat) (l : list A) :
  StronglySorted R l -> StronglySorted R (firstn n l).
Proof.
  revert n; induction l as [|a l IH]; intros [|n] H; simpl; [constructor|constructor|constructor|].
  inversion H as [|? ? Hl Hall]; subst; constructor; [apply IH, Hl|].
  rewrite Forall_forall in Hall |- *; intros x Hx; apply Hall.
  rewrite <- (firstn_skipn n l); apply in_or_app; left; exact Hx.
Qed.

(** The first [n] elements of a sorted list are above the others. *)
Lemma strongly_top (n : nat) (l : list A) (e : A) :
  StronglySorted R l -> In e l -> ~ In e (firstn n l) -> Forall (fun x => R x e) (firstn n l).
Proof.
  intros HS He Hn; apply Forall_forall; intros x Hx.
  rewrite <- (firstn_skipn n l) in HS, He.
  apply in_app_or in He as [He|He]; [contradiction|].
  exact (strongly_app _ _ x e HS Hx He).
Qed.

Lemma incl_firstn (n : nat) (l : list A) : incl (firstn n l) l.
Proof. intros x Hx; rewrite <- (firstn_skipn n l); apply in_or_app; left; exact Hx. Qed.
End SortedLists.

(** ** The fields of a computed record *)

Lemma weekly_stats_fields (ts : list Transaction) (s : WeeklyStats) :
  calculate_weekly_stats ts = Ok s ->
  category_breakdown s = category_totals (valid_txns ts) /\
  uncategorized_count s = count_uncategorized (valid_txns ts) /\
  mapM simplify (valid_txns ts) = Ok (simplified_transactions s) /\
  mapM large_entry (filter (fun t => LARGE_TRANSACTION_THRESHOLD <=? Z.abs (amount t))
                      (valid_txns ts)) = Ok (large_transactions s) /\
  top_expenses s = firstn 5 (sort_desc Z.ltb snd (category_breakdown s)) /\
  top_income_transactions s =
    firstn 5 (sort_desc flt_lt dollar_key
                (filter (fun d => int_lt_flt 0 (d_amount d)) (simplified_transactions s))).
Proof.
  intro H; apply calculate_weekly_stats_inv in H
    as [[E ->] | (dates & dmin & dmax & simplified & large & _ & _ & _ & _ & Hs & Hl & ->)].
  - rewrite E; repeat split; reflexivity.
  - repeat split; assumption || reflexivity.
Qed.

Lemma abs_total_pos (l : list Transaction) :
  l <> [] -> Forall (fun t => amount t < 0) l -> 0 < abs_total l.
Proof.
  unfold abs_total; induction l as [|t l IH]; intros Hne HF; [congruence|].
  inversion HF as [|? ? Ht Hl]; subst; simpl map; rewrite sum_Z_cons.
  destruct l as [|t' l]; [cbn [map]; rewrite sum_Z_nil; lia|].
  assert (0 < sum_Z (map (fun t => Z.abs (amount t)) (t' :: l))) by (apply IH; [discriminate | exact Hl]).
  lia.
Qed.

Lemma keep_txn_category (t : Transaction) :
  keep_txn t = true -> contains "transfer" (lower (or_empty (category t))) = false.
Proof.
  unfold keep_txn; destruct (is_transfer t); [discriminate|].
  destruct (contains "transfer" (lower (payee t))); [discriminate|].
  destruct (contains "transfer" (lower (or_empty (category t)))); [discriminate|reflexivity].
Qed.

Lemma nonnan_abs (f : float) : f <> S754_nan -> float_val (SFabs f) <> XNaN.
Proof. intro H; apply float_val_not_nan; destruct f; simpl; congruence. Qed.

Lemma dollar_key_trans (x y z : TxnDict) :
  d_amount x <> S754_nan -> d_amount y <> S754_nan -> d_amount z <> S754_nan ->
  not_below flt_lt dollar_key x y -> not_below flt_lt dollar_key y z ->
  not_below flt_lt dollar_key x z.
Proof.
  unfold not_below, flt_lt, dollar_key; intros Hx Hy Hz.
  apply xle_trans; apply nonnan_abs; assumption.
Qed.


(** A sample week: expenses in three named categories, two uncategorized
    expenses, two incomes and an internal transfer. *)
Definition sample_week : list Transaction :=
  [ mkTransaction "s1"%string "2024-01-03"%string (-15000) "Grocer"%string (Some "Food"%string) "Checking"%string None false;
    mkTransaction "s2"%string "2024-01-02"%string (-450) "Cafe"%string (Some "Food"%string) "Checking"%string None false;
    mkTransaction "s3"%string "2024-01-01"%string (-120000) "Landlord"%string (Some "Rent"%string) "Checking"%string None false;
    mkTransaction "s4"%string "2024-01-04"%string (-2500) "Kiosk"%string None "Cash"%string None false;
    mkTransaction "s5"%string "2024-01-05"%string (-800) "Market"%string (Some "Uncategorized"%string) "Cash"%string None false;
    mkTransaction "s6"%string "2024-01-05"%string 500000 "Employer"%string None "Checking"%string (Some "salary"%string) false;
    mkTransaction "s7"%string "2024-01-06"%string 3000 "Aunt"%string (Some "Gifts"%string) "Checking"%string None false;
    mkTransaction "s8"%string "2024-01-06"%string (-275) "Metro"%string (Some "Transport"%string) "Card"%string None false;
    mkTransaction "s9"%string "2024-01-04"%string (-50000) "Savings transfer"%string None "Checking"%string None false ].

(** [uncategorized_count] counts the surviving expenses (negative amount)
    whose category is missing, empty or "Uncategorized". *)
Theorem uncategorized_count_spec (ts : list Transaction) (s : WeeklyStats) :
  calculate_weekly_stats ts = Ok s ->
  uncategorized_count s =
  Z.of_nat (List.length
    (filter (fun t => (amount t <? 0) &&
                      match category t with
                      | None => true
                      | Some c => String.eqb c "" || String.eqb c "Uncategorized"
                      end) (valid_txns ts))).
Proof.
  intro H; destruct (weekly_stats_fields _ _ H) as (_ & -> & _).
  rewrite count_uncategorized_length; do 2 f_equal.
  apply filter_ext; intro t; f_equal.
  unfold is_uncategorized, truthy_str, or_empty.
  destruct (category t) as [[|a c]|]; reflexivity.
Qed.

Lemma uncategorized_count_spec_witness :
  exists s, calculate_weekly_stats sample_week = Ok s /\ uncategorized_count s = 2.
Proof.
  destruct (calculate_weekly_stats sample_week) as [s|e] eqn:E; [|vm_compute in E; discriminate E].
  exists s; split; [reflexivity|].
  rewrite (uncategorized_count_spec _ _ E); vm_compute; reflexivity.
Defined.

(** [category_breakdown] has no repeated key; looking up a category gives
    the sum of the absolute amounts of the surviving expenses filed under
    it (0 for an absent key), and every stored total is positive. *)
Theorem category_breakdown_spec (ts : list Transaction) (s : WeeklyStats) :
  calculate_weekly_stats ts = Ok s ->
  NoDup (map fst (category_breakdown s)) /\
  (forall c, dict_get_or (category_breakdown s) c 0 =
     sum_Z (map (fun t => Z.abs (amount t))
              (filter (fun t => (amount t <? 0) && String.eqb c (cat_name t)) (valid_txns ts)))) /\
  (forall c v, In (c, v) (category_breakdown s) -> 0 < v).
Proof.
  intro H; destruct (weekly_stats_fields _ _ H) as (-> & _).
  set (vs := valid_txns ts).
  split; [apply category_totals_nodup|]; split.
  - intro c; unfold dict_get_or; rewrite category_totals_get.
    unfold cat_sel, abs_total.
    destruct (filter _ vs); reflexivity.
  - intros c v Hin.
    pose proof (in_dict_get _ _ _ (category_totals_nodup vs) Hin) as Hg.
    rewrite category_totals_get in Hg.
    destruct (cat_sel c vs) as [|t l] eqn:Es; [discriminate|].
    injection Hg as <-; rewrite <- Es.
    apply abs_total_pos; [rewrite Es; discriminate|].
    apply Forall_forall; intros x Hx; unfold cat_sel in Hx; apply filter_In in Hx as [_ Hx].
    apply andb_prop in Hx as [Hx _]; apply Z.ltb_lt, Hx.
Qed.

Lemma category_breakdown_spec_witness :
  exists s, calculate_weekly_stats sample_week = Ok s /\
    dict_get_or (category_breakdown s) "Food"%string 0 = 15450.
Proof.
  destruct (calculate_weekly_stats sample_week) as [s|e] eqn:E; [|vm_compute in E; discriminate E].
  exists s; split; [reflexivity|].
  destruct (category_breakdown_spec _ _ E) as (_ & Hget & _).
  rewrite Hget; vm_compute; reflexivity.
Defined.

(** A key of [category_breakdown] is never empty, never "Uncategorized"
    and never contains "transfer" in any case; it is the category of some
    surviving expense, or the label used for uncategorized expenses. *)
Theorem category_breakdown_keys (ts : list Transaction) (s : WeeklyStats) (c : string) (v : Z) :
  calculate_weekly_stats ts = Ok s -> In (c, v) (category_breakdown s) ->
  c <> ""%string /\ c <> "Uncategorized"%string /\ contains "transfer" (lower c) = false /\
  exists t, In t (valid_txns ts) /\ amount t < 0 /\
            (category t = Some c \/ c = UNCATEGORIZED_LABEL).
Proof.
  intros H Hin; destruct (weekly_stats_fields _ _ H) as (Hb & _); rewrite Hb in Hin.
  set (vs := valid_txns ts) in *.
  pose proof (in_dict_get _ _ _ (category_totals_nodup vs) Hin) as Hg.
  rewrite category_totals_get in Hg.
  destruct (cat_sel c vs) as [|t l] eqn:Es; [discriminate|].
  assert (Ht : In t (cat_sel c vs)) by (rewrite Es; left; reflexivity).
  unfold cat_sel in Ht; apply filter_In in Ht as [Htv Ht].
  apply andb_prop in Ht as [Hneg Hc]; apply Z.ltb_lt in Hneg; apply String.eqb_eq in Hc.
  assert (Hk : keep_txn t = true) by (unfold vs, valid_txns in Htv; apply filter_In in Htv; apply Htv).
  unfold cat_name in Hc; destruct (is_uncategorized t) eqn:Hu.
  - subst c; split; [discriminate|]; split; [discriminate|]; split; [reflexivity|].
    exists t; split; [exact Htv|]; split; [exact Hneg | right; reflexivity].
  - unfold is_uncategorized in Hu; apply orb_false_iff in Hu as [Ht1 Ht2].
    apply negb_false_iff in Ht1; apply String.eqb_neq in Ht2.
    pose proof (keep_txn_category t Hk) as Htr.
    destruct (category t) as [[|a x]|] eqn:Ec; try discriminate Ht1.
    cbn [or_empty] in Hc, Ht2, Htr; subst c.
    split; [discriminate|]; split; [exact Ht2|].
    split; [exact Htr|].
    exists t; split; [exact Htv|]; split; [exact Hneg | left; exact Ec].
Qed.

Lemma category_breakdown_keys_witness :
  exists s, calculate_weekly_stats sample_week = Ok s /\
    In (UNCATEGORIZED_LABEL, 3300) (category_breakdown s) /\ UNCATEGORIZED_LABEL <> ""%string.
Proof.
  destruct (calculate_weekly_stats sample_week) as [s|e] eqn:E; [|vm_compute in E; discriminate E].
  assert (Hin : In (UNCATEGORIZED_LABEL, 3300) (category_breakdown s))
    by (vm_compute in E; injection E as <-; simpl; tauto).
  exists s; split; [reflexivity|]; split; [exact Hin|].
  apply (category_breakdown_keys _ _ _ _ E Hin).
Defined.

(** [top_expenses] holds [min 5 n] entries of the [n] in
    [category_breakdown], in non-increasing order of total, and no entry
    left out has a larger total than one kept. *)
Theorem top_expenses_spec (ts : list Transaction) (s : WeeklyStats) :
  calculate_weekly_stats ts = Ok s ->
  List.length (top_expenses s) = Nat.min 5 (List.length (category_breakdown s)) /\
  incl (top_expenses s) (category_breakdown s) /\
  Sorted (fun x y => snd y <= snd x) (top_expenses s) /\
  (forall e, In e (category_breakdown s) -> ~ In e (top_expenses s) ->
     Forall (fun x => snd e <= snd x) (top_expenses s)).
Proof.
  intro H; destruct (weekly_stats_fields _ _ H) as (_ & _ & _ & _ & -> & _).
  set (bd := category_breakdown s); set (L := sort_desc Z.ltb snd bd).
  assert (Hp : Permutation L bd) by apply sort_desc_perm.
  assert (HS : StronglySorted (fun x y => snd y <= snd x) L).
  { apply (sorted_strongly _ (fun _ => True)); [intros; lia | apply Forall_forall; auto |].
    apply (sorted_mono (not_below Z.ltb snd)).
    - intros x y Hxy; unfold not_below in Hxy; apply Z.ltb_ge in Hxy; lia.
    - apply sort_desc_sorted, Zltb_asym. }
  split; [rewrite length_firstn, (Permutation_length Hp); reflexivity|].
  split; [intros x Hx; apply (Permutation_in _ Hp), (incl_firstn 5 L), Hx|].
  split; [apply StronglySorted_Sorted, strongly_firstn, HS|].
  intros e He Hn; apply (strongly_top _ 5 L e HS); [|exact Hn].
  apply (Permutation_in _ (Permutation_sym Hp)), He.
Qed.

Lemma top_expenses_spec_witness :
  exists s, calculate_weekly_stats sample_week = Ok s /\ List.length (top_expenses s) = 4%nat.
Proof.
  destruct (calculate_weekly_stats sample_week) as [s|e] eqn:E; [|vm_compute in E; discriminate E].
  exists s; split; [reflexivity|].
  destruct (top_expenses_spec _ _ E) as (Hl & _); rewrite Hl.
  vm_compute in E; injection E as <-; reflexivity.
Defined.

(** [top_income_transactions] holds [min 5 n] of the [n] simplified
    transactions with a positive amount, in non-increasing order of
    amount, and no income left out is larger than one kept. *)
Theorem top_income_spec (ts : list Transaction) (s : WeeklyStats) :
  calculate_weekly_stats ts = Ok s ->
  let incs := filter (fun d => int_lt_flt 0 (d_amount d)) (simplified_transactions s) in
  List.length (top_income_transactions s) = Nat.min 5 (List.length incs) /\
  incl (top_income_transactions s) incs /\
  Sorted (not_below flt_lt dollar_key) (top_income_transactions s) /\
  (forall d, In d incs -> ~ In d (top_income_transactions s) ->
     Forall (fun x => flt_lt (dollar_key x) (dollar_key d) = false) (top_income_transactions s)).
Proof.
  intros H incs; destruct (weekly_stats_fields _ _ H) as (_ & _ & Hs & _ & _ & ->).
  fold incs; set (L := sort_desc flt_lt dollar_key incs).
  assert (Hp : Permutation L incs) by apply sort_desc_perm.
  assert (Hn : Forall (fun d => d_amount d <> S754_nan) L).
  { apply Forall_forall; intros d Hd.
    apply (Permutation_in _ Hp) in Hd; unfold incs in Hd; apply filter_In in Hd as [Hd _].
    pose proof (simplified_not_nan _ _ Hs) as Hf; rewrite Forall_forall in Hf; apply Hf, Hd. }
  assert (HS : StronglySorted (not_below flt_lt dollar_key) L).
  { apply (sorted_strongly _ (fun d => d_amount d <> S754_nan)); [|exact Hn|].
    - intros x y z Hx Hy Hz; apply dollar_key_trans; assumption.
    - apply sort_desc_sorted, flt_lt_asym. }
  split; [rewrite length_firstn, (Permutation_length Hp); reflexivity|].
  split; [intros x Hx; apply (Permutation_in _ Hp), (incl_firstn 5 L), Hx|].
  split; [apply StronglySorted_Sorted, strongly_firstn, HS|].
  intros d Hd Hnin; apply (strongly_top _ 5 L d HS); [|exact Hnin].
  apply (Permutation_in _ (Permutation_sym Hp)), Hd.
Qed.

Lemma top_income_spec_witness :
  exists s, calculate_weekly_stats sample_week = Ok s /\
    List.length (top_income_transactions s) = 2%nat.
Proof.
  destruct (calculate_weekly_stats sample_week) as [s|e] eqn:E; [|vm_compute in E; discriminate E].
  exists s; split; [reflexivity|].
  destruct (top_income_spec _ _ E) as (Hl & _); rewrite Hl.
  vm_compute in E; injection E as <-; reflexivity.
Defined.

Lemma simplify_spec (t : Transaction) (d : TxnDict) :
  simplify t = Ok d ->
  d_date d = date t /\ d_payee d = payee t /\ d_notes d = notes t /\
  d_category d = match category t with
                 | None | Some EmptyString => UNCATEGORIZED_LABEL
                 | Some c => c
                 end /\
  flt_lt_int (d_amount d) 0 = (amount t <? 0) /\ int_lt_flt 0 (d_amount d) = (0 <? amount t).
Proof.
  unfold simplify; destruct (py_truediv (amount t) 100) as [a|e] eqn:Ea; cbn [bind]; [|discriminate].
  intro H; injection H as <-; cbn [d_date d_payee d_notes d_category d_amount].
  split; [reflexivity|]; split; [reflexivity|]; split; [reflexivity|]; split.
  - unfold or_uncategorized, truthy_str, or_empty; destruct (category t) as [[|x c]|]; reflexivity.
  - apply truediv100_sign, Ea.
Qed.

(** [simplified_transactions] has one entry per surviving transaction, in
    order, carrying its date, payee and notes, its category or the
    uncategorized label, and an amount of the same sign as the cents. *)
Theorem simplified_transactions_spec (ts : list Transaction) (s : WeeklyStats) :
  calculate_weekly_stats ts = Ok s ->
  Forall2 (fun t d =>
    d_date d = date t /\ d_payee d = payee t /\ d_notes d = notes t /\
    d_category d = match category t with
                   | None | Some EmptyString => UNCATEGORIZED_LABEL
                   | Some c => c
                   end /\
    flt_lt_int (d_amount d) 0 = (amount t <? 0) /\ int_lt_flt 0 (d_amount d) = (0 <? amount t))
  (valid_txns ts) (simplified_transactions s).
Proof.
  intro H; destruct (weekly_stats_fields _ _ H) as (_ & _ & Hs & _).
  apply (Forall2_mono _ _ _ _ simplify_spec), mapM_Forall2, Hs.
Qed.

Lemma simplified_transactions_spec_witness :
  exists s, calculate_weekly_stats sample_week = Ok s /\
    List.length (simplified_transactions s) = 8%nat.
Proof.
  destruct (calculate_weekly_stats sample_week) as [s|e] eqn:E; [|vm_compute in E; discriminate E].
  exists s; split; [reflexivity|].
  rewrite <- (Forall2_length (simplified_transactions_spec _ _ E)).
  vm_compute; reflexivity.
Defined.

(** [large_transactions] has one entry, in order, per surviving
    transaction whose absolute amount is at least the threshold, with its
    date, payee, notes and category label and a positive amount. *)
Theorem large_transactions_spec (ts : list Transaction) (s : WeeklyStats) :
  calculate_weekly_stats ts = Ok s ->
  Forall2 (fun t d =>
    d_date d = date t /\ d_payee d = payee t /\ d_notes d = notes t /\
    d_category d = match category t with
                   | None | Some EmptyString => UNCATEGORIZED_LABEL
                   | Some c => c
                   end /\
    int_lt_flt 0 (d_amount d) = true)
  (filter (fun t => LARGE_TRANSACTION_THRESHOLD <=? Z.abs (amount t)) (valid_txns ts))
  (large_transactions s).
Proof.
  intro H; destruct (weekly_stats_fields _ _ H) as (_ & _ & _ & Hl & _).
  assert (HF : Forall (fun t => Z.leb LARGE_TRANSACTION_THRESHOLD (Z.abs (amount t)) = true)
                 (filter (fun t => LARGE_TRANSACTION_THRESHOLD <=? Z.abs (amount t)) (valid_txns ts)))
    by (apply Forall_forall; intros t Ht; apply filter_In in Ht; apply Ht).
  apply mapM_Forall2 in Hl; revert HF.
  induction Hl as [|t d l r Htd _ IH]; intro HF; constructor;
    inversion HF as [|? ? Ht HF']; subst; [|exact (IH HF')].
  apply Z.leb_le in Ht; unfold LARGE_TRANSACTION_THRESHOLD in Ht.
  unfold large_entry in Htd.
  destruct (py_truediv (Z.abs (amount t)) 100) as [a|e] eqn:Ea; cbn [bind] in Htd; [|discriminate].
  injection Htd as <-; cbn [d_date d_payee d_notes d_category d_amount].
  split; [reflexivity|]; split; [reflexivity|]; split; [reflexivity|]; split.
  - unfold or_uncategorized, truthy_str, or_empty; destruct (category t) as [[|x c]|]; reflexivity.
  - rewrite (proj2 (truediv100_sign _ _ Ea)); apply Z.ltb_lt; lia.
Qed.

Lemma large_transactions_spec_witness :
  exists s, calculate_weekly_stats sample_week = Ok s /\ List.length (large_transactions s) = 3%nat.
Proof.
  destruct (calculate_weekly_stats sample_week) as [s|e] eqn:E; [|vm_compute in E; discriminate E].
  exists s; split; [reflexivity|].
  rewrite <- (Forall2_length (large_transactions_spec _ _ E)).
  vm_compute; reflexivity.
Defined.


Lemma mapM_err {A B} (f : A -> res B) (l : list A) (e : exn) :
  mapM f l = Err e -> exists x, In x l /\ f x = Err e.
Proof.
  induction l as [|x l IH]; cbn [mapM]; [discriminate|].
  destruct (f x) as [y|e'] eqn:Ef; cbn [bind].
  - destruct (mapM f l) as [r|e'']; cbn [bind]; [discriminate|].
    intro H; destruct (IH H) as (z & Hz & Hfz); exists z; split; [right|]; assumption.
  - intro H; injection H as <-; exists x; split; [left; reflexivity | exact Ef].
Qed.

Lemma mapM_ok {A B} (f : A -> res B) (l : list A) :
  (forall x, In x l -> exists y, f x = Ok y) -> exists r, mapM f l = Ok r.
Proof.
  induction l as [|x l IH]; intro H; cbn [mapM]; [eauto|].
  destruct (H x (or_introl eq_refl)) as [y ->]; cbn [bind].
  destruct IH as [r ->]; [intros z Hz; apply H; right; exact Hz|]; cbn [bind]; eauto.
Qed.

Lemma strptime_err (s : string) (e : exn) : strptime_ymd s = Err e -> e = ValueError.
Proof.
  unfold strptime_ymd.
  repeat match goal with
  | |- context [match ?x with _ => _ end] => destruct x
  | |- context [if ?b then _ else _] => destruct b
  end; intro H; try discriminate; injection H as <-; reflexivity.
Qed.

Lemma truediv100_err (a : Z) (e : exn) :
  py_truediv a 100 = Err e -> e = OverflowError /\ 2 ^ 977 <= Z.abs a.
Proof.
  intro H; split.
  - revert H; unfold py_truediv; simpl (100 =? 0); cbv iota.
    destruct (round_div a 100); intro H; try discriminate; injection H as <-; reflexivity.
  - destruct (Z.lt_ge_cases (Z.abs a) (2 ^ 977)) as [Hl|]; [|assumption].
    destruct (truediv100_ok a Hl) as [f Hf]; congruence.
Qed.

(** ** Errors of [calculate_weekly_stats] *)

(** [calculate_weekly_stats] raises only two errors: [ValueError], when the
    date of a surviving transaction does not parse, and [OverflowError],
    when a surviving amount is so large that [amount / 100] overflows. *)
Theorem weekly_stats_errors (ts : list Transaction) (e : exn) :
  calculate_weekly_stats ts = Err e ->
  (e = ValueError /\ exists t, In t (valid_txns ts) /\ strptime_ymd (date t) = Err ValueError) \/
  (e = OverflowError /\ exists t, In t (valid_txns ts) /\ 2 ^ 977 <= Z.abs (amount t)).
Proof.
  unfold calculate_weekly_stats.
  destruct (valid_txns ts) as [|t0 vs0] eqn:Ev; [discriminate|].
  rewrite <- Ev.
  destruct (mapM (fun t => strptime_ymd (date t)) (valid_txns ts)) as [dates|e1] eqn:Ed;
    cbn [bind].
  2:{ intro H; injection H as <-; left.
      destruct (mapM_err _ _ _ Ed) as (t & Ht & Hp).
      pose proof (strptime_err _ _ Hp) as ->; split; [reflexivity|eauto]. }
  destruct (py_min dates), (py_max dates); try discriminate.
  destruct (mapM simplify (valid_txns ts)) as [sim|e2] eqn:Es; cbn [bind].
  2:{ intro H; injection H as <-; right.
      destruct (mapM_err _ _ _ Es) as (t & Ht & Hp); unfold simplify in Hp.
      destruct (py_truediv (amount t) 100) as [a|e3] eqn:Ea; cbn [bind] in Hp; [discriminate|].
      injection Hp as ->; destruct (truediv100_err _ _ Ea) as [-> Hb]; eauto. }
  destruct (mapM large_entry _) as [lg|e2] eqn:El; cbn [bind]; [discriminate|].
  intro H; injection H as <-; right.
  destruct (mapM_err _ _ _ El) as (t & Ht & Hp); apply filter_In in Ht; unfold large_entry in Hp.
  destruct (py_truediv (Z.abs (amount t)) 100) as [a|e3] eqn:Ea; cbn [bind] in Hp; [discriminate|].
  injection Hp as ->; destruct (truediv100_err _ _ Ea) as [-> Hb].
  rewrite Z.abs_idemp in Hb; split; [reflexivity|exists t; split; [apply Ht|exact Hb]].
Qed.

Definition bad_date_week : list Transaction :=
  [ mkTransaction "b1"%string "2024-02-30"%string (-1200) "Grocer"%string (Some "Food"%string) "Checking"%string None false ].

Lemma weekly_stats_errors_witness :
  calculate_weekly_stats bad_date_week = Err ValueError /\
  exists t, In t (valid_txns bad_date_week) /\ strptime_ymd (date t) = Err ValueError.
Proof.
  assert (H : calculate_weekly_stats bad_date_week = Err ValueError) by reflexivity.
  split; [exact H|].
  destruct (weekly_stats_errors _ _ H) as [[_ Hx] | [Hc _]]; [exact Hx | discriminate Hc].
Defined.

(** When every surviving transaction has a date that parses and an amount
    below [2 ^ 977] in absolute value, [calculate_weekly_stats] returns a
    record without raising. *)
Theorem weekly_stats_ok (ts : list Transaction) :
  (forall t, In t (valid_txns ts) ->
     (exists d, strptime_ymd (date t) = Ok d) /\ Z.abs (amount t) < 2 ^ 977) ->
  exists s, calculate_weekly_stats ts = Ok s.
Proof.
  intro H; unfold calculate_weekly_stats.
  destruct (valid_txns ts) as [|t0 vs0] eqn:Ev; [eauto|].
  rewrite <- Ev; rewrite <- Ev in H.
  destruct (mapM_ok (fun t => strptime_ymd (date t)) (valid_txns ts)) as [dates Ed];
    [intros t Ht; apply (H t Ht)|].
  rewrite Ed; cbn [bind].
  destruct (py_min dates), (py_max dates); try eauto.
  destruct (mapM_ok simplify (valid_txns ts)) as [sim Es].
  { intros t Ht; unfold simplify.
    destruct (truediv100_ok (amount t) (proj2 (H t Ht))) as [a ->]; cbn [bind]; eauto. }
  rewrite Es; cbn [bind].
  destruct (mapM_ok large_entry (filter (fun t => LARGE_TRANSACTION_THRESHOLD <=? Z.abs (amount t))
                                         (valid_txns ts))) as [lg El].
  { intros t Ht; apply filter_In in Ht; unfold large_entry.
    destruct (truediv100_ok (Z.abs (amount t))) as [a ->];
      [rewrite Z.abs_idemp; apply (H t (proj1 Ht))|]; cbn [bind]; eauto. }
  rewrite El; cbn [bind]; eauto.
Qed.

Lemma weekly_stats_ok_witness :
  (forall t, In t (valid_txns sample_week) ->
     (exists d, strptime_ymd (date t) = Ok d) /\ Z.abs (amount t) < 2 ^ 977) /\
  exists s, calculate_weekly_stats sample_week = Ok s.
Proof.
  assert (H : forall t, In t (valid_txns sample_week) ->
     (exists d, strptime_ymd (date t) = Ok d) /\ Z.abs (amount t) < 2 ^ 977).
  { intros t Ht; vm_compute in Ht.
    repeat (destruct Ht as [<-|Ht]; [split; [eexists; vm_compute; reflexivity | vm_compute; reflexivity]|]).
    destruct Ht. }
  split; [exact H | exact (weekly_stats_ok sample_week H)].
Defined.

(** ** The week bounds *)

Lemma week_bounds_core (ts : list Transaction) (s : WeeklyStats) :
  valid_txns ts <> [] -> calculate_weekly_stats ts = Ok s ->
  exists dmin dmax,
    week_start s = strftime_ymd dmin /\ week_end s = strftime_ymd dmax /\
    (exists t, In t (valid_txns ts) /\ strptime_ymd (date t) = Ok dmin) /\
    (exists t, In t (valid_txns ts) /\ strptime_ymd (date t) = Ok dmax) /\
    forall t, In t (valid_txns ts) ->
      exists d, strptime_ymd (date t) = Ok d /\ dt_lt d dmin = false /\ dt_lt dmax d = false.
Proof.
  intros Hne; unfold calculate_weekly_stats.
  destruct (valid_txns ts) as [|t0 vs0] eqn:Ev; [contradiction|].
  rewrite <- Ev.
  destruct (mapM (fun t => strptime_ymd (date t)) (valid_txns ts)) as [dates|e1] eqn:Ed;
    cbn [bind]; [|discriminate].
  apply mapM_Forall2 in Ed.
  assert (Hin : forall d, In d dates -> exists t, In t (valid_txns ts) /\ strptime_ymd (date t) = Ok d).
  { clear -Ed; induction Ed as [|t d l r Htd _ IH]; intros x Hx; [destruct Hx|].
    destruct Hx as [<-|Hx].
    - exists t; split; [left; reflexivity | exact Htd].
    - destruct (IH x Hx) as (u & Hu & Hp); exists u; split; [right|]; assumption. }
  assert (Hall : forall t, In t (valid_txns ts) -> exists d, In d dates /\ strptime_ymd (date t) = Ok d).
  { clear -Ed; induction Ed as [|t d l r Htd _ IH]; intros x Hx; [destruct Hx|].
    destruct Hx as [<-|Hx]; [exists d; split; [left; reflexivity | exact Htd]|].
    destruct (IH x Hx) as (u & Hu & Hp); exists u; split; [right|]; assumption. }
  destruct dates as [|d0 ds].
  { rewrite Ev in Ed; inversion Ed. }
  cbn [py_min py_max].
  destruct (min_from_spec d0 ds) as [Hmin1 Hmin2].
  destruct (max_from_spec d0 ds) as [Hmax1 Hmax2].
  destruct (mapM simplify _); cbn [bind]; [|discriminate].
  destruct (mapM large_entry _); cbn [bind]; [|discriminate].
  intro H; injection H as <-; cbn [week_start week_end].
  exists (min_from d0 ds), (max_from d0 ds).
  split; [reflexivity|]; split; [reflexivity|].
  split; [apply Hin, Hmin1|]; split; [apply Hin, Hmax1|].
  intros t Ht; destruct (Hall t Ht) as (d & Hd & Hp).
  exists d; split; [exact Hp|]; split; [apply Hmin2 | apply Hmax2]; exact Hd.
Qed.

(** For a non-empty surviving list, [week_start] and [week_end] are the
    formatted earliest and latest dates among the surviving transactions:
    both dates belong to surviving transactions, and every surviving date
    lies between them. *)
Theorem week_bounds_spec (ts : list Transaction) (s : WeeklyStats) :
  valid_txns ts <> [] -> calculate_weekly_stats ts = Ok s ->
  exists dmin dmax,
    week_start s = strftime_ymd dmin /\ week_end s = strftime_ymd dmax /\
    (exists t, In t (valid_txns ts) /\ strptime_ymd (date t) = Ok dmin) /\
    (exists t, In t (valid_txns ts) /\ strptime_ymd (date t) = Ok dmax) /\
    forall t, In t (valid_txns ts) ->
      exists d, strptime_ymd (date t) = Ok d /\ dt_lt d dmin = false /\ dt_lt dmax d = false.
Proof. exact (week_bounds_core ts s). Qed.

Lemma week_bounds_spec_witness :
  exists s dmin dmax, calculate_weekly_stats sample_week = Ok s /\
    week_start s = strftime_ymd dmin /\ week_end s = strftime_ymd dmax /\
    week_start s = "2024-01-01"%string /\ week_end s = "2024-01-06"%string.
Proof.
  destruct (calculate_weekly_stats sample_week) as [s|e] eqn:E; [|vm_compute in E; discriminate E].
  assert (Hne : valid_txns sample_week <> []) by (vm_compute; discriminate).
  destruct (week_bounds_spec _ _ Hne E) as (dmin & dmax & H1 & H2 & _).
  exists s, dmin, dmax; split; [reflexivity|]; split; [exact H1|]; split; [exact H2|].
  vm_compute in E; injection E as <-; split; reflexivity.
Defined.


(** ** The anomaly list *)

(** [[a for a in anomalies if a.type == ty]]. *)
Definition of_type (ty : string) (a : Anomaly) : bool := String.eqb (a_type a) ty.

(** [[a for a in anomalies if a.severity == sv]], as [send_weekly_report]
    selects the high ones. *)
Definition of_severity (sv : string) (a : Anomaly) : bool := String.eqb (severity a) sv.

(** The type and severity pairs the code writes. *)
Definition ANOMALY_KINDS : list (string * string) :=
  [("uncategorized_cluster", "medium"); ("large_transaction", "low");
   ("spike", "high"); ("drop", "low"); ("category_spike", "medium")]%string.

Lemma filter_none {A} (f : A -> bool) (l : list A) :
  (forall a, In a l -> f a = false) -> filter f l = [].
Proof.
  induction l as [|x l IH]; intro H; simpl; [reflexivity|].
  rewrite (H x (or_introl eq_refl)); apply IH; intros a Ha; apply H; right; exact Ha.
Qed.

Lemma filter_all_true {A} (f : A -> bool) (l : list A) :
  (forall a, In a l -> f a = true) -> filter f l = l.
Proof.
  induction l as [|x l IH]; intro H; simpl; [reflexivity|].
  rewrite (H x (or_introl eq_refl)), IH; [reflexivity|]; intros a Ha; apply H; right; exact Ha.
Qed.

Lemma total_check_kinds (cur prev : WeeklyStats) (l : list Anomaly) :
  total_check cur prev = Ok l ->
  (List.length l <= 1)%nat /\
  forall a, In a l -> (a_type a = "spike"%string /\ severity a = "high"%string) \/
                     (a_type a = "drop"%string /\ severity a = "low"%string).
Proof.
  intro H; apply total_check_spec in H
    as [[_ ->] | [_ (r & _ & [[_ ->] | [[_ [_ ->]] | [_ [_ ->]]]])]];
    (split; [simpl; lia|]); intros a Ha;
    try (destruct Ha as [<-|[]]; simpl; auto); destruct Ha.
Qed.

Lemma standalone_kinds (cur : WeeklyStats) (a : Anomaly) :
  In a (uncategorized_check cur ++ large_checks cur) ->
  (a_type a = "uncategorized_cluster"%string /\ severity a = "medium"%string) \/
  (a_type a = "large_transaction"%string /\ severity a = "low"%string).
Proof.
  intro H; apply in_app_iff in H as [H|H].
  - unfold uncategorized_check in H.
    destruct (UNCATEGORIZED_THRESHOLD <? uncategorized_count cur);
      [destruct H as [<-|[]]; left; split; reflexivity | destruct H].
  - unfold large_checks in H; apply in_map_iff in H as (txn & <- & _); right; split; reflexivity.
Qed.

Lemma detect_anomalies_parts (cur : WeeklyStats) (prev : option WeeklyStats) (r : list Anomaly) :
  detect_anomalies cur prev = Ok r ->
  exists a3 a4, r = uncategorized_check cur ++ large_checks cur ++ a3 ++ a4 /\
    (prev = None -> a3 = [] /\ a4 = []) /\
    (forall p, prev = Some p -> total_check cur p = Ok a3 /\
                                category_checks p (category_breakdown cur) = Ok a4).
Proof.
  unfold detect_anomalies; destruct prev as [p|].
  - destruct (total_check cur p) as [a3|e] eqn:E3; cbn [bind]; [|discriminate].
    destruct (category_checks p _) as [a4|e] eqn:E4; cbn [bind]; [|discriminate].
    intro H; injection H as <-; exists a3, a4; split; [reflexivity|]; split; [discriminate|].
    intros q Hq; injection Hq as <-; split; assumption.
  - intro H; injection H as <-; exists [], []; split; [rewrite !app_nil_r; reflexivity|].
    split; [split; reflexivity | discriminate].
Qed.

Lemma anomaly_kinds_all (cur : WeeklyStats) (prev : option WeeklyStats) (r : list Anomaly) :
  detect_anomalies cur prev = Ok r ->
  forall a, In a r ->
    (a_type a = "uncategorized_cluster"%string /\ severity a = "medium"%string) \/
    (a_type a = "large_transaction"%string /\ severity a = "low"%string) \/
    (a_type a = "spike"%string /\ severity a = "high"%string) \/
    (a_type a = "drop"%string /\ severity a = "low"%string) \/
    (a_type a = "category_spike"%string /\ severity a = "medium"%string).
Proof.
  intro H; destruct (detect_anomalies_parts _ _ _ H) as (a3 & a4 & -> & H0 & H1).
  intros a Ha; rewrite app_assoc in Ha; apply in_app_iff in Ha as [Ha|Ha].
  - destruct (standalone_kinds cur a Ha) as [?|?]; tauto.
  - destruct prev as [p|]; [|destruct (H0 eq_refl) as [-> ->]; destruct Ha].
    destruct (H1 p eq_refl) as [E3 E4].
    apply in_app_iff in Ha as [Ha|Ha].
    + destruct (proj2 (total_check_kinds _ _ _ E3) a Ha); tauto.
    + pose proof (category_checks_types _ _ _ E4 a Ha); tauto.
Qed.

(** Every anomaly [detect_anomalies] returns carries one of five type and
    severity pairs, and at most one of them has severity "high" (the
    total-expense spike). *)
Theorem anomaly_severity (cur : WeeklyStats) (prev : option WeeklyStats) (r : list Anomaly) :
  detect_anomalies cur prev = Ok r ->
  Forall (fun a => In (a_type a, severity a) ANOMALY_KINDS) r /\
  (List.length (filter (of_severity "high") r) <= 1)%nat.
Proof.
  intro H; split.
  - apply Forall_forall; intros a Ha.
    destruct (anomaly_kinds_all _ _ _ H a Ha) as [[-> ->]|[[-> ->]|[[-> ->]|[[-> ->]|[-> ->]]]]];
      simpl; tauto.
  - destruct (detect_anomalies_parts _ _ _ H) as (a3 & a4 & -> & H0 & H1).
    assert (Hs : forall l, (forall a, In a l -> severity a <> "high"%string) ->
                           filter (of_severity "high") l = []).
    { intros l Hl; apply filter_none; intros a Ha; apply String.eqb_neq, Hl, Ha. }
    rewrite app_assoc, filter_app.
    rewrite (Hs (uncategorized_check cur ++ large_checks cur)).
    2:{ intros a Ha; destruct (standalone_kinds cur a Ha) as [[_ ->]|[_ ->]]; discriminate. }
    destruct prev as [p|]; [|destruct (H0 eq_refl) as [-> ->]; simpl; lia].

    destruct (H1 p eq_refl) as [E3 E4].
    rewrite filter_app.
    rewrite (Hs a4) by (intros a Ha; rewrite (proj2 (category_checks_types _ _ _ E4 a Ha)); discriminate).
    rewrite app_nil_r; cbn [app].
    pose proof (proj1 (total_check_kinds _ _ _ E3)).
    pose proof (filter_length_le (of_severity "high") a3); lia.
Qed.

(** Reports of the two sample weeks below: this week's spending is up by
    half, the Food category doubles, seven expenses are uncategorized and
    one transaction is large. *)
Definition large_payment : TxnDict :=
  mkTxnDict "2024-01-09"%string "Landlord"%string (round_div 120000 100) "Rent"%string None.

Definition this_week : WeeklyStats :=
  mkWeeklyStats "2024-01-08" "2024-01-14" 0 150000 (-150000)
    [("Food", 30000); ("Rent", 120000)]%string [] [] [] 7 [large_payment] [] 21428.

Definition last_week : WeeklyStats :=
  mkWeeklyStats "2024-01-01" "2024-01-07" 0 100000 (-100000)
    [("Food", 15000); ("Rent", 85000)]%string [] [] [] 0 [] [] 14285.

Lemma anomaly_severity_witness :
  exists r, detect_anomalies this_week (Some last_week) = Ok r /\
    Forall (fun a => In (a_type a, severity a) ANOMALY_KINDS) r /\
    List.length (filter (of_severity "high") r) = 1%nat /\ List.length r = 5%nat.
Proof.
  destruct (detect_anomalies this_week (Some last_week)) as [r|e] eqn:E;
    [|vm_compute in E; discriminate E].
  exists r; split; [reflexivity|].
  split; [exact (proj1 (anomaly_severity _ _ _ E))|].
  vm_compute in E; injection E as <-; split; reflexivity.
Defined.

(** The "large_transaction" anomalies are exactly the entries of
    [large_transactions], in order, each carried as the anomaly's data;
    there is one "uncategorized_cluster" anomaly when more than five
    expenses are uncategorized, and none otherwise. *)
Theorem anomalies_large_uncategorized (cur : WeeklyStats) (prev : option WeeklyStats) (r : list Anomaly) :
  detect_anomalies cur prev = Ok r ->
  map data (filter (of_type "large_transaction") r) = map DataTxn (large_transactions cur) /\
  List.length (filter (of_type "uncategorized_cluster") r) =
    (if UNCATEGORIZED_THRESHOLD <? uncategorized_count cur then 1%nat else 0%nat).
Proof.
  intro H; destruct (detect_anomalies_parts _ _ _ H) as (a3 & a4 & -> & H0 & H1).
  assert (Hrest : forall a, In a (a3 ++ a4) ->
            a_type a = "spike"%string \/ a_type a = "drop"%string \/ a_type a = "category_spike"%string).
  { intros a Ha; destruct prev as [p|]; [|destruct (H0 eq_refl) as [-> ->]; destruct Ha].
    destruct (H1 p eq_refl) as [E3 E4]; apply in_app_iff in Ha as [Ha|Ha].
    - destruct (total_check_types _ _ _ E3 a Ha); tauto.
    - rewrite (proj1 (category_checks_types _ _ _ E4 a Ha)); tauto. }
  assert (Hl : forall a, In a (large_checks cur) -> a_type a = "large_transaction"%string)
    by (intros a Ha; apply in_map_iff in Ha as (x & <- & _); reflexivity).
  rewrite app_assoc, filter_app; split.
  - rewrite (filter_none (of_type "large_transaction") (a3 ++ a4)).
    2:{ intros a Ha; apply String.eqb_neq; destruct (Hrest a Ha) as [-> | [-> | ->]]; discriminate. }
    rewrite app_nil_r, filter_app.
    rewrite (filter_none (of_type "large_transaction") (uncategorized_check cur)).
    2:{ intros a Ha; unfold uncategorized_check in Ha.
        destruct (UNCATEGORIZED_THRESHOLD <? uncategorized_count cur);
          [destruct Ha as [<-|[]]; reflexivity | destruct Ha]. }
    rewrite (filter_all_true (of_type "large_transaction") (large_checks cur)).
    2:{ intros a Ha; apply String.eqb_eq, Hl, Ha. }
    cbn [app]; unfold large_checks; rewrite map_map; reflexivity.
  - rewrite filter_app, (filter_none (of_type "uncategorized_cluster") (a3 ++ a4)).
    2:{ intros a Ha; apply String.eqb_neq; destruct (Hrest a Ha) as [-> | [-> | ->]]; discriminate. }
    rewrite app_nil_r, filter_app.
    rewrite (filter_none (of_type "uncategorized_cluster") (large_checks cur)).
    2:{ intros a Ha; apply String.eqb_neq; rewrite (Hl a Ha); discriminate. }
    rewrite app_nil_r; unfold uncategorized_check.
    destruct (UNCATEGORIZED_THRESHOLD <? uncategorized_count cur); reflexivity.
Qed.

Lemma anomalies_large_uncategorized_witness :
  exists r, detect_anomalies this_week (Some last_week) = Ok r /\
    map data (filter (of_type "large_transaction") r) = [DataTxn large_payment] /\
    List.length (filter (of_type "uncategorized_cluster") r) = 1%nat.
Proof.
  destruct (detect_anomalies this_week (Some last_week)) as [r|e] eqn:E;
    [|vm_compute in E; discriminate E].
  exists r; split; [reflexivity|].
  destruct (anomalies_large_uncategorized _ _ _ E) as [H1 H2]; split; [exact H1|].
  rewrite H2; reflexivity.
Defined.

(** [detect_anomalies] never raises without a previous record; with one,
    the only error is [OverflowError] (the divisions it performs are all
    guarded by a positive divisor, so no [ZeroDivisionError]). *)
Theorem detect_anomalies_errors (cur : WeeklyStats) (prev : option WeeklyStats) (e : exn) :
  detect_anomalies cur prev = Err e -> e = OverflowError /\ prev <> None.
Proof.
  unfold detect_anomalies; destruct prev as [p|]; [|discriminate].
  intro H; split; [|discriminate].
  destruct (total_check cur p) as [a3|e3] eqn:E3; cbn [bind] in H.
  - destruct (category_checks p (category_breakdown cur)) as [a4|e4] eqn:E4; cbn [bind] in H;
      [discriminate|].
    injection H as <-.
    clear E3; revert E4; generalize (category_breakdown cur) as es.
    induction es as [|[cat amt] es IH]; intro E4; cbn [category_checks] in E4; [discriminate|].
    destruct (category_check p (cat, amt)) as [l1|e1] eqn:E1; cbn [bind] in E4.
    + destruct (category_checks p es) as [l2|e2] eqn:E2; cbn [bind] in E4; [discriminate|].
      injection E4 as ->; exact (IH eq_refl).
    + injection E4 as ->; unfold category_check in E1.
      destruct (0 <? dict_get_or (category_breakdown p) cat 0); [|discriminate].
      destruct (py_float_of_int _) eqn:Ef; cbn [bind] in E1.
      * destruct (flt_lt_int _ amt); [|discriminate].
        destruct (py_truediv amt 100) eqn:Ea; cbn [bind] in E1;
          [|injection E1 as <-; exact (proj1 (truediv100_err _ _ Ea))].
        destruct (py_truediv (dict_get_or (category_breakdown p) cat 0) 100) eqn:Eb;
          cbn [bind] in E1; [discriminate|].
        injection E1 as <-; exact (proj1 (truediv100_err _ _ Eb)).
      * injection E1 as <-; unfold py_float_of_int in Ef.
        destruct (binary_normalize prec emax _ 0 false); try discriminate;
          injection Ef as <-; reflexivity.
  - injection H as ->; unfold total_check in E3.
    destruct (0 <? total_expense p) eqn:Hp; [|discriminate].
    unfold py_truediv in E3.
    replace (total_expense p =? 0) with false in E3 by (symmetry; apply Z.eqb_neq; apply Z.ltb_lt in Hp; lia).
    destruct (round_div _ _); cbn [bind] in E3;
      try (destruct (flt_lt SPIKE_THRESHOLD _); [|destruct (flt_lt _ DROP_THRESHOLD)]; discriminate);
      injection E3 as <-; reflexivity.
Qed.

Lemma detect_anomalies_errors_witness :
  detect_anomalies (stats_with (2 ^ 1100) []) (Some (stats_with 1 [])) = Err OverflowError /\
  detect_anomalies (stats_with 1 [("Food"%string, 10 ^ 311)])
    (Some (stats_with (10 ^ 10) [("Food"%string, 1)])) = Err OverflowError /\
  Some (stats_with (10 ^ 10) [("Food"%string, 1)]) <> None.
Proof.
  assert (H : detect_anomalies (stats_with (2 ^ 1100) []) (Some (stats_with 1 [])) = Err OverflowError)
    by (vm_compute; reflexivity).
  assert (H' : detect_anomalies (stats_with 1 [("Food"%string, 10 ^ 311)])
                 (Some (stats_with (10 ^ 10) [("Food"%string, 1)])) = Err OverflowError)
    by (vm_compute; reflexivity).
  split; [exact H|]; split; [exact H' | exact (proj2 (detect_anomalies_errors _ _ _ H'))].
Defined.

(** [calculate_budget_health] raises only [OverflowError], and only for a
    budget whose total is positive: a missing or empty budget, and a total
    of zero or below, never raise. *)
Theorem budget_health_errors (stats : WeeklyStats) (mb : option (dict Z)) (e : exn) :
  calculate_budget_health stats mb = Err e ->
  e = OverflowError /\ exists b, mb = Some b /\ 0 < sum_Z (map snd b).
Proof.
  unfold calculate_budget_health; destruct mb as [[|x b]|]; try discriminate.
  set (l := x :: b); destruct (0 <? sum_Z (map snd l)) eqn:Ht; cbn [bind].
  - unfold py_truediv.
    replace (sum_Z (map snd l) =? 0) with false by (symmetry; apply Z.eqb_neq; apply Z.ltb_lt in Ht; lia).
    destruct (round_div _ _); cbn [bind];
      try (destruct (if num_lt_flt _ HEALTHY_BOUND then _ else _); discriminate).
    intro H; injection H as <-; split; [reflexivity|]; exists l; split; [reflexivity|]; apply Z.ltb_lt, Ht.
  - destruct (if num_lt_flt (VInt 0) HEALTHY_BOUND then _ else _); discriminate.
Qed.

Lemma budget_health_errors_witness :
  calculate_budget_health (stats_with (2 ^ 1100) []) (Some [("Food"%string, 1)]) = Err OverflowError /\
  OverflowError = OverflowError.
Proof.
  assert (H : calculate_budget_health (stats_with (2 ^ 1100) []) (Some [("Food"%string, 1)]) = Err OverflowError)
    by (vm_compute; reflexivity).
  split; [exact H | exact (proj1 (budget_health_errors _ _ _ H))].
Defined.


(** ** [date.fromordinal], [datetime.weekday] and [datetime - timedelta]

    [_ord2ymd] of CPython's datetime module, with its [divmod]s (floor
    division) and its month estimate [(n + 50) >> 5]. *)

Definition DI400Y : Z := 146097.
Definition DI100Y : Z := 36524.
Definition DI4Y : Z := 1461.
Definition MAXORDINAL : Z := 3652059.

(** [_DAYS_IN_MONTH[m]] for [1 <= m <= 12]. *)
Definition DAYS_IN_MONTH (m : Z) : Z :=
  match m with
  | 2 => 28
  | 4 | 6 | 9 | 11 => 30
  | _ => 31
  end.

(** The month of the day [n] (counted from 0) of a year, and the days
    before that month: the tail of [_ord2ymd]. *)
Definition month_preceding (n : Z) (leapyear : bool) : Z * Z :=
  let month := Z.shiftr (n + 50) 5 in
  let preceding := DAYS_BEFORE_MONTH month + (if (2 <? month) && leapyear then 1 else 0) in
  if n <? preceding then
    let month := month - 1 in
    (month, preceding - (DAYS_IN_MONTH month + (if (month =? 2) && leapyear then 1 else 0)))
  else (month, preceding).

Definition ord2ymd (n : Z) : Z * Z * Z :=
  let n := n - 1 in
  let n400 := n / DI400Y in
  let n := n mod DI400Y in
  let year := n400 * 400 + 1 in
  let n100 := n / DI100Y in
  let n := n mod DI100Y in
  let n4 := n / DI4Y in
  let n := n mod DI4Y in
  let n1 := n / 365 in
  let n := n mod 365 in
  let year := year + (n100 * 100 + n4 * 4 + n1) in
  if (n1 =? 4) || (n100 =? 4) then (year - 1, 12, 31)
  else
    let leapyear := (n1 =? 3) && (negb (n4 =? 24) || (n100 =? 3)) in
    let '(month, preceding) := month_preceding n leapyear in
    (year, month, n - preceding + 1).

(** [date.fromordinal(n)]. *)
Definition fromordinal (n : Z) : datetime :=
  let '(y, m, d) := ord2ymd n in mkDatetime y m d.

(** [_check_date_fields]: [MINYEAR <= year <= MAXYEAR], a month, and a
    day of that month. *)
Definition valid_date (d : datetime) : bool :=
  (1 <=? dt_year d) && (dt_year d <=? 9999) && (1 <=? dt_month d) && (dt_month d <=? 12) &&
  (1 <=? dt_day d) && (dt_day d <=? days_in_month (dt_year d) (dt_month d)).

(** [datetime.weekday()]: [(self.toordinal() + 6) % 7], Monday is 0. *)
Definition weekday (d : datetime) : Z := (ymd2ord d + 6) mod 7.

(** [d - timedelta(days=k)]: [datetime.__add__] of [-k] days keeps the
    time of day, takes [date.fromordinal] of the new day number, and
    raises [OverflowError] unless [0 < days <= _MAXORDINAL]. *)
Definition sub_days (d : datetime) (k : Z) : res datetime :=
  let o := ymd2ord d - k in
  if (0 <? o) && (o <=? MAXORDINAL) then Ok (fromordinal o) else Err OverflowError.

(** Lines 75-77 of [generate_weekly_report]. *)
Definition days_since_sunday (reference_date : datetime) : Z :=
  let k := weekday reference_date + 1 in
  if k =? 7 then 0 else k.

(** Lines 78-79: [(week_start, week_end)]. *)
Definition report_week (reference_date : datetime) : res (datetime * datetime) :=
  week_end <- sub_days reference_date (days_since_sunday reference_date) ;;
  week_start <- sub_days week_end 6 ;;
  Ok (week_start, week_end).

(** Lines 111-112: [(prev_week_start, prev_week_end)]. *)
Definition previous_week (week_start week_end : datetime) : res (datetime * datetime) :=
  prev_week_start <- sub_days week_start 7 ;;
  prev_week_end <- sub_days week_end 7 ;;
  Ok (prev_week_start, prev_week_end).

(** The month table, checked on every day of a year. *)
Definition month_ok (n : Z) (leap : bool) : bool :=
  let '(m, p) := month_preceding n leap in
  (1 <=? m) && (m <=? 12) &&
  (p =? DAYS_BEFORE_MONTH m + (if (2 <? m) && leap then 1 else 0)) &&
  (p <=? n) && (n - p <? DAYS_IN_MONTH m + (if (m =? 2) && leap then 1 else 0)).

Fixpoint months_ok (k : nat) : bool :=
  match k with
  | O => true
  | S k' => month_ok (Z.of_nat k') false && month_ok (Z.of_nat k') true && months_ok k'
  end.

Lemma months_ok_365 : months_ok 365 = true.
Proof. vm_compute; reflexivity. Qed.

Lemma months_ok_spec (k : nat) (n : Z) (leap : bool) :
  months_ok k = true -> 0 <= n < Z.of_nat k -> month_ok n leap = true.
Proof.
  induction k as [|k IH]; intros H Hn; [lia|].
  cbn [months_ok] in H; apply andb_true_iff in H as [H Hk]; apply andb_true_iff in H as [H0 H1].
  destruct (Z.eq_dec n (Z.of_nat k)) as [->|Hne]; [destruct leap; assumption|].
  apply IH; [exact Hk | lia].
Qed.

Lemma month_preceding_spec (n : Z) (leap : bool) (m p : Z) :
  0 <= n <= 364 -> month_preceding n leap = (m, p) ->
  1 <= m <= 12 /\ p = DAYS_BEFORE_MONTH m + (if (2 <? m) && leap then 1 else 0) /\
  0 <= n - p < DAYS_IN_MONTH m + (if (m =? 2) && leap then 1 else 0).
Proof.
  intros Hn Hmp.
  pose proof (months_ok_spec 365 n leap months_ok_365 ltac:(lia)) as H.
  unfold month_ok in H; rewrite Hmp in H.
  repeat rewrite andb_true_iff in H.
  destruct H as ((((H1 & H2) & H3) & H4) & H5).
  apply Z.leb_le in H1, H2, H4; apply Z.eqb_eq in H3; apply Z.ltb_lt in H5; lia.
Qed.

Lemma days_before_year_cycle (a b c e : Z) :
  0 <= a -> 0 <= b <= 3 -> 0 <= c <= 24 -> 0 <= e <= 3 ->
  days_before_year (400 * a + 100 * b + 4 * c + e + 1) = 146097 * a + 36524 * b + 1461 * c + 365 * e.
Proof. intros; unfold days_before_year; Z.div_mod_to_equations; lia. Qed.

Lemma days_before_year_succ (y : Z) :
  days_before_year (y + 1) = days_before_year y + 365 + (if is_leap y then 1 else 0).
Proof.
  unfold days_before_year, is_leap.
  destruct (Z.eqb_spec (y mod 4) 0), (Z.eqb_spec (y mod 100) 0), (Z.eqb_spec (y mod 400) 0);
    simpl; Z.div_mod_to_equations; lia.
Qed.

Lemma is_leap_cycle (a b c e : Z) :
  0 <= a -> 0 <= b <= 3 -> 0 <= c <= 24 -> 0 <= e <= 3 ->
  is_leap (400 * a + 100 * b + 4 * c + e + 1) = (e =? 3) && (negb (c =? 24) || (b =? 3)).
Proof.
  intros; unfold is_leap.
  destruct (Z.eqb_spec ((400 * a + 100 * b + 4 * c + e + 1) mod 4) 0),
           (Z.eqb_spec ((400 * a + 100 * b + 4 * c + e + 1) mod 100) 0),
           (Z.eqb_spec ((400 * a + 100 * b + 4 * c + e + 1) mod 400) 0),
           (Z.eqb_spec e 3), (Z.eqb_spec c 24), (Z.eqb_spec b 3);
    simpl; try reflexivity; exfalso; Z.div_mod_to_equations; lia.
Qed.

Lemma days_in_month_table (y m : Z) :
  1 <= m <= 12 ->
  days_in_month y m = DAYS_IN_MONTH m + (if (m =? 2) && is_leap y then 1 else 0).
Proof.
  intro Hm; assert (Hc : m = 1 \/ m = 2 \/ m = 3 \/ m = 4 \/ m = 5 \/ m = 6 \/ m = 7 \/
                         m = 8 \/ m = 9 \/ m = 10 \/ m = 11 \/ m = 12) by lia.
  repeat destruct Hc as [->|Hc]; try (subst; reflexivity).
  unfold days_in_month; simpl; destruct (is_leap y); reflexivity.
Qed.

(** The digits of [n - 1] in the mixed radix of [_ord2ymd]. *)
Lemma ord2ymd_parts (n : Z) :
  1 <= n ->
  exists a b c e r,
    n - 1 = 146097 * a + 36524 * b + 1461 * c + 365 * e + r /\
    0 <= a /\ 0 <= b <= 4 /\ 0 <= c <= 24 /\ 0 <= e <= 4 /\ 0 <= r <= 364 /\
    (b = 4 -> c = 0 /\ e = 0 /\ r = 0) /\ (e = 4 -> r = 0) /\ (c = 24 -> e <= 3) /\
    ord2ymd n =
      if (e =? 4) || (b =? 4) then (400 * a + 100 * b + 4 * c + e, 12, 31)
      else let '(m, p) := month_preceding r ((e =? 3) && (negb (c =? 24) || (b =? 3))) in
           (400 * a + 100 * b + 4 * c + e + 1, m, r - p + 1).
Proof.
  intro Hn; unfold ord2ymd, DI400Y, DI100Y, DI4Y.
  set (a := (n - 1) / 146097); set (r1 := (n - 1) mod 146097).
  set (b := r1 / 36524); set (r2 := r1 mod 36524).
  set (c := r2 / 1461); set (r3 := r2 mod 1461).
  set (e := r3 / 365); set (r := r3 mod 365).
  assert (E1 := Z.div_mod (n - 1) 146097 ltac:(lia)); assert (B1 := Z.mod_pos_bound (n - 1) 146097 ltac:(lia)).
  assert (E2 := Z.div_mod r1 36524 ltac:(lia)); assert (B2 := Z.mod_pos_bound r1 36524 ltac:(lia)).
  assert (E3 := Z.div_mod r2 1461 ltac:(lia)); assert (B3 := Z.mod_pos_bound r2 1461 ltac:(lia)).
  assert (E4 := Z.div_mod r3 365 ltac:(lia)); assert (B4 := Z.mod_pos_bound r3 365 ltac:(lia)).
  fold a r1 b r2 c r3 e r in E1, B1, E2, B2, E3, B3, E4, B4.
  assert (Ha : 0 <= a) by (apply Z.div_pos; lia).
  exists a, b, c, e, r.
  split; [lia|]; split; [lia|].
  split; [lia|]; split; [lia|]; split; [lia|]; split; [lia|].
  split; [lia|]; split; [lia|]; split; [lia|].
  destruct ((e =? 4) || (b =? 4)); [f_equal; f_equal; lia|].
  destruct (month_preceding r _) as [m p]; f_equal; f_equal; lia.
Qed.

(** [toordinal] undoes [fromordinal]. *)
Lemma ymd2ord_fromordinal (n : Z) : 1 <= n -> ymd2ord (fromordinal n) = n.
Proof.
  intro Hn; destruct (ord2ymd_parts n Hn)
    as (a & b & c & e & r & En & Ha & Hb & Hc & He & Hr & Hb4 & He4 & Hc24 & Eo).
  unfold fromordinal; rewrite Eo.
  destruct (Z.eqb_spec e 4) as [He'|He'], (Z.eqb_spec b 4) as [Hb'|Hb']; cbn [orb].
  - destruct (Hb4 Hb'); lia.
  - specialize (He4 He'); subst e.
    unfold ymd2ord, days_before_month; cbn [dt_year dt_month dt_day].
    replace (400 * a + 100 * b + 4 * c + 4) with (400 * a + 100 * b + 4 * c + 3 + 1) by lia.
    rewrite days_before_year_cycle, is_leap_cycle by lia.
    replace (c =? 24) with false by (symmetry; apply Z.eqb_neq; intro; subst; lia).
    change (DAYS_BEFORE_MONTH 12) with 334.
    replace ((2 <? 12) && ((3 =? 3) && (negb false || (b =? 3)))) with true by reflexivity.
    lia.
  - destruct (Hb4 Hb') as (-> & -> & ->); subst b.
    unfold ymd2ord, days_before_month; cbn [dt_year dt_month dt_day].
    replace (400 * a + 100 * 4 + 4 * 0 + 0) with (400 * a + 100 * 3 + 4 * 24 + 3 + 1) by lia.
    rewrite days_before_year_cycle, is_leap_cycle by lia.
    change (DAYS_BEFORE_MONTH 12) with 334.
    replace ((2 <? 12) && ((3 =? 3) && (negb (24 =? 24) || (3 =? 3)))) with true by reflexivity.
    lia.
  - destruct (month_preceding r _) as [m p] eqn:Emp.
    destruct (month_preceding_spec r _ m p ltac:(lia) Emp) as (Hm & Hp & _).
    unfold ymd2ord, days_before_month; cbn [dt_year dt_month dt_day].
    rewrite days_before_year_cycle, is_leap_cycle by lia.
    lia.
Qed.

(** [fromordinal n] is a valid date for every [1 <= n <= MAXORDINAL]. *)
Lemma valid_fromordinal (n : Z) : 1 <= n <= MAXORDINAL -> valid_date (fromordinal n) = true.
Proof.
  intro Hn; destruct (ord2ymd_parts n ltac:(lia))
    as (a & b & c & e & r & En & Ha & Hb & Hc & He & Hr & Hb4 & He4 & Hc24 & Eo).
  unfold MAXORDINAL in Hn.
  unfold fromordinal, valid_date; rewrite Eo.
  destruct (Z.eqb_spec e 4) as [He'|He'], (Z.eqb_spec b 4) as [Hb'|Hb']; cbn [orb].
  1-3: cbn beta iota; cbn [dt_year dt_month dt_day];
       match goal with |- context [days_in_month ?y 12] =>
         replace (days_in_month y 12) with 31 by reflexivity end;
       try destruct (Hb4 Hb') as (? & ? & ?);
       repeat (apply andb_true_iff; split); apply Z.leb_le; lia.
  destruct (month_preceding r _) as [m p] eqn:Emp.
  destruct (month_preceding_spec r _ m p ltac:(lia) Emp) as (Hm & Hp & Hd).
  cbn [dt_year dt_month dt_day].
  rewrite days_in_month_table, is_leap_cycle by lia.
  repeat (apply andb_true_iff; split); apply Z.leb_le; lia.
Qed.

(** The bounds of [toordinal] on valid dates. *)
Lemma days_before_month_le (y m : Z) :
  1 <= m <= 12 -> days_before_month y m + days_in_month y m <= 365 + (if is_leap y then 1 else 0).
Proof.
  intro Hm; assert (Hc : m = 1 \/ m = 2 \/ m = 3 \/ m = 4 \/ m = 5 \/ m = 6 \/ m = 7 \/
                         m = 8 \/ m = 9 \/ m = 10 \/ m = 11 \/ m = 12) by lia.
  unfold days_before_month, days_in_month.
  repeat destruct Hc as [->|Hc]; try subst; simpl; destruct (is_leap y); simpl; lia.
Qed.

Lemma ymd2ord_range (d : datetime) :
  valid_date d = true -> 1 <= ymd2ord d <= MAXORDINAL.
Proof.
  destruct d as [y m dd]; unfold valid_date; cbn [dt_year dt_month dt_day].
  repeat rewrite andb_true_iff; rewrite !Z.leb_le; intros (((((H1 & H2) & H3) & H4) & H5) & H6).
  pose proof (days_before_month_le y m ltac:(lia)) as Hm.
  pose proof (days_before_year_succ y) as Hs.
  assert (Hdbm : 0 <= days_before_month y m)
    by (unfold days_before_month; destruct ((2 <? m) && is_leap y);
        assert (Hc : m = 1 \/ m = 2 \/ m = 3 \/ m = 4 \/ m = 5 \/ m = 6 \/ m = 7 \/
                     m = 8 \/ m = 9 \/ m = 10 \/ m = 11 \/ m = 12) by lia;
        repeat destruct Hc as [->|Hc]; try subst; simpl; lia).
  assert (Hy : 0 <= days_before_year y /\ days_before_year (y + 1) <= days_before_year 10000).
  { unfold days_before_year; Z.div_mod_to_equations; lia. }
  unfold ymd2ord, MAXORDINAL; cbn [dt_year dt_month dt_day].
  change (days_before_year 10000) with 3652059 in Hy.
  destruct (is_leap y); lia.
Qed.

Lemma weekday_fromordinal (n : Z) : 1 <= n -> weekday (fromordinal n) = (n + 6) mod 7.
Proof. intro Hn; unfold weekday; rewrite ymd2ord_fromordinal by exact Hn; reflexivity. Qed.

Lemma sub_days_ok (d d' : datetime) (k : Z) :
  sub_days d k = Ok d' ->
  1 <= ymd2ord d - k <= MAXORDINAL /\ ymd2ord d' = ymd2ord d - k /\ valid_date d' = true.
Proof.
  unfold sub_days; destruct (Z.ltb_spec 0 (ymd2ord d - k)), (Z.leb_spec (ymd2ord d - k) MAXORDINAL);
    cbn [andb]; intro Hs; try discriminate.
  injection Hs as <-; split; [lia|]; split.
  - apply ymd2ord_fromordinal; lia.
  - apply valid_fromordinal; lia.
Qed.

Lemma sub_days_err (d : datetime) (k : Z) (e : exn) :
  sub_days d k = Err e -> e = OverflowError /\ (ymd2ord d - k <= 0 \/ MAXORDINAL < ymd2ord d - k).
Proof.
  unfold sub_days; destruct (Z.ltb_spec 0 (ymd2ord d - k)), (Z.leb_spec (ymd2ord d - k) MAXORDINAL);
    cbn [andb]; intro Hs; try discriminate; injection Hs as <-; split; auto; lia.
Qed.

(** ** The report window of [generate_weekly_report] *)

Lemma report_week_core (ref ws we : datetime) :
  report_week ref = Ok (ws, we) ->
  weekday we = 6 /\ weekday ws = 0 /\
  ymd2ord we <= ymd2ord ref <= ymd2ord we + 6 /\ ymd2ord ws + 6 = ymd2ord we /\
  valid_date ws = true /\ valid_date we = true.
Proof.
  unfold report_week.
  destruct (sub_days ref (days_since_sunday ref)) as [we'|e] eqn:E1; cbn [bind]; [|discriminate].
  destruct (sub_days we' 6) as [ws'|e] eqn:E2; cbn [bind]; [|discriminate].
  intro H; injection H as <- <-.
  destruct (sub_days_ok _ _ _ E1) as (R1 & O1 & V1).
  destruct (sub_days_ok _ _ _ E2) as (R2 & O2 & V2).
  unfold weekday; rewrite O2, O1.
  unfold days_since_sunday, weekday in *.
  destruct (Z.eqb_spec ((ymd2ord ref + 6) mod 7 + 1) 7);
    repeat split; try assumption; Z.div_mod_to_equations; lia.
Qed.

(** The week of the report ends on the Sunday on or before the reference
    date (at most six days before it) and starts on the Monday six days
    earlier; both are valid dates. *)
Theorem report_week_spec (ref ws we : datetime) :
  report_week ref = Ok (ws, we) ->
  weekday we = 6 /\ weekday ws = 0 /\
  ymd2ord we <= ymd2ord ref <= ymd2ord we + 6 /\ ymd2ord ws + 6 = ymd2ord we /\
  valid_date ws = true /\ valid_date we = true.
Proof. exact (report_week_core ref ws we). Qed.

Lemma report_week_spec_witness :
  exists ws we, report_week (mkDatetime 2024 1 10) = Ok (ws, we) /\
    weekday we = 6 /\ weekday ws = 0 /\ strftime_ymd ws = "2024-01-01"%string /\
    strftime_ymd we = "2024-01-07"%string.
Proof.
  destruct (report_week (mkDatetime 2024 1 10)) as [[ws we]|e] eqn:E; [|vm_compute in E; discriminate E].
  exists ws, we; split; [reflexivity|].
  destruct (report_week_spec _ _ _ E) as (H1 & H2 & _); split; [exact H1|]; split; [exact H2|].
  vm_compute in E; injection E as <- <-; split; reflexivity.
Defined.

(** On a valid reference date the window fails only with [OverflowError],
    exactly when its Sunday would fall within the first six days of year
    1 or earlier. *)
Theorem report_week_errors (ref : datetime) :
  valid_date ref = true ->
  (forall e, report_week ref = Err e -> e = OverflowError) /\
  (report_week ref = Err OverflowError <-> ymd2ord ref - days_since_sunday ref <= 6).
Proof.
  intro Hv; pose proof (ymd2ord_range ref Hv) as Hr.
  assert (Hd : 0 <= days_since_sunday ref <= 6)
    by (unfold days_since_sunday, weekday; destruct (Z.eqb_spec ((ymd2ord ref + 6) mod 7 + 1) 7);
        Z.div_mod_to_equations; lia).
  unfold report_week.
  destruct (sub_days ref (days_since_sunday ref)) as [we|e] eqn:E1; cbn [bind].
  - destruct (sub_days_ok _ _ _ E1) as (R1 & O1 & _).
    destruct (sub_days we 6) as [ws|e] eqn:E2; cbn [bind].
    + split; [discriminate|]; split; [discriminate|].
      intro; destruct (sub_days_ok _ _ _ E2) as (R2 & _); lia.
    + destruct (sub_days_err _ _ _ E2) as [-> Hb].
      split; [intros e' H; injection H as <-; reflexivity|].
      split; [intros _; lia | reflexivity].
  - destruct (sub_days_err _ _ _ E1) as [-> Hb].
    split; [intros e' H; injection H as <-; reflexivity|].
    split; [intros _; lia | reflexivity].
Qed.

Lemma report_week_errors_witness :
  valid_date (mkDatetime 1 1 1) = true /\ report_week (mkDatetime 1 1 1) = Err OverflowError.
Proof.
  assert (Hv : valid_date (mkDatetime 1 1 1) = true) by reflexivity.
  split; [exact Hv|].
  apply (proj2 (proj2 (report_week_errors _ Hv))); vm_compute; discriminate.
Defined.

(** The comparison window of [generate_weekly_report] is the week just
    before the report week: it ends on the Sunday the day before the
    report week starts, and starts on the Monday seven days before. *)
Theorem previous_week_adjacent (ref ws we ps pe : datetime) :
  report_week ref = Ok (ws, we) -> previous_week ws we = Ok (ps, pe) ->
  ymd2ord pe + 1 = ymd2ord ws /\ ymd2ord ps + 6 = ymd2ord pe /\
  weekday ps = 0 /\ weekday pe = 6 /\ valid_date ps = true /\ valid_date pe = true.
Proof.
  intros Hw Hp; destruct (report_week_core _ _ _ Hw) as (Wd1 & Wd2 & _ & Hse & _).
  unfold previous_week in Hp.
  destruct (sub_days ws 7) as [ps'|e] eqn:E1; cbn [bind] in Hp; [|discriminate].
  destruct (sub_days we 7) as [pe'|e] eqn:E2; cbn [bind] in Hp; [|discriminate].
  injection Hp as <- <-.
  destruct (sub_days_ok _ _ _ E1) as (_ & O1 & V1).
  destruct (sub_days_ok _ _ _ E2) as (_ & O2 & V2).
  unfold weekday in *; rewrite O1, O2.
  repeat split; try assumption; try lia; Z.div_mod_to_equations; lia.
Qed.

Lemma previous_week_adjacent_witness :
  exists ws we ps pe, report_week (mkDatetime 2024 1 10) = Ok (ws, we) /\
    previous_week ws we = Ok (ps, pe) /\ ymd2ord pe + 1 = ymd2ord ws /\
    strftime_ymd ps = "2023-12-25"%string /\ strftime_ymd pe = "2023-12-31"%string.
Proof.
  destruct (report_week (mkDatetime 2024 1 10)) as [[ws we]|e] eqn:E; [|vm_compute in E; discriminate E].
  destruct (previous_week ws we) as [[ps pe]|e] eqn:P; [|vm_compute in E; injection E as <- <-; discriminate P].
  exists ws, we, ps, pe; split; [reflexivity|]; split; [exact P|].
  split; [exact (proj1 (previous_week_adjacent _ _ _ _ _ E P))|].
  vm_compute in E; injection E as <- <-; vm_compute in P; injection P as <- <-; split; reflexivity.
Defined.


(** ** Dates as strings and as [YYYYMMDD] ints ([actual_client]) *)

(** [s.replace('-', '')]. *)
Fixpoint replace_dash (s : string) : string :=
  match s with
  | EmptyString => EmptyString
  | String c s' => if Ascii.eqb c "-"%char then replace_dash s' else String c (replace_dash s')
  end.

(** Lines 94-95 of [get_transactions]: [date_str = str(t.date)] and
    [f"{date_str[:4]}-{date_str[4:6]}-{date_str[6:]}"]; slices past the
    end are empty, as [substring] makes them. *)
Definition row_date_fmt (d : Z) : string :=
  let date_str := str_of_int d in
  (substring 0 4 date_str ++ "-" ++ substring 4 2 date_str ++ "-" ++
   substring 6 (String.length date_str - 6) date_str)%string.

(** The [YYYYMMDD] int Actual stores for a date. *)
Definition date_int (d : datetime) : Z := 10000 * dt_year d + 100 * dt_month d + dt_day d.

(** A row of Actual's [transactions] table with the names of the objects
    it links to: [payee] is [t.payee.name] when [t.payee] is set,
    [transfer] is [t.transfer] with the name of its account when it has
    one, [category] and [account] likewise. *)
Record Row := mkRow {
  r_id : string;
  r_date : Z;
  r_amount : Z;
  r_payee : option string;
  r_transfer : option (option string);
  r_category : option string;
  r_account : option string;
  r_notes : option string;
  r_transferred_id : option string;
  r_is_parent : Z;
  r_tombstone : Z
}.

(** Lines 85-88. *)
Definition row_payee (t : Row) : string :=
  let payee_name := match r_payee t with Some n => n | None => ""%string end in
  match payee_name, r_transfer t with
  | EmptyString, Some acct =>
      match acct with
      | Some a => ("Transfer: " ++ a)%string
      | None => "Transfer"%string
      end
  | _, _ => payee_name
  end.

(** Lines 84-106: one [Transaction] per row. *)
Definition row_to_txn (t : Row) : Transaction :=
  let category_name := match r_category t with Some n => n | None => ""%string end in
  let account_name := match r_account t with Some n => n | None => ""%string end in
  mkTransaction (r_id t) (row_date_fmt (r_date t)) (r_amount t) (row_payee t)
    (Some category_name) account_name (r_notes t)
    (match r_transferred_id t with Some _ => true | None => false end).

(** Lines 75-108, from [start_int] and [end_int] on: the query keeps the
    rows dated in [[start_int, end_int]] that are neither split parents
    nor deleted, in the order the database returns them. *)
Definition get_transactions (rows : list Row) (start_int end_int : Z) : list Transaction :=
  map row_to_txn
    (filter (fun t => (start_int <=? r_date t) && (r_date t <=? end_int) &&
                      (r_is_parent t =? 0) && (r_tombstone t =? 0)) rows).

(** ** Lemmas *)

Lemma digit_val_char (k : Z) : 0 <= k <= 9 -> digit_val (digit_char k) = Some k.
Proof.
  intro Hk; assert (Hc : k = 0 \/ k = 1 \/ k = 2 \/ k = 3 \/ k = 4 \/ k = 5 \/ k = 6 \/
                         k = 7 \/ k = 8 \/ k = 9) by lia.
  repeat destruct Hc as [->|Hc]; try subst; reflexivity.
Qed.

Lemma digit_char_not_dash (k : Z) : 0 <= k <= 9 -> Ascii.eqb (digit_char k) "-"%char = false.
Proof.
  intro Hk; assert (Hc : k = 0 \/ k = 1 \/ k = 2 \/ k = 3 \/ k = 4 \/ k = 5 \/ k = 6 \/
                         k = 7 \/ k = 8 \/ k = 9) by lia.
  repeat destruct Hc as [->|Hc]; try subst; reflexivity.
Qed.

Lemma parse_month_pad2 (m : Z) : 1 <= m <= 12 -> parse_month (pad2 m) = Some m.
Proof.
  intro Hm; assert (Hc : m = 1 \/ m = 2 \/ m = 3 \/ m = 4 \/ m = 5 \/ m = 6 \/ m = 7 \/
                         m = 8 \/ m = 9 \/ m = 10 \/ m = 11 \/ m = 12) by lia.
  repeat destruct Hc as [->|Hc]; try subst; reflexivity.
Qed.

Lemma parse_day_pad2 (d : Z) : 1 <= d <= 31 -> parse_day (pad2 d) = Some d.
Proof.
  intro Hd.
  assert (H : forall k : nat, (k < 31)%nat -> parse_day (pad2 (Z.of_nat k + 1)) = Some (Z.of_nat k + 1)).
  { intros k Hk; do 31 (destruct k as [|k]; [reflexivity|]); lia. }
  replace d with (Z.of_nat (Z.to_nat (d - 1)) + 1) by lia.
  apply H; lia.
Qed.

Lemma days_in_month_le (y m : Z) : days_in_month y m <= 31.
Proof.
  unfold days_in_month; destruct (is_leap y), m as [|p|p]; try lia;
    repeat (destruct p as [p|p|]; simpl; try lia).
Qed.


Lemma pad2_split (m d : Z) :
  0 <= m < 100 -> 0 <= d < 100 ->
  split_dash (pad2 m ++ String "-" (pad2 d)) = Some (pad2 m, pad2 d).
Proof.
  intros Hm Hd; unfold pad2; cbn [append split_dash].
  rewrite !digit_char_not_dash by (Z.div_mod_to_equations; lia); reflexivity.
Qed.

(** [str(y)] of a positive int below 10000, by its number of digits. *)
Ltac unroll_digits y k lo :=
  intros Hy; unfold str_of_int;
  replace (y <? 0) with false by (symmetry; apply Z.ltb_ge; lia);
  let Hl := fresh "Hl" in
  assert (Hl : lo <= Z.log2 y) by (change lo with (Z.log2 (2 ^ lo)); apply Z.log2_le_mono; lia);
  replace (Z.to_nat (Z.log2 y + 1)) with (k + (Z.to_nat (Z.log2 y + 1) - k))%nat by lia;
  cbn [Nat.add digits_rev];
  repeat match goal with
  | |- context [?x <? 10] =>
      first [ replace (x <? 10) with false by (symmetry; apply Z.ltb_ge; Z.div_mod_to_equations; lia)
            | replace (x <? 10) with true by (symmetry; apply Z.ltb_lt; Z.div_mod_to_equations; lia) ]
  end;
  cbv beta iota zeta;
  try unfold pad4, pad2;
  repeat match goal with
  | |- String _ _ = String _ _ => apply f_equal2; [apply (f_equal digit_char)|]
  end;
  try reflexivity; Z.div_mod_to_equations; lia.

Lemma str_of_int_1 (y : Z) : 1 <= y <= 9 -> str_of_int y = String (digit_char y) EmptyString.
Proof. unroll_digits y 1%nat 0. Qed.

Lemma str_of_int_2 (y : Z) :
  10 <= y <= 99 -> str_of_int y = String (digit_char (y / 10)) (String (digit_char (y mod 10)) EmptyString).
Proof. unroll_digits y 2%nat 3. Qed.

Lemma str_of_int_3 (y : Z) :
  100 <= y <= 999 ->
  str_of_int y = String (digit_char (y / 100)) (String (digit_char ((y / 10) mod 10))
                   (String (digit_char (y mod 10)) EmptyString)).
Proof. unroll_digits y 3%nat 6. Qed.

Lemma str_of_int_4 (y : Z) : 1000 <= y <= 9999 -> str_of_int y = pad4 y.
Proof. unroll_digits y 4%nat 9. Qed.

Lemma strftime_ymd_4 (d : datetime) :
  1000 <= dt_year d <= 9999 ->
  strftime_ymd d = (pad4 (dt_year d) ++ "-" ++ pad2 (dt_month d) ++ "-" ++ pad2 (dt_day d))%string.
Proof. intro H; unfold strftime_ymd; rewrite str_of_int_4 by exact H; reflexivity. Qed.

(** [strptime(..., "%Y-%m-%d")] of [strftime("%Y-%m-%d")]: the date back
    when the year has four digits, [ValueError] otherwise ([%Y] of
    [strptime] reads exactly four digits). *)
Lemma strptime_strftime_year (d : datetime) :
  valid_date d = true ->
  strptime_ymd (strftime_ymd d) = if 1000 <=? dt_year d then Ok d else Err ValueError.
Proof.
  destruct d as [y m dd]; intro Hv; pose proof Hv as Hv'.
  unfold valid_date in Hv; cbn [dt_year dt_month dt_day] in Hv |- *.
  repeat rewrite andb_true_iff in Hv; rewrite !Z.leb_le in Hv.
  destruct Hv as (((((H1 & H2) & H3) & H4) & H5) & H6).
  pose proof (days_in_month_le y m).
  destruct (Z.leb_spec 1000 y) as [Hy|Hy].
  - rewrite strftime_ymd_4 by (cbn; lia); unfold pad4; cbn [dt_year dt_month dt_day].
    unfold strptime_ymd; cbn [append].
    change (pad2 (y mod 100) ++ ?r)%string
      with (String (digit_char ((y mod 100) / 10)) (String (digit_char ((y mod 100) mod 10)) r))%string.
    rewrite !digit_val_char by (Z.div_mod_to_equations; lia).
    change (Ascii.eqb "-" "-") with true; cbv iota.
    rewrite pad2_split by lia.
    rewrite parse_month_pad2, parse_day_pad2 by lia.
    replace (1000 * (y / 1000) + 100 * ((y / 100) mod 10) + 10 * (y mod 100 / 10) + y mod 100 mod 10)
      with y by (Z.div_mod_to_equations; lia).
    destruct (Z.leb_spec 1 y), (Z.leb_spec dd (days_in_month y m)); try lia; reflexivity.
  - unfold strftime_ymd; cbn [dt_year dt_month dt_day].
    destruct (Z.lt_ge_cases y 10) as [Y1|Y1]; [rewrite str_of_int_1 by lia|].
    2: destruct (Z.lt_ge_cases y 100) as [Y2|Y2]; [rewrite str_of_int_2 by lia | rewrite str_of_int_3 by lia].
    all: unfold pad2; cbn [append]; unfold strptime_ymd;
      rewrite !digit_val_char by (Z.div_mod_to_equations; lia); reflexivity.
Qed.

(** ** Theorems *)

(** [strftime("%Y-%m-%d")] then [strptime(..., "%Y-%m-%d")] gives back
    every valid date whose year has four digits; for a year below 1000,
    written without padding, [strptime] raises [ValueError]. *)
Theorem strptime_strftime (d : datetime) :
  valid_date d = true ->
  strptime_ymd (strftime_ymd d) = if 1000 <=? dt_year d then Ok d else Err ValueError.
Proof. exact (strptime_strftime_year d). Qed.

Lemma strptime_strftime_witness :
  valid_date (mkDatetime 2024 2 29) = true /\
  strptime_ymd (strftime_ymd (mkDatetime 2024 2 29)) = Ok (mkDatetime 2024 2 29) /\
  valid_date (mkDatetime 999 1 1) = true /\
  strftime_ymd (mkDatetime 999 1 1) = "999-01-01"%string /\
  strptime_ymd (strftime_ymd (mkDatetime 999 1 1)) = Err ValueError.
Proof.
  assert (H : valid_date (mkDatetime 2024 2 29) = true) by reflexivity.
  assert (H' : valid_date (mkDatetime 999 1 1) = true) by reflexivity.
  split; [exact H|]; split; [exact (strptime_strftime _ H)|].
  split; [exact H'|]; split; [reflexivity | exact (strptime_strftime _ H')].
Defined.

Lemma strftime_year_bounds (d : datetime) :
  valid_date d = true -> 1 <= dt_year d <= 9999 /\ 1 <= dt_month d <= 12 /\
  1 <= dt_day d <= days_in_month (dt_year d) (dt_month d).
Proof.
  destruct d as [y m dd]; unfold valid_date; cbn [dt_year dt_month dt_day].
  repeat rewrite andb_true_iff; rewrite !Z.leb_le; lia.
Qed.

(** [str(date_int d)] is the eight digits of [strftime] without its dashes. *)
Lemma str_of_date_int (d : datetime) :
  valid_date d = true -> 1000 <= dt_year d ->
  str_of_int (date_int d) = (pad4 (dt_year d) ++ pad2 (dt_month d) ++ pad2 (dt_day d))%string.
Proof.
  intros Hv Hy; destruct (strftime_year_bounds d Hv) as (Y & M & D).
  pose proof (days_in_month_le (dt_year d) (dt_month d)).
  destruct d as [y m dd]; cbn [dt_year dt_month dt_day] in *.
  unfold str_of_int, date_int; cbn [dt_year dt_month dt_day].
  set (n := 10000 * y + 100 * m + dd).
  assert (Hn : 10000000 <= n < 100000000) by (unfold n; lia).
  replace (n <? 0) with false by (symmetry; apply Z.ltb_ge; lia).
  assert (Hl : 23 <= Z.log2 n).
  { change 23 with (Z.log2 8388608); apply Z.log2_le_mono; lia. }
  destruct (Z.to_nat (Z.log2 n + 1)) as [|[|[|[|[|[|[|[|f]]]]]]]] eqn:Ef; try lia.
  cbn [digits_rev].
  replace (n <? 10) with false by (symmetry; apply Z.ltb_ge; Z.div_mod_to_equations; lia).
  replace (n / 10 <? 10) with false by (symmetry; apply Z.ltb_ge; Z.div_mod_to_equations; lia).
  replace (n / 10 / 10 <? 10) with false by (symmetry; apply Z.ltb_ge; Z.div_mod_to_equations; lia).
  replace (n / 10 / 10 / 10 <? 10) with false by (symmetry; apply Z.ltb_ge; Z.div_mod_to_equations; lia).
  replace (n / 10 / 10 / 10 / 10 <? 10) with false
    by (symmetry; apply Z.ltb_ge; Z.div_mod_to_equations; lia).
  replace (n / 10 / 10 / 10 / 10 / 10 <? 10) with false
    by (symmetry; apply Z.ltb_ge; Z.div_mod_to_equations; lia).
  replace (n / 10 / 10 / 10 / 10 / 10 / 10 <? 10) with false
    by (symmetry; apply Z.ltb_ge; Z.div_mod_to_equations; lia).
  replace (n / 10 / 10 / 10 / 10 / 10 / 10 / 10 <? 10) with true
    by (symmetry; apply Z.ltb_lt; Z.div_mod_to_equations; lia).
  unfold pad4, pad2; cbn [append].
  repeat match goal with
  | |- String _ _ = String _ _ => apply f_equal2; [apply (f_equal digit_char)|]
  end; [..|reflexivity]; unfold n; Z.div_mod_to_equations; lia.
Qed.

Lemma lower_app (s1 s2 : string) : lower (s1 ++ s2) = (lower s1 ++ lower s2)%string.
Proof. induction s1 as [|c s1 IH]; cbn; [reflexivity|]; rewrite IH; reflexivity. Qed.

Lemma transfer_payee_dropped (t : Transaction) (acct : option string) :
  payee t = match acct with Some a => ("Transfer: " ++ a)%string | None => "Transfer"%string end ->
  keep_txn t = false.
Proof.
  intro Hp; unfold keep_txn; destruct (is_transfer t); [reflexivity|].
  rewrite Hp; destruct acct as [a|]; [rewrite lower_app|]; reflexivity.
Qed.

(** The row dates of [get_transactions] are what [calculate_weekly_stats]
    parses: an Actual date int [YYYYMMDD] of a valid date [d] (year from
    1000 on) is formatted as [strftime("%Y-%m-%d")] of [d], and
    [strptime] reads [d] back. *)
Theorem row_date_roundtrip (d : datetime) :
  valid_date d = true -> 1000 <= dt_year d ->
  row_date_fmt (date_int d) = strftime_ymd d /\ strptime_ymd (row_date_fmt (date_int d)) = Ok d.
Proof.
  intros Hv Hy.
  assert (H : row_date_fmt (date_int d) = strftime_ymd d).
  { unfold row_date_fmt; rewrite (str_of_date_int d Hv Hy).
    destruct (strftime_year_bounds d Hv) as (Y & _).
    rewrite strftime_ymd_4 by lia; unfold pad4, pad2; reflexivity. }
  split; [exact H|]; rewrite H, strptime_strftime_year by exact Hv.
  replace (1000 <=? dt_year d) with true by (symmetry; apply Z.leb_le, Hy); reflexivity.
Qed.

Lemma row_date_roundtrip_witness :
  valid_date (mkDatetime 2024 3 9) = true /\ 1000 <= 2024 /\
  row_date_fmt 20240309 = "2024-03-09"%string /\
  strptime_ymd (row_date_fmt 20240309) = Ok (mkDatetime 2024 3 9).
Proof.
  assert (Hv : valid_date (mkDatetime 2024 3 9) = true) by reflexivity.
  destruct (row_date_roundtrip _ Hv ltac:(cbn; lia)) as [H1 H2].
  split; [exact Hv|]; split; [lia|]; split; [exact H1 | exact H2].
Defined.

(** The report window in the query of [get_transactions]: the key
    [start_date.replace('-', '')] of a window date is the decimal text of
    its [YYYYMMDD] int, and for valid dates the int range
    [start_int <= t.date <= end_int] holds exactly when the date lies
    between the window's first and last day. *)
Theorem query_window (a b d : datetime) :
  valid_date a = true -> valid_date b = true -> valid_date d = true ->
  1000 <= dt_year a -> 1000 <= dt_year b ->
  replace_dash (strftime_ymd a) = str_of_int (date_int a) /\
  replace_dash (strftime_ymd b) = str_of_int (date_int b) /\
  (date_int a <= date_int d <= date_int b <-> dt_lt d a = false /\ dt_lt b d = false).
Proof.
  intros Ha Hb Hd Hya Hyb.
  assert (Hr : forall x, valid_date x = true -> 1000 <= dt_year x ->
                 replace_dash (strftime_ymd x) = str_of_int (date_int x)).
  { intros x Hx Hyx; rewrite (str_of_date_int x Hx Hyx).
    destruct (strftime_year_bounds x Hx) as (Y & M & D).
    pose proof (days_in_month_le (dt_year x) (dt_month x)).
    rewrite strftime_ymd_4 by lia; unfold pad4, pad2; cbn [append replace_dash].
    rewrite !digit_char_not_dash by (Z.div_mod_to_equations; lia).
    change (Ascii.eqb "-" "-") with true; reflexivity. }
  split; [apply Hr; assumption|]; split; [apply Hr; assumption|].
  destruct (strftime_year_bounds a Ha) as (Ya & Ma & Da).
  destruct (strftime_year_bounds b Hb) as (Yb & Mb & Db).
  destruct (strftime_year_bounds d Hd) as (Yd & Md & Dd).
  pose proof (days_in_month_le (dt_year a) (dt_month a)).
  pose proof (days_in_month_le (dt_year b) (dt_month b)).
  pose proof (days_in_month_le (dt_year d) (dt_month d)).
  rewrite !dt_lt_nlex; unfold dt_lex, date_int; lia.
Qed.

Lemma query_window_witness :
  replace_dash (strftime_ymd (mkDatetime 2024 1 1)) = str_of_int 20240101 /\
  (date_int (mkDatetime 2024 1 1) <= date_int (mkDatetime 2024 1 5) <= date_int (mkDatetime 2024 1 7) <->
   dt_lt (mkDatetime 2024 1 5) (mkDatetime 2024 1 1) = false /\
   dt_lt (mkDatetime 2024 1 7) (mkDatetime 2024 1 5) = false).
Proof.
  destruct (query_window (mkDatetime 2024 1 1) (mkDatetime 2024 1 7) (mkDatetime 2024 1 5)
              eq_refl eq_refl eq_refl ltac:(cbn; lia) ltac:(cbn; lia)) as (H1 & _ & H3).
  split; [exact H1 | exact H3].
Defined.

(** What reaches the statistics from [get_transactions]: every transaction
    that survives the filter of [calculate_weekly_stats] comes from a live,
    non-parent row dated within the query range, with no
    [transferred_id], and that is not a payee-less row linked to a
    transfer (such rows get a "Transfer" payee and are dropped). *)
Theorem get_transactions_kept (rows : list Row) (lo hi : Z) (t : Transaction) :
  In t (valid_txns (get_transactions rows lo hi)) ->
  exists r, In r rows /\ t = row_to_txn r /\ lo <= r_date r <= hi /\
    r_is_parent r = 0 /\ r_tombstone r = 0 /\ r_transferred_id r = None /\
    (r_transfer r = None \/ exists c s, match r_payee r with Some n => n | None => ""%string end = String c s).
Proof.
  intro H; apply filter_In in H as [H Hk].
  unfold get_transactions in H; apply in_map_iff in H as (r & <- & Hr).
  apply filter_In in Hr as [Hr Hq].
  repeat rewrite andb_true_iff in Hq; destruct Hq as (((H1 & H2) & H3) & H4).
  apply Z.leb_le in H1, H2; apply Z.eqb_eq in H3, H4.
  exists r; split; [exact Hr|]; split; [reflexivity|]; split; [lia|]; split; [exact H3|]; split; [exact H4|].
  split.
  - destruct (r_transferred_id r) eqn:Et; [|reflexivity].
    unfold keep_txn in Hk; cbn [is_transfer row_to_txn] in Hk; rewrite Et in Hk; discriminate.
  - destruct (r_transfer r) as [acct|] eqn:Etr; [|left; reflexivity].
    right; destruct (match r_payee r with Some n => n | None => ""%string end) as [|c s] eqn:Ep; [|eauto].
    exfalso; rewrite (transfer_payee_dropped (row_to_txn r) acct) in Hk; [discriminate|].
    cbn [payee row_to_txn]; unfold row_payee; rewrite Ep, Etr; reflexivity.
Qed.

Definition sample_rows : list Row :=
  [ mkRow "r1" 20240103 (-1500) (Some "Grocer") None (Some "Food") (Some "Checking") None None 0 0;
    mkRow "r2" 20240104 (-50000) None (Some (Some "Savings")) None (Some "Checking") None None 0 0;
    mkRow "r3" 20240104 50000 (Some "Checking") (Some (Some "Checking")) None (Some "Savings") None (Some "r2") 0 0;
    mkRow "r4" 20231231 (-900) (Some "Cafe") None (Some "Food") (Some "Card") None None 0 0;
    mkRow "r5" 20240105 (-700) (Some "Cafe") None (Some "Food") (Some "Card") None None 0 1 ]%string.

Lemma get_transactions_kept_witness :
  In (row_to_txn (List.hd (mkRow "" 0 0 None None None None None None 0 0) sample_rows))
     (valid_txns (get_transactions sample_rows 20240101 20240107)) /\
  List.length (valid_txns (get_transactions sample_rows 20240101 20240107)) = 1%nat /\
  exists r, In r sample_rows /\ r_date r = 20240103 /\ r_transferred_id r = None.
Proof.
  assert (H : In (row_to_txn (List.hd (mkRow "" 0 0 None None None None None None 0 0) sample_rows))
                 (valid_txns (get_transactions sample_rows 20240101 20240107)))
    by (vm_compute; left; reflexivity).
  split; [exact H|]; split; [vm_compute; reflexivity|].
  destruct (get_transactions_kept _ _ _ _ H) as (r & Hr & Ht & Hd & _ & _ & Hn & _).
  exists r; split; [exact Hr|]; split; [|exact Hn].
  assert (Hdt : date (row_to_txn r) = "2024-01-03"%string) by (rewrite <- Ht; reflexivity).
  destruct Hr as [<-|[<-|[<-|[<-|[<-|[]]]]]]; try reflexivity; vm_compute in Hdt; discriminate Hdt.
Defined.




(** ** [DiscordNotifier.send_report]: the message length limit *)

(** A Python [str] as its sequence of code points; [len] counts them. *)
Definition pystr := list Z.

Definition DOTS : pystr := [46; 46; 46].

(** Lines 22-24: [if len(content) > 2000: content = content[:1997] + "..."]. *)
Definition discord_content (content : pystr) : pystr :=
  if 2000 <? Z.of_nat (List.length content) then firstn 1997 content ++ DOTS else content.

(** The [content] that [send_report] posts never exceeds Discord's 2000
    characters: a message within the limit is posted unchanged, a longer
    one as exactly 2000 characters, its first 1997 followed by "...". *)
Theorem discord_content_limit (content : pystr) :
  (List.length (discord_content content) <= 2000)%nat /\
  ((List.length content <= 2000)%nat -> discord_content content = content) /\
  ((2000 < List.length content)%nat ->
   List.length (discord_content content) = 2000%nat /\
   discord_content content = firstn 1997 content ++ DOTS).
Proof.
  unfold discord_content; destruct (Z.ltb_spec 2000 (Z.of_nat (List.length content))) as [Hl|Hl].
  - assert (Hf : List.length (firstn 1997 content ++ DOTS) = 2000%nat)
      by (rewrite length_app, length_firstn; cbn [List.length DOTS]; lia).
    repeat split; try lia; intros; assumption || reflexivity.
  - repeat split; try lia; intros; assumption || lia || reflexivity.
Qed.

Lemma discord_content_limit_witness :
  (2000 < List.length (repeat 65 2500))%nat /\
  List.length (discord_content (repeat 65 2500)) = 2000%nat /\
  discord_content (repeat 65 2500) = repeat 65 1997 ++ DOTS.
Proof.
  assert (H : (2000 < List.length (repeat 65 2500))%nat) by (rewrite repeat_length; lia).
  destruct (discord_content_limit (repeat 65 2500)) as (_ & _ & H3).
  destruct (H3 H) as [E1 E2]; split; [exact H|]; split; [exact E1|].
  rewrite E2; vm_compute; reflexivity.
Defined.
